(** * Travel aggregation pipeline: a shallow embedding of the planner modules

    The development follows the Python modules under
    [travel_assistant/utils]: price parsing ([hotel_scraper.py]),
    name-based deduplication ([duckduckgo_hotel_search.py],
    [duckduckgo_activity_search.py]), ranking ([trip_planner_tool.py],
    [hotel_scraper.py]), the retry loops of [amadeus_api_handler.py] and
    the two planners ([trip_planner_tool.py],
    [amadeus_trip_planner_tool.py]).

    Conventions.  Where the code copies and compares texts, a Python
    [str] is a [string], the bytes of its UTF-8 encoding, and [PyStr]
    has the character classes and the [lower] of ASCII.  Where the code
    classifies the characters of a page ([extract_price], [clean_text]),
    a [str] is the list of its code points and the classes of the
    Unicode database are a parameter ([Unicode]); the [str.lower] of
    [search_hotels] is a parameter too ([HotelSearch]).  A Python number
    is a rational [Q]; the [float(s)] of [extract_price] is the double
    nearest to the decimal value that [s] denotes ([PyFloat]).
    [float("inf")] and a dictionary key that is absent are explicit
    constructors.  A call that may raise returns an [outcome]; calls to
    the backends are recorded in a trace. *)

From Stdlib Require Import Ascii String DecimalString QArith Lqa.
From stdpp Require Import gmap strings list sorting.
From Equations Require Import Equations.

#[local] Arguments String.append !_ _ : simpl nomatch.

(** ** Python strings

    The classes [\d] and [\s] and [str.lower] as they are on a text in
    ASCII. *)

Module PyStr.

Definition is_digit (c : ascii) : bool :=
  let n := nat_of_ascii c in (48 <=? n)%nat && (n <=? 57)%nat.

(** [\s] on ASCII: space, tab, newline, vertical tab, form feed, return
    and the four separators 28..31. *)
Definition is_space (c : ascii) : bool :=
  let n := nat_of_ascii c in
  (n =? 32)%nat || ((9 <=? n)%nat && (n <=? 13)%nat)
  || ((28 <=? n)%nat && (n <=? 31)%nat).

Definition lower_ascii (c : ascii) : ascii :=
  let n := nat_of_ascii c in
  if (65 <=? n)%nat && (n <=? 90)%nat then ascii_of_nat (n + 32) else c.

(** [s.lower()] *)
Fixpoint lower (s : string) : string :=
  match s with
  | EmptyString => EmptyString
  | String c r => String (lower_ascii c) (lower r)
  end.

(** [s.startswith(p)], returning the rest of [s]. *)
Fixpoint strip_prefix (p s : string) : option string :=
  match p, s with
  | EmptyString, _ => Some s
  | String a p', String b s' =>
      if Ascii.eqb a b then strip_prefix p' s' else None
  | String _ _, EmptyString => None
  end.

(** [p in s] *)
Fixpoint contains (p s : string) : bool :=
  match strip_prefix p s with
  | Some _ => true
  | None => match s with
            | EmptyString => false
            | String _ r => contains p r
            end
  end.

Definition digit_val (c : ascii) : Z := Z.of_nat (nat_of_ascii c) - 48.

(** The longest prefix of [s] whose characters satisfy [p], and the rest. *)
Fixpoint span (p : ascii -> bool) (s : string) : string * string :=
  match s with
  | EmptyString => (EmptyString, EmptyString)
  | String c r =>
      if p c then let '(a, b) := span p r in (String c a, b)
      else (EmptyString, s)
  end.

(** [int(s)] for a string of decimal digits, most significant first. *)
Fixpoint int_of_digits_from (acc : Z) (s : string) : Z :=
  match s with
  | EmptyString => acc
  | String c r => int_of_digits_from (10 * acc + digit_val c) r
  end.

Definition int_of_digits (s : string) : Z := int_of_digits_from 0 s.

(** [re.search(r'(\d+)', s).group(1)]: the first maximal run of digits. *)
Fixpoint first_digit_run (s : string) : option string :=
  match s with
  | EmptyString => None
  | String c r =>
      if is_digit c then Some (fst (span is_digit s)) else first_digit_run r
  end.

End PyStr.

(** ** Python strings as code points *)

Module Unicode.
#[local] Open Scope N_scope.

(** A code point; a [str] as the sequence of its code points. *)
Definition char : Type := N.
Definition str : Type := list char.
Bind Scope N_scope with char.

(** The [str] of a text written in ASCII. *)
Definition of_ascii (s : string) : str :=
  map N_of_ascii (list_ascii_of_string s).

(** What the interpreter looks up in its Unicode database, which grows
    from one version to the next: [isspace] is the whitespace of [\s]
    and of [str.strip] (both test [Py_UNICODE_ISSPACE]), [isdecimal] the
    decimal digits of [\d] ([Py_UNICODE_ISDECIMAL]), and [todecimal] the
    value of a decimal digit, by which [float] reads it
    ([Py_UNICODE_TODECIMAL]). *)
Record classes := {
  isspace : char -> bool;
  isdecimal : char -> bool;
  todecimal : char -> Z;
}.

(** What holds in every version: the space is whitespace, below 128 the
    decimal digits are [0] to [9] with their values, and the pound, euro
    and rupee signs are no digits. *)
Record standard (u : classes) : Prop := {
  space_isspace : isspace u 32 = true;
  ascii_isdecimal : forall c,
    c < 128 -> isdecimal u c = (48 <=? c) && (c <=? 57);
  ascii_todecimal : forall c,
    48 <= c <= 57 -> todecimal u c = (Z.of_N c - 48)%Z;
  pound_isdecimal : isdecimal u 163 = false;
  euro_isdecimal : isdecimal u 8364 = false;
  rupee_isdecimal : isdecimal u 8377 = false;
}.

(** The database of Unicode 14.0, that of Python 3.11: the whitespace,
    and the first code point of each run of ten decimal digits. *)
Definition spaces_14 : list char :=
  [9; 10; 11; 12; 13; 28; 29; 30; 31; 32; 133; 160; 5760; 8192; 8193;
   8194; 8195; 8196; 8197; 8198; 8199; 8200; 8201; 8202; 8232; 8233;
   8239; 8287; 12288].

Definition zeros_14 : list char :=
  [48; 1632; 1776; 1984; 2406; 2534; 2662; 2790; 2918; 3046; 3174;
   3302; 3430; 3558; 3664; 3792; 3872; 4160; 4240; 6112; 6160; 6470;
   6608; 6784; 6800; 6992; 7088; 7232; 7248; 42528; 43216; 43264;
   43472; 43504; 43600; 44016; 65296; 66720; 68912; 69734; 69872;
   69942; 70096; 70384; 70736; 70864; 71248; 71360; 71472; 71904;
   72016; 72784; 73040; 73120; 92768; 92864; 93008; 120782; 120792;
   120802; 120812; 120822; 123200; 123632; 125264; 130032].

(** The digit zero of the run that [c] is in. *)
Definition zero_of (c : char) : option char :=
  find (fun zero => (zero <=? c) && (c <? zero + 10)) zeros_14.

Definition unicode_14 : classes :=
  {| isspace c := existsb (N.eqb c) spaces_14;
     isdecimal c := match zero_of c with Some _ => true | None => false end;
     todecimal c := match zero_of c with
                    | Some zero => Z.of_N (c - zero)
                    | None => (-1)%Z
                    end |}.

(** The longest prefix of [s] whose characters satisfy [p], and the rest. *)
Fixpoint span (p : char -> bool) (s : str) : str * str :=
  match s with
  | [] => ([], [])
  | c :: r =>
      if p c then let '(a, b) := span p r in (c :: a, b)
      else ([], s)
  end.

(** [s] is empty or begins with a character outside the class [p]. *)
Definition stops_at (p : char -> bool) (s : str) : bool :=
  match s with
  | [] => true
  | c :: _ => negb (p c)
  end.

(** [s.replace(c, '')] for a one-character [c]. *)
Fixpoint remove_char (c : char) (s : str) : str :=
  match s with
  | [] => []
  | a :: r => if a =? c then remove_char c r else a :: remove_char c r
  end.

End Unicode.

(** ** Deduplication by name: the DuckDuckGo searchers *)

Module Dedupe.
Import PyStr.

(** The dictionaries that [extract_hotel_info] returns for one page;
    [h_name = None] is a missing or [None] name. *)
Record raw_hotel := {
  h_name : option string;
  h_location : string;
  h_stars : string;
  h_price_range : string;
  h_guest_rating : string;
  h_description : string;
  h_amenities : list string;
  h_room_types : list string;
  h_special_features : list string;
}.

(** The standardized dictionary appended to [all_hotels]. *)
Record std_hotel := {
  s_id : string;
  s_name : string;
  s_address : string;
  s_stars : string;
  s_price : string;
  s_rating : string;
  s_description : string;
  s_amenities : list string;
  s_room_types : list string;
  s_special_features : list string;
  s_source : string;
}.

(** [str(n)] for a length. *)
Definition str_of_nat (n : nat) : string :=
  NilZero.string_of_uint (Nat.to_uint n).

Definition standardize (index : nat) (name : string) (h : raw_hotel)
  : std_hotel :=
  {| s_id := "ddg-" +:+ str_of_nat index;
     s_name := name;
     s_address := h_location h;
     s_stars := h_stars h;
     s_price := h_price_range h;
     s_rating := h_guest_rating h;
     s_description := h_description h;
     s_amenities := h_amenities h;
     s_room_types := h_room_types h;
     s_special_features := h_special_features h;
     s_source := "DuckDuckGo Web Search" |}.

(** One search result: [scrape_webpage] gave nothing ([continue]), or the
    hotels extracted from its content. *)
Inductive page :=
| NoContent
| Extracted (hotels : list raw_hotel).

(** The loop state: [all_hotels] and [processed_hotel_names]. *)
Definition hotel_state : Type := list std_hotel * gset string.

(** [len(all_hotels) >= max_results] *)
Definition enough (max_results : Z) (all_hotels : list std_hotel) : bool :=
  (max_results <=? Z.of_nat (length all_hotels))%Z.

(** The inner [for hotel in hotel_data['hotels']], with its [continue]s
    and the [break] that follows an append. *)
Fixpoint scan_hotels (max_results : Z) (hotels : list raw_hotel)
    (st : hotel_state) : hotel_state :=
  match hotels with
  | [] => st
  | h :: rest =>
      let '(all_hotels, processed) := st in
      match h_name h with
      | None => scan_hotels max_results rest st
      | Some name =>
          if String.eqb name EmptyString then scan_hotels max_results rest st
          else if decide (lower name ∈ processed)
          then scan_hotels max_results rest st
          else
            let all_hotels' :=
              all_hotels ++ [standardize (length all_hotels) name h] in
            let st' := (all_hotels', {[lower name]} ∪ processed) in
            if enough max_results all_hotels' then st'
            else scan_hotels max_results rest st'
      end
  end.

(** The outer [for result in search_results]. *)
Fixpoint scan_pages (max_results : Z) (pages : list page)
    (st : hotel_state) : hotel_state :=
  match pages with
  | [] => st
  | NoContent :: rest => scan_pages max_results rest st
  | Extracted hotels :: rest =>
      let st' := scan_hotels max_results hotels st in
      if enough max_results (fst st') then st'
      else scan_pages max_results rest st'
  end.

(** [DuckDuckGoHotelSearch.search_hotels], from the search results on. *)
Definition search_hotels (pages : list page) (max_results : Z)
  : list std_hotel :=
  match pages with
  | [] => []
  | _ => fst (scan_pages max_results pages ([], ∅))
  end.

(** The activity dictionaries that [extract_activity_info] returns. *)
Record activity := {
  a_name : option string;
  a_description : string;
  a_rating : option Q;
  a_source : option string;
}.

(** [activity.get('name', '').lower()] *)
Definition activity_key (a : activity) : string :=
  lower (default EmptyString (a_name a)).

(** One turn of the loop over [all_activities]; the state is
    [(seen_names, unique_activities)]. *)
Definition unique_step (st : gset string * list activity) (a : activity)
  : gset string * list activity :=
  let '(seen_names, unique_activities) := st in
  let name := activity_key a in
  if negb (String.eqb name EmptyString) && bool_decide (name ∉ seen_names)
  then ({[name]} ∪ seen_names, unique_activities ++ [a])
  else st.

(** The duplicate removal of [DuckDuckGoActivitySearch.search_activities]. *)
Definition dedupe_activities (all_activities : list activity)
  : list activity :=
  snd (fold_left unique_step all_activities (∅, [])).

(** The same filter as a function of the records already seen: a record
    is kept when its key is not empty and no earlier record had it. *)
Section FirstSeen.
Context {A : Type} (key : A -> string).

Fixpoint first_seen (seen : gset string) (l : list A) : list A :=
  match l with
  | [] => []
  | x :: rest =>
      if String.eqb (key x) EmptyString then first_seen seen rest
      else if decide (key x ∈ seen) then first_seen seen rest
      else x :: first_seen ({[key x]} ∪ seen) rest
  end.

Definition keys (l : list A) : gset string := list_to_set (map key l).
End FirstSeen.

(** [hotel['name'].lower()], empty for a hotel that is skipped for its
    missing name. *)
Definition hotel_key (h : raw_hotel) : string :=
  lower (default EmptyString (h_name h)).

(** The duplicate removal of [search_hotels] on its own: the hotels that
    pass the two [continue] tests, in order. *)
Definition dedupe_hotels (hotels : list raw_hotel) : list raw_hotel :=
  first_seen hotel_key ∅ hotels.

(** The hotels of all pages in the order the loop meets them. *)
Definition page_hotels (p : page) : list raw_hotel :=
  match p with
  | NoContent => []
  | Extracted hotels => hotels
  end.

(** The hotels of all the pages, in the order of the loop. *)
Definition all_page_hotels (pages : list page) : list raw_hotel :=
  concat (map page_hotels pages).

(** The standardized records for a list of kept hotels, numbered from
    [index]. *)
Fixpoint standardize_from (index : nat) (kept : list raw_hotel)
  : list std_hotel :=
  match kept with
  | [] => []
  | h :: rest =>
      standardize index (default EmptyString (h_name h)) h
      :: standardize_from (S index) rest
  end.

(** Following the words of the specification: the key is the name,
    trimmed, with inner runs of blanks collapsed to one space, compared
    without case. *)
Fixpoint collapse_blanks (pending : bool) (s : string) : string :=
  match s with
  | EmptyString => EmptyString
  | String c r =>
      if is_space c then collapse_blanks true r
      else if pending then String " " (String c (collapse_blanks false r))
      else String c (collapse_blanks false r)
  end.

Fixpoint drop_blanks (s : string) : string :=
  match s with
  | EmptyString => EmptyString
  | String c r => if is_space c then drop_blanks r else s
  end.

Definition spec_normalized_name (name : string) : string :=
  lower (collapse_blanks false (drop_blanks name)).

(** A hotel dictionary with a name and nothing else filled in. *)
Definition hotel_named (name location : string) : raw_hotel :=
  {| h_name := Some name; h_location := location; h_stars := EmptyString;
     h_price_range := EmptyString; h_guest_rating := EmptyString;
     h_description := EmptyString; h_amenities := []; h_room_types := [];
     h_special_features := [] |}.

End Dedupe.

(** ** [search_hotels] with the [str.lower] of the interpreter

    [Dedupe] folds the letters of ASCII.  Here the names are any texts
    (in their UTF-8 encoding) and [str.lower] is a parameter, of which
    [lowers] says what is used. *)

Module HotelSearch.
Import PyStr Dedupe.

(** A text in ASCII: every byte is below 128. *)
Fixpoint is_ascii (s : string) : bool :=
  match s with
  | EmptyString => true
  | String c r => (nat_of_ascii c <? 128)%nat && is_ascii r
  end.

(** What holds of [str.lower]: only the empty text is lowered to the
    empty text, and in a text in ASCII the letters [A] to [Z] are the
    ones that change. *)
Record lowers (str_lower : string -> string) : Prop := {
  lower_not_empty : forall s, str_lower s = EmptyString -> s = EmptyString;
  lower_of_ascii : forall s, is_ascii s = true -> str_lower s = lower s;
}.

Section Lower.
Context (str_lower : string -> string).

(** The inner [for hotel in hotel_data['hotels']], with its [continue]s
    and the [break] that follows an append. *)
Fixpoint scan_hotels (max_results : Z) (hotels : list raw_hotel)
    (st : hotel_state) : hotel_state :=
  match hotels with
  | [] => st
  | h :: rest =>
      let '(all_hotels, processed) := st in
      match h_name h with
      | None => scan_hotels max_results rest st
      | Some name =>
          if String.eqb name EmptyString then scan_hotels max_results rest st
          else if decide (str_lower name ∈ processed)
          then scan_hotels max_results rest st
          else
            let all_hotels' :=
              all_hotels ++ [standardize (length all_hotels) name h] in
            let st' := (all_hotels', {[str_lower name]} ∪ processed) in
            if enough max_results all_hotels' then st'
            else scan_hotels max_results rest st'
      end
  end.

(** The outer [for result in search_results]. *)
Fixpoint scan_pages (max_results : Z) (pages : list page)
    (st : hotel_state) : hotel_state :=
  match pages with
  | [] => st
  | NoContent :: rest => scan_pages max_results rest st
  | Extracted hotels :: rest =>
      let st' := scan_hotels max_results hotels st in
      if enough max_results (fst st') then st'
      else scan_pages max_results rest st'
  end.

(** [DuckDuckGoHotelSearch.search_hotels], from the search results on. *)
Definition search_hotels (pages : list page) (max_results : Z)
  : list std_hotel :=
  match pages with
  | [] => []
  | _ => fst (scan_pages max_results pages ([], ∅))
  end.

(** [hotel['name'].lower()], empty for a hotel that is skipped for its
    missing name. *)
Definition hotel_key (h : raw_hotel) : string :=
  match h_name h with
  | Some name => str_lower name
  | None => EmptyString
  end.

(** The duplicate removal of [search_hotels] on its own: the hotels that
    pass the two [continue] tests, in order. *)
Definition dedupe_hotels (hotels : list raw_hotel) : list raw_hotel :=
  first_seen hotel_key ∅ hotels.

End Lower.

(** The names of the hotels of these pages are in ASCII. *)
Definition ascii_name (h : raw_hotel) : bool :=
  match h_name h with
  | Some name => is_ascii name
  | None => true
  end.

Definition ascii_names (pages : list page) : bool :=
  forallb (fun p => forallb ascii_name (page_hotels p)) pages.

(** A [lower] that folds the capital letters of Latin-1 as well, U+00C0
    to U+00DE without the multiplication sign U+00D7: in UTF-8 they are
    the byte 195 followed by a byte from 128 to 158, and the small
    letter has 32 more in the second byte.  [after_195] tells that the
    byte before was 195. *)
Fixpoint lower_bytes (after_195 : bool) (s : string) : string :=
  match s with
  | EmptyString => EmptyString
  | String c r =>
      let n := nat_of_ascii c in
      if after_195 && (128 <=? n)%nat && (n <=? 158)%nat
         && negb (n =? 151)%nat
      then String (ascii_of_nat (n + 32)) (lower_bytes false r)
      else String (lower_ascii c) (lower_bytes (n =? 195)%nat r)
  end.

Definition lower_latin1 (s : string) : string := lower_bytes false s.

End HotelSearch.

(** ** Python ordering: numbers, [float("inf")], tuples and [sorted] *)

Module PyOrder.

(** [x < y] on numbers. *)
Definition num_ltb (x y : Q) : bool := negb (Qle_bool y x).

(** A number, or [float("inf")]. *)
Inductive ext :=
| Fin (q : Q)
| Inf.

Definition ext_ltb (a b : ext) : bool :=
  match a, b with
  | Fin x, Fin y => num_ltb x y
  | Fin _, Inf => true
  | Inf, _ => false
  end.

Definition ext_eqb (a b : ext) : bool :=
  match a, b with
  | Fin x, Fin y => Qeq_bool x y
  | Inf, Inf => true
  | _, _ => false
  end.

(** [(a1, b1) < (a2, b2)]: the first components decide unless they are
    equal. *)
Definition pair_ltb {A B} (eqA ltA : A -> A -> bool) (ltB : B -> B -> bool)
    (p q : A * B) : bool :=
  if eqA (fst p) (fst q) then ltB (snd p) (snd q) else ltA (fst p) (fst q).

Definition pair_eqb {A B} (eqA : A -> A -> bool) (eqB : B -> B -> bool)
    (p q : A * B) : bool :=
  eqA (fst p) (fst q) && eqB (snd p) (snd q).

(** [sorted(l, key=key)]: the stable sort.  An element is inserted in
    front of the sorted elements that followed it in [l], after those
    with a strictly smaller key and before the first one whose key is not
    smaller, so that equal keys keep the order of [l]. *)
Section Sorted.
Context {A K : Type} (ltb : K -> K -> bool) (key : A -> K).

Fixpoint insert_by (x : A) (l : list A) : list A :=
  match l with
  | [] => [x]
  | y :: rest =>
      if ltb (key y) (key x) then y :: insert_by x rest
      else x :: y :: rest
  end.

Definition py_sorted (l : list A) : list A := foldr insert_by [] l.

(** [x] is not after [y] in the order of the keys. *)
Definition key_le (x y : A) : Prop := ltb (key y) (key x) = false.

(** The keys of [x] and [y] compare equal. *)
Definition same_rank (x y : A) : bool :=
  negb (ltb (key x) (key y)) && negb (ltb (key y) (key x)).
End Sorted.

(** [l[:n]] *)
Definition slice_to {A} (n : Z) (l : list A) : list A :=
  if (0 <=? n)%Z then take (Z.to_nat n) l
  else take (length l - Z.to_nat (- n)) l.

(** What the proofs need of a comparison: [ltb] is asymmetric, its
    negation is transitive, and [eqb] holds of the pairs that [ltb] does
    not order. *)
Record weak_order {K} (ltb eqb : K -> K -> bool) : Prop := {
  wo_asym : forall a b, ltb a b = true -> ltb b a = false;
  wo_le_trans : forall a b c,
    ltb b a = false -> ltb c b = false -> ltb c a = false;
  wo_eqb : forall a b,
    eqb a b = true <-> ltb a b = false /\ ltb b a = false;
}.

End PyOrder.

(** ** [float] of a decimal literal *)

Module PyFloat.
Import PyOrder.

(** The integer nearest to [q >= 0], the even one of two that are
    equally near. *)
Definition round_half_even (q : Q) : Z :=
  let n := Qnum q in
  let d := Z.pos (Qden q) in
  let f := (n / d)%Z in
  match (2 * (n mod d) ?= d)%Z with
  | Lt => f
  | Eq => if Z.even f then f else (f + 1)%Z
  | Gt => (f + 1)%Z
  end.

(** [2 ** e] *)
Definition pow2 (e : Z) : Q := Qpower 2 e.

(** The exponent of [q > 0]: [2 ** e <= q < 2 ** (e + 1)]. *)
Definition exponent (q : Q) : Z :=
  let e := (Z.log2 (Qnum q) - Z.log2 (Z.pos (Qden q)))%Z in
  if Qle_bool (pow2 e) q then e else (e - 1)%Z.

(** The double that [float] returns for a literal of the value
    [q >= 0]: the nearest multiple of the unit in the last place, which
    is [2 ** (e - 52)] for a significand of 53 bits and not less than
    [2 ** -1074]; ties go to the even significand, and what rounds to
    [2 ** 1024] or more is [inf]. *)
Definition to_double (q : Q) : ext :=
  if Qle_bool q 0 then Fin 0
  else
    let ulp := pow2 (Z.max (exponent q - 52) (-1074)) in
    let r := (inject_Z (round_half_even (q / ulp)) * ulp)%Q in
    if Qle_bool (pow2 1024) r then Inf else Fin (Qred r).

End PyFloat.

(** ** Price parsing: [HotelScraper.extract_price] *)

Module Price.
Import PyOrder Unicode PyFloat.
Section ExtractPrice.
Context (u : classes).

(** The class [[\$\€\£\₹]]. *)
Definition is_symbol (c : char) : bool :=
  ((c =? 36) || (c =? 8364) || (c =? 163) || (c =? 8377))%N.

(** The class [[,\.\d]]. *)
Definition is_price_char (c : char) : bool :=
  isdecimal u c || (c =? 44)%N || (c =? 46)%N.

(** The lazy blanks [\s*?] and then the group, [\d+] followed by
    [[,\.\d]] repeated, anchored at the head of [s]: the lazy repetition
    first tries to start the group here and consumes one more blank only
    if that fails; the group is greedy, so it is the whole run of price
    characters after its first digit.  Returns group 1. *)
Fixpoint blanks_then_number (s : str) : option str :=
  match s with
  | [] => None
  | c :: r =>
      if isdecimal u c then Some (fst (span is_price_char s))
      else if isspace u c then blanks_then_number r
      else None
  end.

(** The whole pattern anchored at the head of [s]: the optional symbol is
    tried first (greedy [?]), the match without it is the fallback. *)
Definition match_here (s : str) : option str :=
  match s with
  | c :: r =>
      if is_symbol c then
        match blanks_then_number r with
        | Some g => Some g
        | None => blanks_then_number s
        end
      else blanks_then_number s
  | [] => None
  end.

(** [re.search]: the match at the leftmost position that has one. *)
Fixpoint re_search (s : str) : option str :=
  match match_here s with
  | Some g => Some g
  | None =>
      match s with
      | [] => None
      | _ :: r => re_search r
      end
  end.

(** The number that a string of decimal digits denotes, most significant
    digit first. *)
Fixpoint int_of_digits_from (acc : Z) (s : str) : Z :=
  match s with
  | [] => acc
  | c :: r => int_of_digits_from (10 * acc + todecimal u c)%Z r
  end.

Definition int_of_digits (s : str) : Z := int_of_digits_from 0 s.

(** The number that integer digits [ip] and fraction digits [fp] denote. *)
Definition decimal (ip fp : str) : Q :=
  Qmake (int_of_digits (ip ++ fp)) (Z.to_pos (10 ^ Z.of_nat (length fp))).

(** [float(s)] on the strings that reach it here (decimal digits and
    dots, the first character a digit): digits, an optional dot,
    optional digits.  A second dot is a [ValueError], rendered [None]. *)
Definition py_float (s : str) : option ext :=
  let '(ip, rest) := span (isdecimal u) s in
  match ip, rest with
  | [], _ => None
  | _, [] => Some (to_double (decimal ip []))
  | _, c :: fr =>
      if (c =? 46)%N then
        let '(fp, tl) := span (isdecimal u) fr in
        match tl with
        | [] => Some (to_double (decimal ip fp))
        | _ => None
        end
      else None
  end.

Definition extract_price (price_text : str) : option ext :=
  match price_text with
  | [] => None
  | _ =>
      match re_search price_text with
      | Some g => py_float (remove_char 44 g)
      | None => None
      end
  end.

(** The run of price characters that starts at the first decimal digit
    of [s]. *)
Fixpoint first_number (s : str) : option str :=
  match s with
  | [] => None
  | c :: r =>
      if isdecimal u c then Some (fst (span is_price_char s))
      else first_number r
  end.

(** A well-formed group 1: price characters only, the first one a digit. *)
Definition is_group (g : str) : bool :=
  forallb is_price_char g
  && match g with [] => false | d :: _ => isdecimal u d end.

(** The integer part of a written price: digits and thousands separators,
    the first character a digit. *)
Definition is_whole_part (g : str) : bool :=
  forallb (fun c => isdecimal u c || (c =? 44)%N) g
  && match g with [] => false | d :: _ => isdecimal u d end.

End ExtractPrice.

End Price.

(** ** Ranking of flights and hotels *)

Module Rank.
Import PyStr PyOrder.

Record segment := {
  departure_airport : string;
  arrival_airport : string;
}.

(** The ["stops"] entry of a flight dictionary: a text (the scrapers), or
    no text at all (the key is absent or holds something else). *)
Inductive stops_field :=
| StopsText (text : string)
| NoStopsText.

(** A flight dictionary.  [f_segments = None] and [f_price = None] mean
    that the key is absent; a price that is present is a number, as in
    the flights that reach [get_flight_options]: the Amadeus parser stores
    [float(...)] and the scraper ranking keeps the flights with a truthy
    price only.  (A price stored as [None] or as a text would make the
    comparison of two keys raise [TypeError].) *)
Record flight := {
  f_airline : string;
  f_stops : stops_field;
  f_segments : option (list segment);
  f_price : option Q;
  f_site : option string;
}.

(** The number of stops that [flight_sort_key] reads off a flight. *)
Definition flight_stops (f : flight) : Z :=
  match f_stops f with
  | StopsText text =>
      if contains "direct" (lower text) || contains "nonstop" (lower text)
      then 0
      else match first_digit_run text with
           | Some digits => int_of_digits digits
           | None => 1
           end
  | NoStopsText =>
      match f_segments f with
      | Some segments => Z.of_nat (length segments) - 1
      | None => 0
      end
  end%Z.

(** [flight.get("price", float("inf"))] *)
Definition flight_price (f : flight) : ext :=
  match f_price f with
  | Some p => Fin p
  | None => Inf
  end.

Definition flight_sort_key (f : flight) : Z * ext :=
  (flight_stops f, flight_price f).

Definition flight_key_ltb : Z * ext -> Z * ext -> bool :=
  pair_ltb Z.eqb Z.ltb ext_ltb.

(** [sorted(all_flights, key=flight_sort_key)] *)
Definition rank_flights (all_flights : list flight) : list flight :=
  py_sorted flight_key_ltb flight_sort_key all_flights.

(** Four flights as the sources produce them: a scraped one-stop flight,
    two scraped direct flights, one of them without a price entry, and
    an Amadeus offer with a single segment. *)
Definition sample_one_stop : flight :=
  {| f_airline := "KL"; f_stops := StopsText "1 stop"; f_segments := None;
     f_price := Some 100%Q; f_site := Some "kayak" |}.
Definition sample_direct : flight :=
  {| f_airline := "AF"; f_stops := StopsText "Direct"; f_segments := None;
     f_price := Some 500%Q; f_site := Some "kayak" |}.
Definition sample_unpriced : flight :=
  {| f_airline := "DL"; f_stops := StopsText "Nonstop"; f_segments := None;
     f_price := None; f_site := Some "expedia" |}.
Definition sample_offer : flight :=
  {| f_airline := "BA"; f_stops := NoStopsText;
     f_segments := Some [ {| departure_airport := "JFK";
                             arrival_airport := "CDG" |} ];
     f_price := Some 300%Q; f_site := Some "amadeus" |}.

(** A hotel dictionary, as far as filtering and ranking read it.  [None]
    is a key that is absent or holds [None]; a rating or price that is
    present is a number, as the scrapers read them off a page
    ([float(...)] or [None]).  A dictionary whose rating or price is a
    text is not a value of this type: [_parse_hotel_offers] stores the
    rating of an Amadeus hotel as a text, and the scrapers copy the
    values of an embedded JSON as they find them.  On a text
    [-1 * rating] is the empty text, and comparing it with a number
    raises [TypeError].  The scraped activity dictionaries have the same
    three entries [name], [rating], [price]. *)
Record hotel := {
  name : option string;
  rating : option Q;
  price : option Q;
  type : option string;
  site : option string;
}.

(** [x or 0] for an optional number. *)
Definition or_zero (x : option Q) : Q := default 0%Q x.

(** [x] is truthy: present and not zero. *)
Definition truthy (x : option Q) : bool :=
  match x with
  | Some q => negb (Qeq_bool q 0)
  | None => false
  end.

(** [x or float('inf')] *)
Definition or_inf (x : option Q) : ext :=
  match x with
  | Some q => if Qeq_bool q 0 then Inf else Fin q
  | None => Inf
  end.

(** [hotel.get("price", float("inf"))], the price key absent *)
Definition get_or_inf (x : option Q) : ext :=
  match x with
  | Some q => Fin q
  | None => Inf
  end.

Definition hotel_key_ltb : Q * ext -> Q * ext -> bool :=
  pair_ltb Qeq_bool num_ltb ext_ltb.

(** The shape of both hotel keys: [(-1 * (rating or 0), price key)]. *)
Definition key_with (price_key : option Q -> ext) (h : hotel) : Q * ext :=
  ((-1) * or_zero (rating h), price_key (price h))%Q.

(** [accommodation_sort_key] of [get_accommodation_options] *)
Definition accommodation_sort_key (h : hotel) : Q * ext :=
  ((-1) * or_zero (rating h), get_or_inf (price h))%Q.

Definition rank_accommodations (all_accommodations : list hotel)
  : list hotel :=
  py_sorted hotel_key_ltb accommodation_sort_key all_accommodations.

(** The key of [HotelScraper._filter_and_rank_results];
    [ActivityScraper._filter_and_rank_results] has the same one. *)
Definition scraper_sort_key (x : hotel) : Q * ext :=
  ((-1) * or_zero (rating x), or_inf (price x))%Q.

(** [r.get("name")] is truthy *)
Definition has_name (r : hotel) : bool :=
  match name r with
  | Some n => negb (String.eqb n EmptyString)
  | None => false
  end.

Definition _filter_and_rank_results (results : list hotel) (top_n : Z)
  : list hotel :=
  match results with
  | [] => []
  | _ =>
      slice_to top_n
        (py_sorted hotel_key_ltb scraper_sort_key (filter has_name results))
  end.

(** Two scraped hotels with the same rating, one of them with the price 0. *)
Definition sample_free : hotel :=
  {| name := Some "Auberge Zero"; rating := Some 4.5%Q; price := Some 0%Q;
     type := None; site := None |}.
Definition sample_paid : hotel :=
  {| name := Some "Hotel Lutetia"; rating := Some 4.5%Q; price := Some 80%Q;
     type := None; site := None |}.
Definition sample_unrated : hotel :=
  {| name := Some "Pension Noname"; rating := None; price := None;
     type := None; site := None |}.

(** Following the words of the specification: descending by the rating,
    a missing rating counting as 0, then ascending by the price, a
    missing price counting as infinite. *)
Definition spec_hotel_key (h : hotel) : Q * ext :=
  (- or_zero (rating h), match price h with Some p => Fin p | None => Inf end)%Q.

End Rank.

(** ** The retry loops of [amadeus_api_handler.py] *)

Module AmadeusAPI.
Import PyStr PyOrder Rank.

(** What one call of the Amadeus SDK does: a response with data, a
    response without, a [ResponseError] whose [str] is [text], or any
    other [Exception]. *)
Inductive api_result (D : Type) :=
| Data (data : D)
| NoData
| ResponseError (text : string)
| OtherError (text : string).
Arguments Data {D} data.
Arguments NoData {D}.
Arguments ResponseError {D} text.
Arguments OtherError {D} text.

(** What a method hands back: a list, or [None] when the body ends
    without a [return]. *)
Inductive returned (A : Type) :=
| PyList (items : list A)
| PyNone.
Arguments PyList {A} items.
Arguments PyNone {A}.

(** The handler object, [self]. *)
Record handler := {
  client : bool;
  max_retries : nat;
  retry_delay : Z;
  rate_limit_delay : Z;
}.

(** [AmadeusAPIHandler.__init__], the client initialized or not. *)
Definition init (client_ok : bool) : handler :=
  {| client := client_ok; max_retries := 3; retry_delay := 2;
     rate_limit_delay := 1 |}.

(** The run of a method: what it returns, how many times it entered the
    loop body (each entry makes the search call once), and the
    [time.sleep] durations in order. *)
Record run (A : Type) := {
  value : returned A;
  attempts : nat;
  slept : list Z;
}.
Arguments value {A} r.
Arguments attempts {A} r.
Arguments slept {A} r.

(** [str(error).startswith('[429]')] *)
Definition rate_limited (text : string) : bool :=
  match strip_prefix "[429]" text with
  | Some _ => true
  | None => false
  end.

Section Search.
Context {Offer : Type}.
Context (self : handler).
(** [_parse_flight_offers]: it catches what parsing an offer raises. *)
Context (_parse_flight_offers : list Offer -> list flight).
(** The answer of [flight_offers_search.get] at each attempt. *)
Context (flight_offers_search : nat -> api_result (list Offer)).

(** The [while retries < self.max_retries] loop of [search_flights]; the
    number of attempts made and the sleeps so far are carried along. *)
Equations? search_flights_loop (retries made : nat) (sleeps : list Z)
  : run flight by wf (max_retries self - retries) lt :=
search_flights_loop retries made sleeps with lt_dec retries (max_retries self) := {
  | right _ => {| value := PyNone; attempts := made; slept := sleeps |}
  | left _ with flight_offers_search made := {
    | Data data =>
        {| value := PyList (_parse_flight_offers data);
           attempts := S made; slept := sleeps |}
    | NoData => {| value := PyList []; attempts := S made; slept := sleeps |}
    | ResponseError text with rate_limited text := {
      | true =>
          search_flights_loop (S retries) (S made)
            (sleeps ++ [rate_limit_delay self * 2 ^ Z.of_nat (S retries)]%Z)
      | false =>
          {| value := PyList []; attempts := S made; slept := sleeps |} }
    | OtherError text with le_dec (max_retries self) (S retries) := {
      | left _ =>
          {| value := PyList []; attempts := S made; slept := sleeps |}
      | right _ =>
          search_flights_loop (S retries) (S made)
            (sleeps ++ [retry_delay self]) } } }.
Proof. all: lia. Qed.

Definition search_flights : run flight :=
  if client self then search_flights_loop 0 0 []
  else {| value := PyList []; attempts := 0; slept := [] |}.

(** One hotel of the city list, with its [hotelId] if it has one. *)
Context {HotelOffer : Type}.
(** [_parse_hotel_offers]: a hotel, or the empty dictionary. *)
Context (_parse_hotel_offers : HotelOffer -> option hotel).
(** The answer of [hotels.by_city.get] at each attempt, and of
    [hotel_offers_search.get] for a hotel during an attempt. *)
Context (hotels_by_city : nat -> api_result (list (option string))).
Context (hotel_offers_search : nat -> string -> api_result HotelOffer).

(** [hotel_ids]: the truthy ids of the first [max_hotels_to_try] hotels. *)
Definition hotel_ids (max_results : Z) (data : list (option string))
  : list string :=
  omap (fun id => match id with
                  | Some s => if String.eqb s EmptyString then None else Some s
                  | None => None
                  end)
       (slice_to (max_results * 3) data).

(** Step 2: the loop over the hotel ids; both of its handlers [continue]. *)
Fixpoint check_availability (attempt : nat) (max_results : Z)
    (ids : list string) (hotels : list hotel) : list hotel :=
  match ids with
  | [] => hotels
  | hotel_id :: rest =>
      if (max_results <=? Z.of_nat (length hotels))%Z then hotels
      else
        match hotel_offers_search attempt hotel_id with
        | Data data =>
            match _parse_hotel_offers data with
            | Some parsed_hotel =>
                check_availability attempt max_results rest
                  (hotels ++ [parsed_hotel])
            | None => check_availability attempt max_results rest hotels
            end
        | _ => check_availability attempt max_results rest hotels
        end
  end.

(** The loop of [search_hotels].  A [ResponseError] of the city lookup is
    caught around that call and ends the search; only another exception
    reaches the retry handler. *)
Equations? search_hotels_loop (max_results : Z) (retries made : nat)
    (sleeps : list Z) : run hotel by wf (max_retries self - retries) lt :=
search_hotels_loop max_results retries made sleeps
    with lt_dec retries (max_retries self) := {
  | right _ => {| value := PyNone; attempts := made; slept := sleeps |}
  | left _ with hotels_by_city made := {
    | Data data with hotel_ids max_results data := {
      | [] => {| value := PyList []; attempts := S made; slept := sleeps |}
      | ids =>
          {| value := PyList (check_availability made max_results ids []);
             attempts := S made; slept := sleeps |} }
    | NoData => {| value := PyList []; attempts := S made; slept := sleeps |}
    | ResponseError _ =>
        {| value := PyList []; attempts := S made; slept := sleeps |}
    | OtherError text with le_dec (max_retries self) (S retries) := {
      | left _ =>
          {| value := PyList []; attempts := S made; slept := sleeps |}
      | right _ =>
          search_hotels_loop max_results (S retries) (S made)
            (sleeps ++ [retry_delay self]) } } }.
Proof. all: lia. Qed.

Definition search_hotels (max_results : Z) : run hotel :=
  if client self then search_hotels_loop max_results 0 0 []
  else {| value := PyList []; attempts := 0; slept := [] |}.
End Search.

End AmadeusAPI.

(** ** Calls that may raise, and the trace of backend calls *)

Module Effects.

(** The handlers that reach outside the process. *)
Inductive call :=
| AmadeusGetCityCode (city_name : string)
| AmadeusSearchFlights
| AmadeusSearchHotels
| FlightScrapers
| HotelScrapers
| ActivityScrapers
| DuckDuckGoHotels
| DuckDuckGoActivities
| FirecrawlActivities
| FirecrawlAttractions
| FirecrawlRestaurants
| TravelInfoScraper
| OpenAIChat.

Definition trace : Type := list call.

(** A Python call returns, or raises an [Exception] with the text [str(e)]. *)
Inductive outcome (A : Type) :=
| Ok (value : A)
| Raise (message : string).
Arguments Ok {A} value.
Arguments Raise {A} message.

(** A computation over a mutable state [S]: it returns or raises, and
    leaves a state either way. *)
Definition ST (S A : Type) : Type := S -> outcome A * S.

Definition ret {S A} (a : A) : ST S A := fun s => (Ok a, s).

Definition raise {S A} (message : string) : ST S A :=
  fun s => (Raise message, s).

Definition bind {S A B} (m : ST S A) (k : A -> ST S B) : ST S B :=
  fun s =>
    match m s with
    | (Ok a, s') => k a s'
    | (Raise e, s') => (Raise e, s')
    end.

(** [try: m  except Exception as e: handler(e)] *)
Definition try_except {S A} (m : ST S A) (handler : string -> ST S A)
  : ST S A :=
  fun s =>
    match m s with
    | (Ok a, s') => (Ok a, s')
    | (Raise e, s') => handler e s'
    end.

(** [x ← m; k] and [m;; k] are stdpp's notations for [bind]. *)
#[export] Instance ST_ret S : MRet (ST S) := @ret S.
#[export] Instance ST_bind S : MBind (ST S) := fun A B k m => bind m k.

(** The state of the functions that keep nothing else across a raise:
    the calls made so far. *)
Abbreviation M := (ST trace).

(** A call to a handler: its answer may depend on the calls before it. *)
Definition invoke {A} (c : call) (answer : trace -> outcome A) : M A :=
  fun t => (answer t, t ++ [c]).

(** The calls a computation makes when started after [t]. *)
Definition calls_from {A} (m : M A) (t : trace) : trace := snd (m t).

Definition result_from {A} (m : M A) (t : trace) : outcome A := fst (m t).

(** A Python [dict] with its insertion order: [d[k] = v]. *)
Fixpoint dict_set {V} (k : string) (v : V) (d : list (string * V))
  : list (string * V) :=
  match d with
  | [] => [(k, v)]
  | (k', v') :: rest =>
      if String.eqb k' k then (k, v) :: rest
      else (k', v') :: dict_set k v rest
  end.

(** Truthiness of a list and of an optional string. *)
Definition nonempty {A} (l : list A) : bool :=
  match l with [] => false | _ => true end.

Definition truthy_str (s : option string) : bool :=
  match s with
  | Some s => negb (String.eqb s EmptyString)
  | None => false
  end.

End Effects.

(** ** The handlers behind the planners *)

Module Handlers.
Import Rank Dedupe Effects.

(** What [TravelInfoScraper.get_travel_info] returns, as far as the
    planner reads it. *)
Record travel_details := {
  visa_requirement : string;
  visa_description : string;
  health_summary : string;
}.

(** The summary dictionary: a headline, an overview or an error text. *)
Record summary := {
  headline : string;
  overview : option string;
  summary_error : option string;
}.

(** One answer function per handler method.  An answer may depend on the
    calls made before it; arguments that no property below depends on
    (dates, party size, limits) are left out. *)
Record backends := {
  amadeus_get_city_code : string -> trace -> outcome (option string);
  amadeus_search_flights :
    string -> string -> trace -> outcome (list flight);
  amadeus_search_hotels : option string -> trace -> outcome (list hotel);
  search_flights_all_sites :
    string -> string -> trace -> outcome (list (string * list flight));
  search_hotels_all_sites :
    string -> trace -> outcome (list (string * list hotel));
  search_activities_all_sites :
    string -> trace -> outcome (list (string * list activity));
  duckduckgo_search_hotels : string -> trace -> outcome (list std_hotel);
  duckduckgo_search_activities :
    string -> option string -> trace -> outcome (list activity);
  firecrawl_search_activities :
    string -> option string -> trace -> outcome (list activity);
  firecrawl_search_tourist_attractions :
    string -> trace -> outcome (list activity);
  firecrawl_search_restaurants : string -> trace -> outcome (list activity);
  get_travel_info :
    option string -> string -> trace -> outcome travel_details;
  chat_completion : trace -> outcome summary;
}.

(** Backends that answer every call with nothing, to be overridden field
    by field in examples. *)
Definition silent : backends :=
  {| amadeus_get_city_code := fun _ _ => Ok None;
     amadeus_search_flights := fun _ _ _ => Ok [];
     amadeus_search_hotels := fun _ _ => Ok [];
     search_flights_all_sites := fun _ _ _ => Ok [];
     search_hotels_all_sites := fun _ _ => Ok [];
     search_activities_all_sites := fun _ _ => Ok [];
     duckduckgo_search_hotels := fun _ _ => Ok [];
     duckduckgo_search_activities := fun _ _ _ => Ok [];
     firecrawl_search_activities := fun _ _ _ => Ok [];
     firecrawl_search_tourist_attractions := fun _ _ => Ok [];
     firecrawl_search_restaurants := fun _ _ => Ok [];
     get_travel_info := fun _ _ _ =>
       Ok {| visa_requirement := "Unknown"; visa_description := EmptyString;
             health_summary := EmptyString |};
     chat_completion := fun _ => Raise "no client" |}.

(** The scrapers find two hotels on one site, one of them priced 0. *)
Definition with_scraped_hotels : backends :=
  {| amadeus_get_city_code := amadeus_get_city_code silent;
     amadeus_search_flights := amadeus_search_flights silent;
     amadeus_search_hotels := amadeus_search_hotels silent;
     search_flights_all_sites := search_flights_all_sites silent;
     search_hotels_all_sites := fun _ _ =>
       Ok [("booking", [sample_free; sample_paid])];
     search_activities_all_sites := search_activities_all_sites silent;
     duckduckgo_search_hotels := duckduckgo_search_hotels silent;
     duckduckgo_search_activities := duckduckgo_search_activities silent;
     firecrawl_search_activities := firecrawl_search_activities silent;
     firecrawl_search_tourist_attractions :=
       firecrawl_search_tourist_attractions silent;
     firecrawl_search_restaurants := firecrawl_search_restaurants silent;
     get_travel_info := get_travel_info silent;
     chat_completion := chat_completion silent |}.

(** Amadeus knows both cities and returns three offers; one scraper site
    has two more flights. *)
Definition with_three_offers : backends :=
  {| amadeus_get_city_code := fun _ _ => Ok (Some "PAR");
     amadeus_search_flights := fun _ _ _ =>
       Ok [sample_offer; sample_offer; sample_offer];
     amadeus_search_hotels := amadeus_search_hotels silent;
     search_flights_all_sites := fun _ _ _ =>
       Ok [("kayak", [sample_direct; sample_one_stop])];
     search_hotels_all_sites := search_hotels_all_sites silent;
     search_activities_all_sites := search_activities_all_sites silent;
     duckduckgo_search_hotels := duckduckgo_search_hotels silent;
     duckduckgo_search_activities := duckduckgo_search_activities silent;
     firecrawl_search_activities := firecrawl_search_activities silent;
     firecrawl_search_tourist_attractions :=
       firecrawl_search_tourist_attractions silent;
     firecrawl_search_restaurants := firecrawl_search_restaurants silent;
     get_travel_info := get_travel_info silent;
     chat_completion := chat_completion silent |}.

(** The travel information scraper raises; two dates that parse. *)
Definition with_failing_travel_info : backends :=
  {| amadeus_get_city_code := amadeus_get_city_code with_three_offers;
     amadeus_search_flights := amadeus_search_flights with_three_offers;
     amadeus_search_hotels := amadeus_search_hotels silent;
     search_flights_all_sites := search_flights_all_sites with_three_offers;
     search_hotels_all_sites := search_hotels_all_sites with_scraped_hotels;
     search_activities_all_sites := search_activities_all_sites silent;
     duckduckgo_search_hotels := duckduckgo_search_hotels silent;
     duckduckgo_search_activities := duckduckgo_search_activities silent;
     firecrawl_search_activities := firecrawl_search_activities silent;
     firecrawl_search_tourist_attractions :=
       firecrawl_search_tourist_attractions silent;
     firecrawl_search_restaurants := fun _ _ => Raise "402 Payment Required";
     get_travel_info := fun _ _ _ => Raise "connection refused";
     chat_completion := chat_completion silent |}.

Definition sample_strptime (s : string) : option Z :=
  if String.eqb s "2025-06-15" then Some 739417%Z
  else if String.eqb s "2025-06-22" then Some 739424%Z
  else None.

(** The web search finds five hotels. *)
Definition five_web_hotels : list std_hotel :=
  standardize_from 0
    [hotel_named "Ritz" "Paris"; hotel_named "Lutetia" "Paris";
     hotel_named "Crillon" "Paris"; hotel_named "Meurice" "Paris";
     hotel_named "Bristol" "Paris"].

Definition with_web_hotels : backends :=
  {| amadeus_get_city_code := amadeus_get_city_code with_three_offers;
     amadeus_search_flights := amadeus_search_flights with_three_offers;
     amadeus_search_hotels := fun _ _ => Ok [sample_paid];
     search_flights_all_sites := search_flights_all_sites silent;
     search_hotels_all_sites := search_hotels_all_sites silent;
     search_activities_all_sites := search_activities_all_sites silent;
     duckduckgo_search_hotels := fun _ _ => Ok five_web_hotels;
     duckduckgo_search_activities := duckduckgo_search_activities silent;
     firecrawl_search_activities := firecrawl_search_activities silent;
     firecrawl_search_tourist_attractions :=
       firecrawl_search_tourist_attractions silent;
     firecrawl_search_restaurants := firecrawl_search_restaurants silent;
     get_travel_info := get_travel_info silent;
     chat_completion := chat_completion silent |}.

End Handlers.

(** ** [trip_planner_tool.py] *)

Module TripPlanner.
Import PyStr PyOrder Rank Dedupe Effects Handlers.

(** The dictionaries returned per category; [search_params] echoes the
    arguments and is left out. *)
Record flight_options := {
  fo_best_overall : list flight;
  fo_by_site : list (string * list flight);
}.

Record accommodation_options := {
  ao_best_overall : list hotel;
  ao_by_site : list (string * list hotel);
}.

Record activity_options := {
  act_best_overall : list activity;
  act_by_source : list (string * list activity);
}.

Record travel_information := {
  ti_visa_requirement : string;
  ti_details : travel_details;
}.

(** [x or y] on an optional string. *)
Definition or_str (x : option string) (y : string) : string :=
  match x with
  | Some s => if String.eqb s EmptyString then y else s
  | None => y
  end.

Definition flight_with_site (site : string) (f : flight) : flight :=
  {| f_airline := f_airline f; f_stops := f_stops f;
     f_segments := f_segments f; f_price := f_price f;
     f_site := Some site |}.

Definition hotel_with_site (s : string) (h : hotel) : hotel :=
  {| name := name h; rating := rating h; price := price h;
     type := type h; site := Some s |}.

Definition activity_with_source (s : string) (a : activity) : activity :=
  {| a_name := a_name a; a_description := a_description a;
     a_rating := a_rating a; a_source := Some s |}.

(** [for site, items in results.items(): for item in items: copy, tag] *)
Definition tagged {A} (tag : string -> A -> A)
    (results : list (string * list A)) : list A :=
  concat (map (fun '(s, items) => map (tag s) items) results).

Section WithBackends.
Context (b : backends).
(** [get_airport_code], a lookup in a fixed table of the module with a
    fallback to the first letters of the city. *)
Context (get_airport_code : string -> string).
(** [OPENAI_API_KEY] of the environment. *)
Context (openai_api_key : option string).
(** [datetime.strptime(s, "%Y-%m-%d")] as a day number, [None] for the
    [ValueError]. *)
Context (strptime : string -> option Z).

(** The per-site loop of [get_flight_options]: the first [max_results]
    flights of each site, a site without flights adding no entry. *)
Definition add_flight_sites (max_results : Z)
    (all_results : list (string * list flight))
    (results : list (string * list flight))
  : list (string * list flight) :=
  foldl (fun results '(s, flights) =>
           let filtered_flights := take (Z.to_nat max_results) flights in
           if nonempty filtered_flights
           then dict_set s filtered_flights results
           else results)
        results all_results.

(** 1. Try Amadeus API first: the [results] dictionary after the first
    [try] block. *)
Definition amadeus_flights (origin_city destination_city : string)
  : M (list (string * list flight)) :=
  let origin_code := get_airport_code origin_city in
  let destination_code := get_airport_code destination_city in
  try_except
    (origin ← invoke (AmadeusGetCityCode origin_city)
                (amadeus_get_city_code b origin_city);
     destination ← invoke (AmadeusGetCityCode destination_city)
                     (amadeus_get_city_code b destination_city);
     amadeus_flights ←
       invoke AmadeusSearchFlights
         (amadeus_search_flights b (or_str origin origin_code)
            (or_str destination destination_code));
     mret (if nonempty amadeus_flights
           then dict_set "amadeus" amadeus_flights []
           else []))
    (fun _ => mret []).

(** 2. Fallback to scrapers if needed: the second [try] block.  Nothing
    guards it. *)
Definition scraped_flights (origin_city destination_city : string)
    (max_results : Z) (results : list (string * list flight))
  : M (list (string * list flight)) :=
  try_except
    (all_results ← invoke FlightScrapers
                     (search_flights_all_sites b
                        (get_airport_code origin_city)
                        (get_airport_code destination_city));
     mret (add_flight_sites max_results all_results results))
    (fun _ => mret results).

(** The rest of the function: the best flights over all sources. *)
Definition flight_options_of (max_results : Z)
    (results : list (string * list flight)) : flight_options :=
  if nonempty results then
    let all_flights := tagged flight_with_site results in
    let sorted_flights := rank_flights all_flights in
    {| fo_best_overall := slice_to max_results sorted_flights;
       fo_by_site := results |}
  else {| fo_best_overall := []; fo_by_site := [] |}.

Definition get_flight_options (origin_city destination_city : string)
    (max_results : Z) : M flight_options :=
  results ← amadeus_flights origin_city destination_city;
  results ← scraped_flights origin_city destination_city max_results results;
  mret (flight_options_of max_results results).

(** [price_ranges.get(budget_level.lower(), (0, float("inf")))] *)
Definition price_range (budget_level : string) : Q * ext :=
  let level := lower budget_level in
  if String.eqb level "budget" then (0%Q, Fin 100)
  else if String.eqb level "moderate" then (100%Q, Fin 300)
  else if String.eqb level "luxury" then (300%Q, Inf)
  else (0%Q, Inf).

(** [min_price <= price <= max_price] *)
Definition in_range (range : Q * ext) (q : Q) : bool :=
  Qle_bool (fst range) q && negb (ext_ltb (snd range) (Fin q)).

(** [price and min_price <= price <= max_price] for
    [price = hotel.get("price", 0)] *)
Definition price_passes (range : Q * ext) (p : option Q) : bool :=
  match p with
  | Some q => negb (Qeq_bool q 0) && in_range range q
  | None => false
  end.

(** The hotel is of the wanted type: the type, lowercased, occurs in
    its ["type"] or in its name. *)
Definition type_matches (accommodation_type : string) (h : hotel) : bool :=
  contains (lower accommodation_type)
           (lower (default EmptyString (type h)))
  || contains (lower accommodation_type)
              (lower (default EmptyString (name h))).

(** The loop over the hotels of one site. *)
Fixpoint filter_hotels (max_results : Z) (range : Q * ext)
    (accommodation_type : option string) (hotels filtered_hotels : list hotel)
  : list hotel :=
  match hotels with
  | [] => filtered_hotels
  | h :: rest =>
      if (max_results <=? Z.of_nat (length filtered_hotels))%Z
      then filtered_hotels
      else if price_passes range (price h) then
        if truthy_str accommodation_type
           && negb (type_matches (default EmptyString accommodation_type) h)
        then filter_hotels max_results range accommodation_type rest
               filtered_hotels
        else filter_hotels max_results range accommodation_type rest
               (filtered_hotels ++ [h])
      else filter_hotels max_results range accommodation_type rest
             filtered_hotels
  end.

Definition add_hotel_sites (max_results : Z) (range : Q * ext)
    (accommodation_type : option string)
    (all_results : list (string * list hotel))
    (results : list (string * list hotel))
  : list (string * list hotel) :=
  foldl (fun results '(s, hotels) =>
           let filtered_hotels :=
             filter_hotels max_results range accommodation_type hotels [] in
           if nonempty filtered_hotels
           then dict_set s filtered_hotels results
           else results)
        results all_results.

(** The hotel got through the price test of the budget filter. *)
Definition passed (range : Q * ext) (h : hotel) : Prop :=
  price_passes range (price h) = true.

(** Every list stored under a key other than ["amadeus"] holds only
    hotels that passed. *)
Definition scraped_pass (range : Q * ext)
    (results : list (string * list hotel)) : Prop :=
  forall s hs, (s, hs) ∈ results -> s <> "amadeus" -> Forall (passed range) hs.

(** 1. Try Amadeus API first *)
Definition amadeus_hotels (location : string)
  : M (list (string * list hotel)) :=
  try_except
    (city_code ← invoke (AmadeusGetCityCode location)
                   (amadeus_get_city_code b location);
     if truthy_str city_code then
       amadeus_hotels ← invoke AmadeusSearchHotels
                          (amadeus_search_hotels b city_code);
       mret (if nonempty amadeus_hotels
             then dict_set "amadeus" amadeus_hotels []
             else [])
     else mret [])
    (fun _ => mret []).

(** 2. Fallback to scrapers *)
Definition scraped_hotels (location budget_level : string)
    (accommodation_type : option string) (max_results : Z)
    (results : list (string * list hotel))
  : M (list (string * list hotel)) :=
  try_except
    (all_results ← invoke HotelScrapers
                     (search_hotels_all_sites b location);
     mret (add_hotel_sites max_results (price_range budget_level)
             accommodation_type all_results results))
    (fun _ => mret results).

Definition accommodation_options_of (max_results : Z)
    (results : list (string * list hotel)) : accommodation_options :=
  if nonempty results then
    let all_accommodations := tagged hotel_with_site results in
    let sorted_accommodations := rank_accommodations all_accommodations in
    {| ao_best_overall := slice_to max_results sorted_accommodations;
       ao_by_site := results |}
  else {| ao_best_overall := []; ao_by_site := [] |}.

Definition get_accommodation_options (location budget_level : string)
    (accommodation_type : option string) (max_results : Z)
  : M accommodation_options :=
  results ← amadeus_hotels location;
  results ← scraped_hotels location budget_level accommodation_type
              max_results results;
  mret (accommodation_options_of max_results results).

(** The key of the sort in [get_activity_options]: minus the rating
    when it is a number, 0 otherwise. *)
Definition activity_sort_key (x : activity) : Q :=
  match a_rating x with
  | Some r => (- r)%Q
  | None => 0%Q
  end.

Definition truncated_entry {A} (source : string) (max_results : Z)
    (items : list A) : list (string * list A) :=
  if nonempty items then [(source, slice_to max_results items)] else [].

Definition get_activity_options (location : string) (max_results : Z)
    (activity_type : option string) : M activity_options :=
  (* Try DuckDuckGo search with LLM extraction first *)
  duckduckgo ← try_except
    (invoke DuckDuckGoActivities
       (duckduckgo_search_activities b location activity_type))
    (fun _ => mret []);
  (* Try Firecrawl API if we don't have enough results yet *)
  firecrawl ←
    (if (Z.of_nat (length duckduckgo) <? max_results)%Z then
       try_except
         (activities ← invoke FirecrawlActivities
                         (firecrawl_search_activities b location
                            activity_type);
          attractions ← invoke FirecrawlAttractions
                          (firecrawl_search_tourist_attractions b location);
          restaurants ← invoke FirecrawlRestaurants
                          (firecrawl_search_restaurants b location);
          mret (activities ++ attractions ++ restaurants))
         (fun _ => mret [])
     else mret []);
  (* Fallback to scraper if needed *)
  scraper ←
    (if negb (nonempty duckduckgo) && negb (nonempty firecrawl) then
       try_except
         (all_results ← invoke ActivityScrapers
                          (search_activities_all_sites b location);
          mret (tagged activity_with_source all_results))
         (fun _ => mret [])
     else mret []);
  if negb (nonempty duckduckgo) && negb (nonempty firecrawl)
     && negb (nonempty scraper)
  then mret {| act_best_overall := []; act_by_source := [] |}
  else
    let all_activities := duckduckgo in
    let all_activities :=
      if nonempty firecrawl
         && (Z.of_nat (length all_activities) <? max_results)%Z
      then all_activities ++ firecrawl else all_activities in
    let all_activities :=
      if nonempty scraper
         && (Z.of_nat (length all_activities) <? max_results)%Z
      then all_activities ++ scraper else all_activities in
    let all_activities := py_sorted num_ltb activity_sort_key all_activities in
    mret {| act_best_overall := slice_to max_results all_activities;
            act_by_source :=
              truncated_entry "duckduckgo" max_results duckduckgo
              ++ truncated_entry "firecrawl" max_results firecrawl
              ++ truncated_entry "scraper" max_results scraper |}.

(** [get_travel_information]; the shortening of the texts is left out. *)
Definition get_travel_information (origin_country : option string)
    (destination_country : string) : M travel_information :=
  travel_info ← invoke TravelInfoScraper
                  (get_travel_info b origin_country destination_country);
  mret {| ti_visa_requirement := visa_requirement travel_info;
          ti_details := travel_info |}.
End WithBackends.

(** A category of the plan: what the fetcher returned, or the entry
    [{"error": str(e), "results": []}] (for the travel information,
    [{"error": str(e)}]) written when it raised. *)
Inductive fetched (A : Type) :=
| Fetched (value : A)
| FetchFailed (error : string).
Arguments Fetched {A} value.
Arguments FetchFailed {A} error.

(** [trip_plan["metadata"]], without the creation time. *)
Record metadata := {
  md_origin_city : string;
  md_destination_city : string;
  md_start_date : string;
  md_end_date : string;
  md_travelers : Z;
  md_budget_level : string;
  md_trip_type : option string;
  md_errors : list string;
}.

Record trip_plan := {
  tp_flights : fetched flight_options;
  tp_accommodations : fetched accommodation_options;
  tp_activities : option (fetched activity_options);
  tp_travel_info : fetched travel_information;
  tp_summary : summary;
  tp_metadata : metadata;
  tp_status : string;
}.

(** What [plan_trip] returns: the dictionary [{"error": ..., "status":
    "failed"}] of a rejected request, or a trip plan. *)
Inductive response :=
| Rejected (error : string)
| Planned (plan : trip_plan).

(** [str(n)] for an integer. *)
Definition str_of_int (n : Z) : string :=
  if (n <? 0)%Z then "-" +:+ str_of_nat (Z.to_nat (- n))
  else str_of_nat (Z.to_nat n).

Definition default_summary (origin_city destination_city : string)
    (days : Z) : summary :=
  {| headline := "Trip to " +:+ destination_city;
     overview := Some ("A " +:+ str_of_int days +:+ "-day trip from "
                       +:+ origin_city +:+ " to " +:+ destination_city
                       +:+ ".");
     summary_error := None |}.

(** The entry written for a category and the message appended to
    [errors], from what its fetcher did. *)
Definition entry_of {A} (r : outcome A) : fetched A :=
  match r with
  | Ok value => Fetched value
  | Raise e => FetchFailed e
  end.

Definition error_of {A} (what : string) (r : outcome A) : list string :=
  match r with
  | Ok _ => []
  | Raise e => ["Could not retrieve " +:+ what +:+ ": " +:+ e]
  end.

(** [trip_plan["status"]] from the error list. *)
Definition status_of (errors : list string) : string :=
  if nonempty errors
  then if (length errors <? 4)%nat then "partial" else "failed"
  else "success".

Section PlanTrip.
Context (b : backends).
Context (openai_api_key : option string).
Context (strptime : string -> option Z).
(** The four fetchers that [plan_trip] calls under [try]. *)
Context (fetch_flights : string -> string -> Z -> M flight_options).
Context (fetch_accommodations :
           string -> string -> option string -> Z -> M accommodation_options).
Context (fetch_activities : string -> Z -> M activity_options).
Context (fetch_travel_information :
           option string -> string -> M travel_information).

(** [generate_trip_summary(trip_plan, errors)].  Every path reads
    [trip_plan["metadata"]]: without that entry the [KeyError] leaves
    the function, from the first branch, or from the handler of the
    [try] after having been caught once. *)
Definition generate_trip_summary (md : option metadata) (days : Z)
  : M summary :=
  match md with
  | None => raise "'metadata'"
  | Some md =>
      let fallback :=
        default_summary (md_origin_city md) (md_destination_city md) days in
      if truthy_str openai_api_key
      then try_except (invoke OpenAIChat (chat_completion b))
                      (fun _ => mret fallback)
      else mret fallback
  end.

(** One [try ... except Exception as e] block around a fetcher: the
    entry for the plan and the error list after it. *)
Definition guarded {A} (what : string) (fetch : M A) (errors : list string)
  : M (fetched A * list string) :=
  try_except
    (r ← fetch; mret (Fetched r, errors))
    (fun e =>
       mret (FetchFailed e,
             errors ++ ["Could not retrieve " +:+ what +:+ ": " +:+ e])).

Definition plan_trip_with
    (origin_city destination_city start_date end_date : string)
    (travelers : Z) (budget_level : string)
    (trip_type accommodation_type : option string)
    (include_activities : bool)
    (origin_country destination_country : option string)
    (max_results_per_category : Z) : M response :=
  match strptime start_date, strptime end_date with
  | Some start, Some end_ =>
      if (end_ <? start)%Z
      then mret (Rejected "End date must be after start date")
      else
        let trip_duration := (end_ - start)%Z in
        let destination_country := or_str destination_country destination_city in
        (* 1. Get flight options *)
        '(flights, errors) ←
          guarded "flight options"
            (fetch_flights origin_city destination_city
               max_results_per_category) [];
        (* 2. Get accommodation options *)
        '(accommodations, errors) ←
          guarded "accommodation options"
            (fetch_accommodations destination_city budget_level
               accommodation_type max_results_per_category) errors;
        (* 3. Get activity options if requested *)
        '(activities, errors) ←
          (if include_activities then
             '(a, errors) ←
               guarded "activity options"
                 (fetch_activities destination_city
                    max_results_per_category) errors;
             mret (Some a, errors)
           else mret (None, errors));
        (* 4. Get travel information (visa, health, advisories) *)
        '(travel_info, errors) ←
          guarded "travel information"
            (fetch_travel_information origin_country destination_country)
            errors;
        (* 5. Generate a summary with LLM if available *)
        trip_summary ←
          (if truthy_str openai_api_key then
             try_except (generate_trip_summary None trip_duration)
               (fun e =>
                  mret {| headline := "Trip to " +:+ destination_city;
                          overview := None;
                          summary_error :=
                            Some ("Could not generate summary: " +:+ e) |})
           else mret (default_summary origin_city destination_city
                        trip_duration));
        mret (Planned
          {| tp_flights := flights;
             tp_accommodations := accommodations;
             tp_activities := activities;
             tp_travel_info := travel_info;
             tp_summary := trip_summary;
             tp_metadata :=
               {| md_origin_city := origin_city;
                  md_destination_city := destination_city;
                  md_start_date := start_date;
                  md_end_date := end_date;
                  md_travelers := travelers;
                  md_budget_level := budget_level;
                  md_trip_type := trip_type;
                  md_errors := errors |};
             tp_status := status_of errors |})
  | _, _ => mret (Rejected "Invalid date format. Please use YYYY-MM-DD")
  end.
End PlanTrip.

(** The dictionary [params] of [llm_trip_planner_tool]; [None] is a key
    that is absent or holds [None]. *)
Record params := {
  p_origin_city : option string;
  p_destination_city : option string;
  p_start_date : option string;
  p_end_date : option string;
  p_travelers : option Z;
  p_budget_level : option string;
  p_trip_type : option string;
  p_accommodation_type : option string;
  p_include_activities : option bool;
  p_origin_country : option string;
  p_destination_country : option string;
}.

Section Tool.
Context (b : backends).
Context (get_airport_code : string -> string).
Context (openai_api_key : option string).
Context (strptime : string -> option Z).

(** [plan_trip] with the fetchers of the module. *)
Definition plan_trip :=
  plan_trip_with b openai_api_key strptime
    (get_flight_options b get_airport_code)
    (get_accommodation_options b)
    (fun location max_results => get_activity_options b location max_results None)
    (get_travel_information b).

Definition llm_trip_planner_tool (p : params) : M response :=
  if truthy_str (p_origin_city p) && truthy_str (p_destination_city p)
     && truthy_str (p_start_date p) && truthy_str (p_end_date p)
  then
    plan_trip
      (default EmptyString (p_origin_city p))
      (default EmptyString (p_destination_city p))
      (default EmptyString (p_start_date p))
      (default EmptyString (p_end_date p))
      (default 2%Z (p_travelers p))
      (default "moderate" (p_budget_level p))
      (p_trip_type p)
      (p_accommodation_type p)
      (default true (p_include_activities p))
      (Some (default "United States" (p_origin_country p)))
      (p_destination_country p)
      3
  else
    mret (Rejected "Missing required parameters. Must provide origin_city, destination_city, start_date, and end_date.").
End Tool.

End TripPlanner.

(** ** [amadeus_trip_planner_tool.py] *)

Module AmadeusPlanner.
Import PyStr Rank Dedupe Effects Handlers.

(** The dictionary that [extract_trip_details] fills. *)
Record trip_details := {
  origin_city : option string;
  destination_city : option string;
  departure_date : option string;
  return_date : option string;
  travelers : Z;
  budget_level : string;
  accommodation_type : option string;
  flight_class : string;
}.

(** A hotel of the result: from the web search or from the Amadeus API. *)
Inductive hotel_entry :=
| WebHotel (h : std_hotel)
| ApiHotel (h : hotel).

(** The dictionary [result], without the [recommendations] that are
    formatted from it at the end. *)
Record result := {
  status : string;
  query : string;
  details : trip_details;
  flights : list flight;
  hotels : list hotel_entry;
  activities : list activity;
  suggestions : list string;
}.

(** What [plan_trip] returns: [{"status": "error", "error": ...}] or the
    result. *)
Inductive tool_response :=
| ToolError (error : string)
| ToolResult (r : result).

(** [result] is updated in place, so what was written to it before a
    raise is still there in the handler: it is part of the state. *)
Record planner_state := {
  calls : trace;
  res : result;
}.

Definition call {A} (c : Effects.call) (answer : trace -> outcome A)
  : ST planner_state A :=
  fun s => (answer (calls s), {| calls := calls s ++ [c]; res := res s |}).

Definition update (f : result -> result) : ST planner_state unit :=
  fun s => (Ok tt, {| calls := calls s; res := f (res s) |}).

(** [result["suggestions"].append(text)] *)
Definition suggest (text : string) : ST planner_state unit :=
  update (fun r =>
    {| status := status r; query := query r; details := details r;
       flights := flights r; hotels := hotels r; activities := activities r;
       suggestions := suggestions r ++ [text] |}).

Definition set_flights (l : list flight) : ST planner_state unit :=
  update (fun r =>
    {| status := status r; query := query r; details := details r;
       flights := l; hotels := hotels r; activities := activities r;
       suggestions := suggestions r |}).

Definition set_hotels (l : list hotel_entry) : ST planner_state unit :=
  update (fun r =>
    {| status := status r; query := query r; details := details r;
       flights := flights r; hotels := l; activities := activities r;
       suggestions := suggestions r |}).

Definition set_activities (l : list activity) : ST planner_state unit :=
  update (fun r =>
    {| status := status r; query := query r; details := details r;
       flights := flights r; hotels := hotels r; activities := l;
       suggestions := suggestions r |}).

Definition get_result : ST planner_state result := fun s => (Ok (res s), s).

Definition when (c : bool) (m : ST planner_state unit)
  : ST planner_state unit :=
  if c then m else mret tt.

(** [m] adds calls to the trace, and only calls that satisfy [P]. *)
Definition adds_only {A} (P : Effects.call -> Prop) (m : ST planner_state A)
  : Prop :=
  forall s, exists added,
    calls (snd (m s)) = calls s ++ added /\ Forall P added.

(** Trip details without a destination, and with one. *)
Definition no_details : trip_details :=
  {| origin_city := None; destination_city := None; departure_date := None;
     return_date := None; travelers := 1; budget_level := "moderate";
     accommodation_type := None; flight_class := "economy" |}.

Definition paris_details : trip_details :=
  {| origin_city := Some "New York"; destination_city := Some "Paris";
     departure_date := Some "2025-06-15"; return_date := Some "2025-06-22";
     travelers := 2; budget_level := "moderate";
     accommodation_type := None; flight_class := "economy" |}.

Section WithHandlers.
Context (b : backends).
(** [extract_trip_details]: regular expressions over the query, no
    handler involved. *)
Context (extract_trip_details : string -> trip_details).
(** [_get_default_airport_code]: a lookup of the lowercased city in a
    fixed table. *)
Context (_get_default_airport_code : string -> option string).
(** The activity type that the query mentions, and whether it mentions
    food (regular expressions as well). *)
Context (activity_type_of : string -> option string).
Context (mentions_food : string -> bool).

Definition no_hotels_text (destination : string) : string :=
  "I couldn't find any hotels in " +:+ destination
  +:+ " for the specified dates. Try different dates or a different destination.".

(** The code for a city: Amadeus first, the table second, with a
    suggestion when both fail. *)
Definition airport_code (city : string) : ST planner_state (option string) :=
  code ← call (AmadeusGetCityCode city) (amadeus_get_city_code b city);
  if truthy_str code then mret code
  else
    let code := _get_default_airport_code city in
    when (negb (truthy_str code))
      (suggest ("I couldn't find the airport code for " +:+ city
                +:+ ". Try using a major city nearby."));;
    mret code.

Definition flight_part (origin destination : string)
  : ST planner_state unit :=
  try_except
    (origin_code ← airport_code origin;
     destination_code ← airport_code destination;
     if truthy_str origin_code && truthy_str destination_code then
       found ← call AmadeusSearchFlights
                 (amadeus_search_flights b
                    (default EmptyString origin_code)
                    (default EmptyString destination_code));
       if nonempty found then set_flights found
       else suggest ("I couldn't find any flights from " +:+ origin
                     +:+ " to " +:+ destination
                     +:+ " for the specified dates. Try different dates or nearby airports.")
     else
       when (negb (truthy_str origin_code))
         (suggest ("I couldn't identify the airport code for " +:+ origin
                   +:+ "."));;
       when (negb (truthy_str destination_code))
         (suggest ("I couldn't identify the airport code for "
                   +:+ destination +:+ "."));;
       suggest "Try specifying major cities with international airports.")
    (fun _ =>
       suggest "There was an error getting flight information. Please try again later.").

Definition hotel_part (destination : string) : ST planner_state unit :=
  try_except
    ((* Use DuckDuckGo as primary hotel search method *)
     web_hotels ← call DuckDuckGoHotels
                    (duckduckgo_search_hotels b destination);
     (if nonempty web_hotels then set_hotels (map WebHotel web_hotels)
      else
        (* Fall back to Amadeus API if DuckDuckGo found nothing *)
        try_except
          (code ← call (AmadeusGetCityCode destination)
                    (amadeus_get_city_code b destination);
           let destination_code :=
             if truthy_str code then code
             else _get_default_airport_code destination in
           found ← call AmadeusSearchHotels
                     (amadeus_search_hotels b destination_code);
           if nonempty found then
             set_hotels (map ApiHotel found);;
             suggest "Hotel information was sourced from our official hotel provider."
           else suggest (no_hotels_text destination))
          (fun _ => suggest (no_hotels_text destination)));;
     (* If we still don't have hotels, add a suggestion *)
     r ← get_result;
     when (negb (nonempty (hotels r))) (suggest (no_hotels_text destination)))
    (fun _ =>
       suggest "There was an error getting hotel information. Please try again later.").

Definition activity_part (query destination : string)
  : ST planner_state unit :=
  let activity_type := activity_type_of query in
  try_except
    (found ← call DuckDuckGoActivities
               (duckduckgo_search_activities b destination activity_type);
     found ←
       (if nonempty found then mret found
        else
          firecrawl_activities ←
            call FirecrawlActivities
              (firecrawl_search_activities b destination activity_type);
          attractions ←
            call FirecrawlAttractions
              (firecrawl_search_tourist_attractions b destination);
          let found := found ++ firecrawl_activities ++ attractions in
          if mentions_food query then
            restaurants ← call FirecrawlRestaurants
                            (firecrawl_search_restaurants b destination);
            mret (found ++ restaurants)
          else mret found);
     if nonempty found then set_activities found
     else suggest ("I couldn't find any activities in " +:+ destination
                   +:+ ". Try being more specific about what you'd like to do."))
    (fun _ =>
       suggest "There was an error getting activity information. Please try again later.").

Definition plan_trip (query : string) : M tool_response :=
  fun t =>
    let trip_details := extract_trip_details query in
    (* Validate mandatory fields *)
    if negb (truthy_str (destination_city trip_details)) then
      (Ok (ToolError "Could not determine the destination city from your query. Please specify where you want to go."),
       t)
    else
      let origin := origin_city trip_details in
      let destination := default EmptyString (destination_city trip_details) in
      let start :=
        {| calls := t;
           res := {| status := "success"; query := query;
                     details := trip_details; flights := []; hotels := [];
                     activities := []; suggestions := [] |} |} in
      let body :=
        when (truthy_str origin)
          (flight_part (default EmptyString origin) destination);;
        hotel_part destination;;
        activity_part query destination in
      match body start with
      | (Ok _, s) => (Ok (ToolResult (res s)), calls s)
      | (Raise e, s) => (Raise e, calls s)
      end.
End WithHandlers.

End AmadeusPlanner.

(** ** Readings of the option pipelines

    What the loops of [trip_planner_tool.py] compute, written with the
    list functions: the statements about them compare the two. *)

Module OptionSpecs.
Import PyStr PyOrder Rank Dedupe Effects Handlers TripPlanner.

(** The hotel gets through the budget filter: its price passes, and its
    type or name holds the wanted type when one is given. *)
Definition kept (range : Q * ext) (accommodation_type : option string)
    (h : hotel) : bool :=
  price_passes range (price h)
  && negb (truthy_str accommodation_type
           && negb (type_matches (default EmptyString accommodation_type) h)).

(** The rating an activity is sorted by: its number, 0 without one. *)
Definition rating_or_zero (a : activity) : Q :=
  match a_rating a with
  | Some r => r
  | None => 0%Q
  end.

(** The entry of a site in a dictionary, [None] without one. *)
Definition dict_get {V} (k : string) (d : list (string * V)) : option V :=
  snd <$> List.find (fun '(k', _) => String.eqb k' k) d.

End OptionSpecs.

(** ** Sample answers of the activity handlers *)

Module ActivitySamples.
Import PyStr PyOrder Rank Dedupe Effects Handlers.

Definition louvre : activity :=
  {| a_name := Some "Louvre"; a_description := "Museum";
     a_rating := Some 4.5%Q; a_source := Some "duckduckgo" |}.

Definition seine_cruise : activity :=
  {| a_name := Some "Seine cruise"; a_description := "Boat tour";
     a_rating := None; a_source := Some "duckduckgo" |}.

Definition catacombs : activity :=
  {| a_name := Some "Catacombs"; a_description := "Underground tour";
     a_rating := Some 4.8%Q; a_source := Some "firecrawl" |}.

(** The web search finds two activities, Firecrawl a third. *)
Definition with_activities : backends :=
  {| amadeus_get_city_code := amadeus_get_city_code silent;
     amadeus_search_flights := amadeus_search_flights silent;
     amadeus_search_hotels := amadeus_search_hotels silent;
     search_flights_all_sites := search_flights_all_sites silent;
     search_hotels_all_sites := search_hotels_all_sites silent;
     search_activities_all_sites := search_activities_all_sites silent;
     duckduckgo_search_hotels := duckduckgo_search_hotels silent;
     duckduckgo_search_activities := fun _ _ _ => Ok [seine_cruise; louvre];
     firecrawl_search_activities := fun _ _ _ => Ok [catacombs];
     firecrawl_search_tourist_attractions :=
       firecrawl_search_tourist_attractions silent;
     firecrawl_search_restaurants := firecrawl_search_restaurants silent;
     get_travel_info := get_travel_info silent;
     chat_completion := chat_completion silent |}.

End ActivitySamples.

(** ** Readings of a trip plan *)

Module PlanSpecs.
Import PyStr PyOrder Rank Dedupe Effects Handlers TripPlanner.

(** [m] adds calls to the trace, and only calls that satisfy [P]. *)
Definition only_calls {A} (P : call -> Prop) (m : M A) : Prop :=
  forall t, exists added, calls_from m t = t ++ added /\ Forall P added.

(** The entry of a category is the error entry. *)
Definition failed {A} (entry : fetched A) : bool :=
  match entry with
  | Fetched _ => false
  | FetchFailed _ => true
  end.

(** The number of error entries in a plan. *)
Definition failures (p : trip_plan) : nat :=
  (if failed (tp_flights p) then 1 else 0)
  + (if failed (tp_accommodations p) then 1 else 0)
  + match tp_activities p with
    | Some entry => if failed entry then 1 else 0
    | None => 0
    end
  + (if failed (tp_travel_info p) then 1 else 0).

(** Both dates parse, and the end is not before the start. *)
Definition valid_dates (strptime : string -> option Z)
    (start_date end_date : string) : Prop :=
  exists start end_,
    strptime start_date = Some start /\ strptime end_date = Some end_
    /\ (start <= end_)%Z.

End PlanSpecs.

(** ** Readings of the planner's result *)

Module PlannerSpecs.
Import PyStr Rank Dedupe Effects Handlers AmadeusPlanner.

(** Every step of [m] takes a state to one related to it by [R]. *)
Definition keeps {A} (R : relation planner_state) (m : ST planner_state A)
  : Prop :=
  forall s, R s (snd (m s)).

(** The request is left as it was and suggestions are only appended. *)
Definition request_kept : relation planner_state :=
  fun s s' =>
    status (res s') = status (res s)
    /\ query (res s') = query (res s)
    /\ details (res s') = details (res s)
    /\ suggestions (res s) `prefix_of` suggestions (res s').

Definition flights_kept : relation planner_state :=
  fun s s' => flights (res s') = flights (res s).

Definition hotels_kept : relation planner_state :=
  fun s s' => hotels (res s') = hotels (res s).

(** The texts that the three parts leave in [suggestions] when they
    store nothing. *)
Definition flight_texts (origin destination : string) : list string :=
  ["I couldn't find any flights from " +:+ origin +:+ " to " +:+ destination
   +:+ " for the specified dates. Try different dates or nearby airports.";
   "Try specifying major cities with international airports.";
   "There was an error getting flight information. Please try again later."].

Definition hotel_texts (destination : string) : list string :=
  ["I couldn't find any hotels in " +:+ destination
   +:+ " for the specified dates. Try different dates or a different destination.";
   "There was an error getting hotel information. Please try again later."].

Definition activity_texts (destination : string) : list string :=
  ["I couldn't find any activities in " +:+ destination
   +:+ ". Try being more specific about what you'd like to do.";
   "There was an error getting activity information. Please try again later."].

(** One of the texts is among the suggestions. *)
Definition suggested (texts : list string) (r : result) : Prop :=
  exists text, text ∈ texts /\ text ∈ suggestions r.

End PlannerSpecs.

(** ** [duckduckgo_activity_search.py]: [search_activities] *)

Module WebSearch.
Import PyStr PyOrder Rank Dedupe.

(** One search result: [scrape_webpage] gave nothing, or the activities
    that [extract_activity_info] read from its content. *)
Inductive activity_page :=
| NoActivityContent
| ExtractedActivities (activities : list activity).

Definition page_activities (p : activity_page) : list activity :=
  match p with
  | NoActivityContent => []
  | ExtractedActivities activities => activities
  end.

(** [float(x.get('rating', 0) or 0)] *)
Definition rating_key (x : activity) : Q :=
  match a_rating x with
  | Some r => r
  | None => 0%Q
  end.

(** The comparison of a sort with [reverse=True]. *)
Definition num_gtb (x y : Q) : bool := num_ltb y x.

(** [DuckDuckGoActivitySearch.search_activities], from the search
    results on. *)
Definition search_activities (pages : list activity_page) (limit : Z)
  : list activity :=
  match pages with
  | [] => []
  | _ =>
      (* Scrape content from search results *)
      let all_activities := concat (map page_activities pages) in
      (* Remove duplicates (based on name) *)
      let unique_activities := dedupe_activities all_activities in
      (* Sort by rating (if available) *)
      let unique_activities :=
        py_sorted num_gtb rating_key unique_activities in
      (* Return up to the limit *)
      slice_to limit unique_activities
  end.

End WebSearch.

(** ** The scrapers: [hotel_scraper.py], [flight_scraper.py],
    [activity_scraper.py]

    The three classes have the same [make_request] and [clean_text]. *)

Module Scraper.
Import PyStr PyOrder Rank Effects Unicode.

(** [self]: [__init__(self, timeout, max_retries=3)]. *)
Record scraper := {
  timeout : Z;
  max_retries : Z;
}.

(** [HotelScraper()] and [ActivityScraper()]; [FlightScraper()] has the
    timeout 15. *)
Definition init : scraper := {| timeout := 10; max_retries := 3 |}.

(** What [requests.get] followed by [raise_for_status] does at one
    attempt: a response, a [requests.RequestException], or another
    exception, which [make_request] does not catch. *)
Inductive attempt (R : Type) :=
| Response (r : R)
| RequestException (text : string)
| OtherException (text : string).
Arguments Response {R} r.
Arguments RequestException {R} text.
Arguments OtherException {R} text.

(** A run of [make_request]: the response or [None] it returns (or what
    it raises), the number of requests made, the sleeps in order. *)
Record request_run (R : Type) := {
  returned : outcome (option R);
  requests : nat;
  waits : list Z;
}.
Arguments returned {R} r.
Arguments requests {R} r.
Arguments waits {R} r.

Section MakeRequest.
Context {R : Type} (self : scraper).
(** The answer to the request number [n] of the run, from 0. *)
Context (get : nat -> attempt R).

(** The [while retries < self.max_retries] loop. *)
Equations? make_request_loop (retries : nat) (sleeps : list Z)
  : request_run R by wf (Z.to_nat (max_retries self) - retries) lt :=
make_request_loop retries sleeps
    with Z_lt_dec (Z.of_nat retries) (max_retries self) := {
  | right _ =>
      {| returned := Ok None; requests := retries; waits := sleeps |}
  | left _ with get retries := {
    | Response r =>
        {| returned := Ok (Some r); requests := S retries; waits := sleeps |}
    | OtherException text =>
        {| returned := Raise text; requests := S retries; waits := sleeps |}
    | RequestException _
        with Z_le_dec (max_retries self) (Z.of_nat (S retries)) := {
      | left _ =>
          {| returned := Ok None; requests := S retries; waits := sleeps |}
      | right _ =>
          make_request_loop (S retries)
            (sleeps ++ [Z.of_nat (S retries) * 2]%Z) } } }.
Proof. lia. Qed.

Definition make_request : request_run R := make_request_loop 0 [].
End MakeRequest.

(** [clean_text] works on any text of a page: the text is the sequence
    of its code points, and the whitespace is that of the interpreter's
    Unicode database [u]. *)
Section CleanText.
Context (u : classes).

(** [re.sub(r'\s+', ' ', text)]: every run of whitespace becomes one
    space.  [in_run] tells that the character before was whitespace. *)
Fixpoint sub_blanks (in_run : bool) (text : str) : str :=
  match text with
  | [] => []
  | c :: r =>
      if isspace u c
      then if in_run then sub_blanks true r
           else 32%N :: sub_blanks true r
      else c :: sub_blanks false r
  end.

(** [s.lstrip()] and [s.rstrip()] *)
Fixpoint lstrip (s : str) : str :=
  match s with
  | [] => []
  | c :: r => if isspace u c then lstrip r else s
  end.

Fixpoint rstrip (s : str) : str :=
  match s with
  | [] => []
  | c :: r =>
      match rstrip r with
      | [] => if isspace u c then [] else [c]
      | r' => c :: r'
      end
  end.

(** [s.strip()] *)
Definition strip (s : str) : str := rstrip (lstrip s).

(** [clean_text]; [None] is the argument [None]. *)
Definition clean_text (text : option str) : str :=
  match text with
  | None => []
  | Some text => strip (sub_blanks false text)
  end.

(** A text in the form [clean_text] leaves: its only whitespace is
    single spaces between two other characters.  [after_space] tells
    that the character before was a space. *)
Fixpoint tidy_after (after_space : bool) (s : str) : bool :=
  match s with
  | [] => negb after_space
  | c :: r =>
      if isspace u c
      then (c =? 32)%N && negb after_space && tidy_after true r
      else tidy_after false r
  end.

Definition tidy (s : str) : bool :=
  match s with
  | [] => true
  | c :: _ => negb (isspace u c) && tidy_after false s
  end.

(** The same cleaning in one pass over a text without leading
    whitespace: a run of whitespace is written as one space when another
    character follows it.  [pending] tells that a run is being skipped. *)
Fixpoint squeeze (pending : bool) (s : str) : str :=
  match s with
  | [] => []
  | c :: r =>
      if isspace u c then squeeze true r
      else if pending then 32%N :: c :: squeeze false r
      else c :: squeeze false r
  end.

(** The characters of a text that are not whitespace. *)
Fixpoint letters (s : str) : str :=
  match s with
  | [] => []
  | c :: r => if isspace u c then letters r else c :: letters r
  end.

End CleanText.

End Scraper.

(** ** [flight_scraper.py]: ranking and the search over all sites *)

Module FlightScraper.
Import PyStr PyOrder Rank Effects Scraper.

(** [count_stops(x.get("stops", ""))].  A flight without a text for its
    stops has the default [""]. *)
Definition count_stops (stops : stops_field) : Z :=
  match stops with
  | NoStopsText => 0
  | StopsText stops_text =>
      if String.eqb stops_text EmptyString
         || String.eqb (lower stops_text) "direct"
         || String.eqb (lower stops_text) "nonstop"
      then 0
      else match first_digit_run stops_text with
           | Some digits => int_of_digits digits
           | None => 999  (* High number for unknown *)
           end
  end%Z.

(** [(count_stops(x.get("stops", "")), x.get("price") or float('inf'))] *)
Definition sort_key (x : flight) : Z * ext :=
  (count_stops (f_stops x), or_inf (f_price x)).

(** [r.get("price")] is truthy *)
Definition priced (r : flight) : bool := truthy (f_price r).

Definition _filter_and_rank_results (results : list flight) (top_n : Z)
  : list flight :=
  match results with
  | [] => []
  | _ =>
      let sorted_results :=
        py_sorted flight_key_ltb sort_key (List.filter priced results) in
      slice_to top_n sorted_results
  end.

(** A [scrape_*] method after its URL is built: the page is requested,
    no response gives the empty list, and the flights read from the
    cards of the page are filtered and ranked with the default
    [top_n = 3].  [cards] is what the parsing of the page appends to
    [results]. *)
Definition scrape {R} (self : scraper) (get : nat -> attempt R)
    (cards : R -> list flight) : outcome (list flight) :=
  match returned (make_request self get) with
  | Raise e => Raise e
  | Ok None => Ok []
  | Ok (Some response) => Ok (_filter_and_rank_results (cards response) 3)
  end.

(** [results[site] = ...] under [try], [[]] when the method raised. *)
Definition site_entry {A} (site : string) (scraped : outcome (list A))
    (results : list (string * list A)) : list (string * list A) :=
  match scraped with
  | Ok found => dict_set site found results
  | Raise _ => dict_set site [] results
  end.

(** [search_flights_all_sites], from what the five methods do. *)
Definition search_flights_all_sites
    (skyscanner kayak expedia google_flights priceline
       : outcome (list flight))
  : list (string * list flight) :=
  let results := [] in
  let results := site_entry "skyscanner" skyscanner results in
  let results := site_entry "kayak" kayak results in
  let results := site_entry "expedia" expedia results in
  let results := site_entry "google_flights" google_flights results in
  let results := site_entry "priceline" priceline results in
  results.

End FlightScraper.

(** ** The flight scraper behind [get_flight_options] *)

Module ScrapedFlights.
Import PyStr PyOrder Rank Effects Handlers Scraper.

(** What the five [scrape_*] methods do for an origin and a
    destination. *)
Record site_runs := {
  skyscanner : outcome (list flight);
  kayak : outcome (list flight);
  expedia : outcome (list flight);
  google_flights : outcome (list flight);
  priceline : outcome (list flight);
}.

Definition all_sites (runs : site_runs) : list (string * list flight) :=
  FlightScraper.search_flights_all_sites (skyscanner runs) (kayak runs)
    (expedia runs) (google_flights runs) (priceline runs).

(** The handlers [b] with [FlightScraper.search_flights_all_sites] as
    the flight scraper. *)
Definition with_flight_scraper (b : backends)
    (runs : string -> string -> site_runs) : backends :=
  {| amadeus_get_city_code := amadeus_get_city_code b;
     amadeus_search_flights := amadeus_search_flights b;
     amadeus_search_hotels := amadeus_search_hotels b;
     search_flights_all_sites :=
       fun origin destination _ => Ok (all_sites (runs origin destination));
     search_hotels_all_sites := search_hotels_all_sites b;
     search_activities_all_sites := search_activities_all_sites b;
     duckduckgo_search_hotels := duckduckgo_search_hotels b;
     duckduckgo_search_activities := duckduckgo_search_activities b;
     firecrawl_search_activities := firecrawl_search_activities b;
     firecrawl_search_tourist_attractions :=
       firecrawl_search_tourist_attractions b;
     firecrawl_search_restaurants := firecrawl_search_restaurants b;
     get_travel_info := get_travel_info b;
     chat_completion := chat_completion b |}.

(** The method ended in [return self._filter_and_rank_results(results)]
    or in [return []]. *)
Definition ranked_run (run : outcome (list flight)) : Prop :=
  forall found, run = Ok found ->
    exists results, found = FlightScraper._filter_and_rank_results results 3.

Definition ranked_runs (runs : site_runs) : Prop :=
  ranked_run (skyscanner runs) /\ ranked_run (kayak runs)
  /\ ranked_run (expedia runs) /\ ranked_run (google_flights runs)
  /\ ranked_run (priceline runs).

(** The keys of the dictionary that [search_flights_all_sites] returns. *)
Definition site_names : list string :=
  ["skyscanner"; "kayak"; "expedia"; "google_flights"; "priceline"].

(** A response whose cards give three flights, one without a price. *)
Definition sample_runs : site_runs :=
  {| skyscanner :=
       FlightScraper.scrape init (fun _ => Response "page")
         (fun _ => [sample_one_stop; sample_unpriced; sample_direct]);
     kayak := FlightScraper.scrape init (fun _ => @RequestException string "timeout")
                (fun _ => []);
     expedia := Raise "time data does not match format";
     google_flights := Ok [];
     priceline := Ok [] |}.

End ScrapedFlights.

(** ** [trip_planner_tool.py]: [get_airport_code] *)

Module AirportCodes.
Import PyStr.

Definition airport_codes : list (string * string) :=
  [("new york", "JFK"); ("los angeles", "LAX"); ("chicago", "ORD");
   ("san francisco", "SFO"); ("miami", "MIA"); ("london", "LHR");
   ("paris", "CDG"); ("tokyo", "HND"); ("sydney", "SYD"); ("dubai", "DXB");
   ("delhi", "DEL"); ("mumbai", "BOM"); ("bangalore", "BLR");
   ("hyderabad", "HYD"); ("chennai", "MAA")].

(** [d[k]] for a key that may be absent *)
Fixpoint lookup (k : string) (d : list (string * string)) : option string :=
  match d with
  | [] => None
  | (k', v) :: rest => if String.eqb k' k then Some v else lookup k rest
  end.

Definition upper_ascii (c : ascii) : ascii :=
  let n := nat_of_ascii c in
  if (97 <=? n)%nat && (n <=? 122)%nat then ascii_of_nat (n - 32) else c.

(** [s.upper()] *)
Fixpoint upper (s : string) : string :=
  match s with
  | EmptyString => EmptyString
  | String c r => String (upper_ascii c) (upper r)
  end.

(** [key in city_lower or city_lower in key] *)
Definition partial_match (city_lower : string) (entry : string * string)
  : bool :=
  contains (fst entry) city_lower || contains city_lower (fst entry).

Definition get_airport_code (city : string) : string :=
  let city_lower := lower city in
  (* Try to find a direct match *)
  match lookup city_lower airport_codes with
  | Some code => code
  | None =>
      (* Try partial match *)
      match List.find (partial_match city_lower) airport_codes with
      | Some (_, code) => code
      | None =>
          (* the first 3 letters of the city *)
          String.substring 0 3 (upper city)
      end
  end.

End AirportCodes.

(** ** [amadeus_api_handler.py]: [get_city_code] *)

Module CityCode.
Import PyStr PyOrder Rank AmadeusAPI.

(** A location of a response, as far as [get_city_code] reads it. *)
Record location := {
  iataCode : option string;
  subType : option string;
}.

(** The run of the method: the code or [None], the number of attempts
    and the sleeps in order. *)
Record code_run := {
  code : option string;
  tries : nat;
  pauses : list Z;
}.

(** [city_code] is truthy *)
Definition truthy_code (c : option string) : bool :=
  match c with
  | Some s => negb (String.eqb s EmptyString)
  | None => false
  end.

(** The first location with [subType == 'CITY'] *)
Definition is_city (l : location) : bool :=
  match subType l with
  | Some s => String.eqb s "CITY"
  | None => false
  end.

(** What the second response gives: the code of its first city, or of
    its first location when it names no city. *)
Definition code_of_locations (data : list location) : option string :=
  match List.find is_city data with
  | Some l => iataCode l
  | None =>
      match data with
      | first :: _ => iataCode first
      | [] => None
      end
  end.

Section GetCityCode.
Context (self : handler).
(** The answers of [locations.cities.get] and of [locations.get] at each
    attempt. *)
Context (cities : nat -> api_result (list location)).
Context (locations : nat -> api_result (list location)).

(** What ends an attempt: a value to return, or one of the two
    exceptions that the loop handles. *)
Inductive ending :=
| Return (c : option string)
| RaisedResponseError (text : string)
| RaisedOther (text : string).

(** The [try] body of one attempt. *)
Definition attempt_body (n : nat) : ending :=
  let second :=
    match locations n with
    | Data [] | NoData => Return None
    | Data data => Return (code_of_locations data)
    | ResponseError text => RaisedResponseError text
    | OtherError text => RaisedOther text
    end in
  match cities n with
  | Data (first :: _) =>
      if truthy_code (iataCode first) then Return (iataCode first)
      else second
  | Data [] | NoData => second
  | ResponseError text => RaisedResponseError text
  | OtherError text => RaisedOther text
  end.

Equations? get_city_code_loop (retries made : nat) (sleeps : list Z)
  : code_run by wf (max_retries self - retries) lt :=
get_city_code_loop retries made sleeps
    with lt_dec retries (max_retries self) := {
  | right _ => {| code := None; tries := made; pauses := sleeps |}
  | left _ with attempt_body made := {
    | Return c => {| code := c; tries := S made; pauses := sleeps |}
    | RaisedResponseError text with rate_limited text := {
      | true =>
          get_city_code_loop (S retries) (S made)
            (sleeps ++ [rate_limit_delay self * 2 ^ Z.of_nat (S retries)]%Z)
      | false => {| code := None; tries := S made; pauses := sleeps |} }
    | RaisedOther text with le_dec (max_retries self) (S retries) := {
      | left _ => {| code := None; tries := S made; pauses := sleeps |}
      | right _ =>
          get_city_code_loop (S retries) (S made)
            (sleeps ++ [retry_delay self]) } } }.
Proof. all: lia. Qed.

Definition get_city_code : code_run :=
  if client self then get_city_code_loop 0 0 []
  else {| code := None; tries := 0; pauses := [] |}.
End GetCityCode.

(** The codes that the answers of an attempt hold. *)
Definition answer_codes (answer : api_result (list location))
  : list (option string) :=
  match answer with
  | Data data => map iataCode data
  | _ => []
  end.

End CityCode.

(** *** Facts about the string helpers *)

Module UnicodeFacts.
Import Unicode.

Lemma span_app p a : forall b,
  forallb p a = true -> stops_at p b = true ->
  span p (a ++ b) = (a, b).
Proof.
  induction a as [|c a IH]; intros b Ha Hb; simpl in *.
  - destruct b as [|c b]; [reflexivity|]. simpl in *.
    destruct (p c); [discriminate|reflexivity].
  - apply andb_true_iff in Ha as [Hc Ha]. rewrite Hc, (IH b Ha Hb).
    reflexivity.
Qed.

Lemma span_whole p a : forallb p a = true -> span p a = (a, []).
Proof.
  intros Ha. pose proof (span_app p a [] Ha eq_refl) as H.
  by rewrite app_nil_r in H.
Qed.

Lemma forallb_weaken (p q : char -> bool) s :
  (forall c, p c = true -> q c = true) ->
  forallb p s = true -> forallb q s = true.
Proof.
  intros Hpq. induction s as [|c s IH]; simpl; [reflexivity|].
  intros H. apply andb_true_iff in H as [Hc Hs].
  rewrite (Hpq _ Hc), (IH Hs). reflexivity.
Qed.

Lemma remove_char_app c a b :
  remove_char c (a ++ b) = remove_char c a ++ remove_char c b.
Proof.
  induction a as [|x a IH]; simpl; [reflexivity|].
  destruct (x =? c)%N; simpl; congruence.
Qed.

Lemma remove_char_absent c s :
  forallb (fun x => negb (x =? c)%N) s = true -> remove_char c s = s.
Proof.
  induction s as [|x s IH]; simpl; [reflexivity|].
  intros H. apply andb_true_iff in H as [Hx Hs].
  destruct (x =? c)%N; [discriminate|]. rewrite (IH Hs). reflexivity.
Qed.

(** A property of the code points below 128, checked on each of them. *)
Lemma below_128 (P : char -> bool) :
  forallb P (map N.of_nat (seq 0 128)) = true ->
  forall c, (c < 128)%N -> P c = true.
Proof.
  intros H c Hc. rewrite forallb_forall in H. apply H.
  rewrite <- (N2Nat.id c). apply in_map, in_seq. lia.
Qed.

Lemma unicode_14_standard : standard unicode_14.
Proof.
  split; try reflexivity.
  - intros c Hc.
    apply (below_128
      (fun c => Bool.eqb (isdecimal unicode_14 c)
                         ((48 <=? c)%N && (c <=? 57)%N))) in Hc;
      [by apply Bool.eqb_prop in Hc|by vm_compute].
  - intros c [Hlo Hhi].
    assert (Hc : (c < 128)%N) by lia.
    apply (below_128
      (fun c => implb ((48 <=? c)%N && (c <=? 57)%N)
                      (todecimal unicode_14 c =? Z.of_N c - 48)%Z)) in Hc;
      [|by vm_compute].
    apply N.leb_le in Hlo, Hhi. rewrite Hlo, Hhi in Hc.
    by apply Z.eqb_eq in Hc.
Qed.

End UnicodeFacts.

(** *** What the pattern finds *)

Module PriceFacts.
Import PyOrder Unicode UnicodeFacts PyFloat Price.

Section Standard.
Context (u : classes) (Hu : standard u).

Lemma comma_not_decimal : isdecimal u 44 = false.
Proof. by rewrite (ascii_isdecimal u Hu). Qed.

Lemma dot_not_decimal : isdecimal u 46 = false.
Proof. by rewrite (ascii_isdecimal u Hu). Qed.

Lemma symbol_not_decimal c : is_symbol c = true -> isdecimal u c = false.
Proof.
  unfold is_symbol. intros H.
  repeat (apply orb_true_iff in H as [H|H]);
    apply N.eqb_eq in H; subst c.
  - by rewrite (ascii_isdecimal u Hu).
  - apply (euro_isdecimal u Hu).
  - apply (pound_isdecimal u Hu).
  - apply (rupee_isdecimal u Hu).
Qed.

Lemma blanks_first_number s : forall g,
  blanks_then_number u s = Some g -> first_number u s = Some g.
Proof.
  induction s as [|c s IH]; intros g H; simpl in *; [discriminate|].
  destruct (isdecimal u c); [exact H|].
  destruct (isspace u c); [auto|discriminate].
Qed.

Lemma first_number_skip p r :
  existsb (isdecimal u) p = false ->
  first_number u (p ++ r) = first_number u r.
Proof.
  induction p as [|c p IH]; simpl; [reflexivity|].
  intros H. apply orb_false_iff in H as [Hc Hp]. rewrite Hc. auto.
Qed.

Lemma match_here_first_number s g :
  match_here u s = Some g -> first_number u s = Some g.
Proof.
  unfold match_here. intros H. destruct s as [|c r]; [discriminate|].
  destruct (is_symbol c) eqn:E; [|by apply blanks_first_number].
  destruct (blanks_then_number u r) as [g'|] eqn:B;
    [|by apply blanks_first_number].
  injection H as <-. cbn [first_number].
  rewrite (symbol_not_decimal _ E). by apply blanks_first_number.
Qed.

Lemma match_here_none_head c r :
  match_here u (c :: r) = None -> isdecimal u c = false.
Proof.
  unfold match_here. intros H.
  assert (B : blanks_then_number u (c :: r) = None).
  { destruct (is_symbol c); [|exact H].
    destruct (blanks_then_number u r); [discriminate|exact H]. }
  simpl in B. destruct (isdecimal u c); [discriminate|reflexivity].
Qed.

(** [re.search] with this pattern returns, as group 1, the run of price
    characters that starts at the first decimal digit of the text. *)
Lemma re_search_spec s : re_search u s = first_number u s.
Proof.
  induction s as [|c s IH].
  - reflexivity.
  - cbn [re_search]. destruct (match_here u (c :: s)) as [g|] eqn:M.
    + symmetry. now apply match_here_first_number.
    + cbn [first_number]. rewrite (match_here_none_head _ _ M). exact IH.
Qed.

Lemma first_number_none s :
  existsb (isdecimal u) s = false -> first_number u s = None.
Proof.
  induction s as [|c s IH]; simpl; [reflexivity|].
  intros H. apply orb_false_iff in H as [Hc Hs]. rewrite Hc. auto.
Qed.

Lemma first_number_found pre g suf :
  existsb (isdecimal u) pre = false -> is_group u g = true ->
  stops_at (is_price_char u) suf = true ->
  first_number u (pre ++ g ++ suf) = Some g.
Proof.
  intros Hpre Hg Hsuf. rewrite first_number_skip by exact Hpre.
  apply andb_true_iff in Hg as [Hall Hd].
  destruct g as [|d g]; [discriminate|].
  rewrite <- app_comm_cons. cbn [first_number]. rewrite Hd.
  rewrite app_comm_cons. now rewrite (span_app _ _ _ Hall Hsuf).
Qed.

(** [float] of an integer literal. *)
Lemma py_float_int ip :
  forallb (isdecimal u) ip = true -> ip <> [] ->
  py_float u ip = Some (to_double (decimal u ip [])).
Proof.
  intros Hd Hne. unfold py_float. rewrite (span_whole _ _ Hd).
  destruct ip; [congruence|reflexivity].
Qed.

(** [float] of a literal with a decimal point. *)
Lemma py_float_frac ip fp :
  forallb (isdecimal u) ip = true -> ip <> [] ->
  forallb (isdecimal u) fp = true ->
  py_float u (ip ++ 46%N :: fp) = Some (to_double (decimal u ip fp)).
Proof.
  intros Hi Hne Hf. unfold py_float.
  rewrite (span_app (isdecimal u) ip (46%N :: fp) Hi)
    by (cbn; by rewrite dot_not_decimal).
  destruct ip as [|c ip]; [congruence|].
  cbn [N.eqb Pos.eqb]. rewrite (span_whole _ _ Hf). reflexivity.
Qed.

Lemma whole_part_digits g :
  is_whole_part u g = true ->
  forallb (isdecimal u) (remove_char 44 g) = true
  /\ remove_char 44 g <> [].
Proof.
  unfold is_whole_part. intros H. apply andb_true_iff in H as [Hall Hd].
  split.
  - clear Hd. induction g as [|c g IH]; simpl in *; [reflexivity|].
    apply andb_true_iff in Hall as [Hc Hg].
    destruct (c =? 44)%N eqn:E; [auto|].
    rewrite orb_false_r in Hc. simpl. now rewrite Hc, IH.
  - destruct g as [|d g]; [discriminate|]. simpl.
    destruct (d =? 44)%N eqn:E; [|discriminate].
    apply N.eqb_eq in E. subst d. by rewrite comma_not_decimal in Hd.
Qed.

Lemma whole_part_group g : is_whole_part u g = true -> is_group u g = true.
Proof.
  unfold is_whole_part, is_group. intros H.
  apply andb_true_iff in H as [Hall Hd]. rewrite Hd, andb_true_r.
  revert Hall. apply forallb_weaken. intros c Hc. unfold is_price_char.
  apply orb_true_iff in Hc as [->| ->]; [reflexivity|].
  now rewrite orb_true_r.
Qed.

Lemma digits_no_comma fp :
  forallb (isdecimal u) fp = true -> remove_char 44 fp = fp.
Proof.
  intros H. apply remove_char_absent. revert H. apply forallb_weaken.
  intros c Hc. destruct (c =? 44)%N eqn:E; [|reflexivity].
  apply N.eqb_eq in E. subst c. by rewrite comma_not_decimal in Hc.
Qed.

Lemma whole_frac_group g fp :
  is_whole_part u g = true -> forallb (isdecimal u) fp = true ->
  is_group u (g ++ 46%N :: fp) = true.
Proof.
  intros Hg Hf. pose proof (whole_part_group _ Hg) as G.
  unfold is_group in *. apply andb_true_iff in G as [Hall Hd].
  apply andb_true_iff. split.
  - rewrite forallb_app, Hall. cbn [forallb andb].
    replace (is_price_char u 46) with true
      by (unfold is_price_char; by rewrite orb_true_r).
    cbn [andb]. revert Hf. apply forallb_weaken. intros c Hc.
    unfold is_price_char. now rewrite Hc.
  - destruct g; [discriminate|exact Hd].
Qed.

(** The text around a group does not matter: the result is [float] of the
    group with its commas removed. *)
Lemma extract_price_group pre g suf :
  existsb (isdecimal u) pre = false -> is_group u g = true ->
  stops_at (is_price_char u) suf = true ->
  extract_price u (pre ++ g ++ suf) = py_float u (remove_char 44 g).
Proof.
  intros Hpre Hg Hsuf. unfold extract_price.
  rewrite re_search_spec, (first_number_found _ _ _ Hpre Hg Hsuf).
  apply andb_true_iff in Hg as [_ Hd].
  destruct g as [|d g]; [discriminate|]. by destruct pre.
Qed.

Lemma extract_price_no_digit text :
  existsb (isdecimal u) text = false -> extract_price u text = None.
Proof.
  intros H. unfold extract_price. destruct text; [reflexivity|].
  now rewrite re_search_spec, (first_number_none _ H).
Qed.

Lemma extract_price_whole pre g suf :
  existsb (isdecimal u) pre = false -> is_whole_part u g = true ->
  stops_at (is_price_char u) suf = true ->
  extract_price u (pre ++ g ++ suf)
  = Some (to_double (decimal u (remove_char 44 g) [])).
Proof.
  intros Hpre Hg Hsuf.
  rewrite (extract_price_group _ _ _ Hpre (whole_part_group _ Hg) Hsuf).
  destruct (whole_part_digits _ Hg) as [Hd Hne].
  now apply py_float_int.
Qed.

Lemma extract_price_fraction pre g fp suf :
  existsb (isdecimal u) pre = false -> is_whole_part u g = true ->
  forallb (isdecimal u) fp = true ->
  stops_at (is_price_char u) suf = true ->
  extract_price u (pre ++ (g ++ 46%N :: fp) ++ suf)
  = Some (to_double (decimal u (remove_char 44 g) fp)).
Proof.
  intros Hpre Hg Hf Hsuf.
  rewrite (extract_price_group _ _ _ Hpre (whole_frac_group _ _ Hg Hf) Hsuf).
  destruct (whole_part_digits _ Hg) as [Hd Hne].
  rewrite remove_char_app. cbn [remove_char N.eqb Pos.eqb].
  rewrite (digits_no_comma _ Hf).
  now apply py_float_frac.
Qed.

End Standard.
End PriceFacts.

(** *** [extract_price] *)

Module ExtractPrice.
Import PyOrder Unicode UnicodeFacts PyFloat Price PriceFacts.

(** C9.  A text is the sequence of its code points, and the decimal
    digits and the whitespace are those of the interpreter's Unicode
    database, of which only what [standard] says is used.
    [extract_price] drops whatever precedes the first decimal digit (a
    currency symbol or code, blanks), removes the thousands separators
    and reads the digits as a decimal number, which [float] rounds to a
    double; a text without any decimal digit gives [None], never zero.
    ["USD 842.50"] is read as 842.5 and the empty text as [None]. *)
Theorem extract_price_spec (u : classes) :
  standard u ->
  (forall text,
     existsb (isdecimal u) text = false -> extract_price u text = None)
  /\ (forall pre g suf,
        existsb (isdecimal u) pre = false -> is_whole_part u g = true ->
        stops_at (is_price_char u) suf = true ->
        extract_price u (pre ++ g ++ suf)
        = Some (to_double (decimal u (remove_char 44 g) [])))
  /\ (forall pre g fp suf,
        existsb (isdecimal u) pre = false -> is_whole_part u g = true ->
        forallb (isdecimal u) fp = true ->
        stops_at (is_price_char u) suf = true ->
        extract_price u (pre ++ (g ++ 46%N :: fp) ++ suf)
        = Some (to_double (decimal u (remove_char 44 g) fp)))
  /\ extract_price u (of_ascii "USD 842.50") = Some (Fin (1685 # 2))
  /\ extract_price u [] = None.
Proof.
  intros Hu.
  split; [exact (extract_price_no_digit u Hu)|].
  split; [exact (extract_price_whole u Hu)|].
  split; [exact (extract_price_fraction u Hu)|].
  split; [|reflexivity].
  change (of_ascii "USD 842.50")
    with ([85; 83; 68; 32] ++ ([56; 52; 50] ++ 46 :: [53; 48]) ++ [])%N.
  rewrite (extract_price_fraction u Hu).
  - unfold decimal, int_of_digits. cbn.
    rewrite !(ascii_todecimal u Hu) by lia. reflexivity.
  - cbn. by rewrite !(ascii_isdecimal u Hu) by lia.
  - unfold is_whole_part. cbn. by rewrite !(ascii_isdecimal u Hu) by lia.
  - cbn. by rewrite !(ascii_isdecimal u Hu) by lia.
  - reflexivity.
Qed.

Lemma extract_price_spec_witness :
  extract_price unicode_14 (of_ascii "price on request") = None
  /\ extract_price unicode_14 (8364%N :: of_ascii " 1,250 per night")
     = Some (Fin 1250)
  /\ extract_price unicode_14 (of_ascii "from $1,234.56 (taxes incl.)")
     = Some (to_double (123456 # 100))
  /\ extract_price unicode_14 ([1635; 1636]%N ++ of_ascii " USD")
     = Some (Fin 34).
Proof.
  destruct (extract_price_spec unicode_14 unicode_14_standard)
    as (H1 & H2 & H3 & _).
  split; [apply (H1 (of_ascii "price on request")); reflexivity|].
  split; [|split].
  - apply (H2 (8364%N :: of_ascii " ") (of_ascii "1,250")
              (of_ascii " per night")); reflexivity.
  - apply (H3 (of_ascii "from $") (of_ascii "1,234") (of_ascii "56")
              (of_ascii " (taxes incl.)")); reflexivity.
  - apply (H2 [] [1635; 1636]%N (of_ascii " USD")); reflexivity.
Defined.

End ExtractPrice.

(** *** First-seen filtering *)

Module DedupeFacts.
Import PyStr Dedupe.

Section FirstSeenFacts.
Context {A : Type} (key : A -> string).

Lemma first_seen_fresh l : forall seen x,
  x ∈ first_seen key seen l ->
  x ∈ l /\ key x <> EmptyString /\ key x ∉ seen.
Proof.
  induction l as [|y l IH]; intros seen x Hx; simpl in Hx.
  - inversion Hx.
  - destruct (String.eqb (key y) EmptyString) eqn:E.
    { destruct (IH _ _ Hx) as (? & ? & ?). split; [by right|done]. }
    apply String.eqb_neq in E.
    destruct (decide (key y ∈ seen)) as [Hin|Hout].
    { destruct (IH _ _ Hx) as (? & ? & ?). split; [by right|done]. }
    apply elem_of_cons in Hx as [->|Hx].
    + split; [by left|done].
    + destruct (IH _ _ Hx) as (? & ? & ?).
      split; [by right|]. split; [done|set_solver].
Qed.

Lemma first_seen_nodup l : forall seen,
  NoDup (map key (first_seen key seen l)).
Proof.
  induction l as [|y l IH]; intros seen; simpl; [constructor|].
  destruct (String.eqb (key y) EmptyString); [apply IH|].
  destruct (decide (key y ∈ seen)); [apply IH|].
  simpl. constructor; [|apply IH].
  intros Hin. apply list_elem_of_In, in_map_iff in Hin as (x & Hk & Hx).
  apply list_elem_of_In, first_seen_fresh in Hx as (_ & _ & Hx).
  rewrite Hk in Hx. set_solver.
Qed.

(** A list without empty, seen or repeated keys passes unchanged. *)
Lemma first_seen_fixed l : forall seen,
  (forall x, x ∈ l -> key x <> EmptyString /\ key x ∉ seen) ->
  NoDup (map key l) ->
  first_seen key seen l = l.
Proof.
  induction l as [|y l IH]; intros seen Hl Hnd; simpl; [done|].
  destruct (Hl y) as [Hne Hout]; [by left|].
  apply String.eqb_neq in Hne. rewrite Hne.
  destruct (decide (key y ∈ seen)); [done|].
  apply NoDup_cons in Hnd as [Hy Hnd]. f_equal. apply IH; [|done].
  intros x Hx. destruct (Hl x) as [? ?]; [by right|].
  split; [done|]. intros Hin.
  apply elem_of_union in Hin as [Hin|Hin]; [|done].
  apply elem_of_singleton in Hin. apply Hy. rewrite <- Hin.
  apply list_elem_of_In, in_map, list_elem_of_In, Hx.
Qed.

Lemma first_seen_idempotent seen l :
  first_seen key seen (first_seen key seen l) = first_seen key seen l.
Proof.
  apply first_seen_fixed; [|apply first_seen_nodup].
  intros x Hx. by apply first_seen_fresh in Hx as (_ & ? & ?).
Qed.

(** The filter over a concatenation: the second part is filtered with
    the keys kept from the first part added to the seen ones. *)
Lemma first_seen_app l1 : forall seen l2,
  first_seen key seen (l1 ++ l2)
  = first_seen key seen l1
    ++ first_seen key (keys key (first_seen key seen l1) ∪ seen) l2.
Proof.
  unfold keys.
  induction l1 as [|y l1 IH]; intros seen l2; simpl.
  - f_equal. set_solver.
  - destruct (String.eqb (key y) EmptyString); [apply IH|].
    destruct (decide (key y ∈ seen)); [apply IH|].
    simpl. f_equal. rewrite IH. do 2 f_equal. set_solver.
Qed.

(** First seen wins: the last record of a list is kept exactly when it
    has a key, the key was not seen before the list, and no kept record
    of the list has it. *)
Lemma first_seen_snoc seen l x :
  first_seen key seen (l ++ [x])
  = first_seen key seen l
    ++ (if String.eqb (key x) EmptyString then []
        else if decide (key x ∈ keys key (first_seen key seen l) ∪ seen)
             then [] else [x]).
Proof.
  rewrite first_seen_app. reflexivity.
Qed.

(** A key that an earlier record of the list has is a key of a kept
    record or a seen one. *)
Lemma first_seen_covers l : forall seen x,
  x ∈ l -> key x <> EmptyString ->
  key x ∈ keys key (first_seen key seen l) ∪ seen.
Proof.
  unfold keys.
  induction l as [|y l IH]; intros seen x Hx Hne; [inversion Hx|].
  simpl. apply elem_of_cons in Hx as [->|Hx].
  - apply String.eqb_neq in Hne. rewrite Hne.
    destruct (decide (key y ∈ seen)); [set_solver|].
    simpl. set_solver.
  - destruct (String.eqb (key y) EmptyString); [by apply IH|].
    destruct (decide (key y ∈ seen)); [by apply IH|].
    specialize (IH ({[key y]} ∪ seen) x Hx Hne). simpl. set_solver.
Qed.
End FirstSeenFacts.

Lemma lower_empty s : lower s = EmptyString <-> s = EmptyString.
Proof. destruct s; simpl; split; congruence. Qed.

(** The loop of [search_activities] computes [first_seen]. *)
Lemma unique_loop l : forall seen acc,
  fold_left unique_step l (seen, acc)
  = (keys activity_key (first_seen activity_key seen l) ∪ seen,
     acc ++ first_seen activity_key seen l).
Proof.
  unfold keys.
  induction l as [|a l IH]; intros seen acc; simpl.
  - f_equal; [set_solver|by rewrite app_nil_r].
  - destruct (String.eqb (activity_key a) EmptyString) eqn:E; simpl.
    { apply IH. }
    destruct (decide (activity_key a ∈ seen)) as [Hin|Hout].
    + rewrite bool_decide_eq_false_2 by (intros ?; done). apply IH.
    + rewrite bool_decide_eq_true_2 by done. rewrite IH. simpl.
      f_equal; [set_solver|by rewrite <- app_assoc].
Qed.

Lemma dedupe_activities_first_seen l :
  dedupe_activities l = first_seen activity_key ∅ l.
Proof. unfold dedupe_activities. by rewrite unique_loop. Qed.

Lemma hotel_key_named h name :
  h_name h = Some name -> String.eqb name EmptyString = false ->
  hotel_key h = lower name /\ String.eqb (hotel_key h) EmptyString = false.
Proof.
  intros Hn Hne. unfold hotel_key. rewrite Hn. simpl. split; [done|].
  apply String.eqb_neq. apply String.eqb_neq in Hne.
  intros E. apply Hne. by apply lower_empty.
Qed.

Lemma standardize_from_app a : forall i b,
  standardize_from i (a ++ b)
  = standardize_from i a ++ standardize_from (i + length a) b.
Proof.
  induction a as [|h a IH]; intros i b; simpl.
  - by rewrite Nat.add_0_r.
  - rewrite IH. do 3 f_equal. lia.
Qed.

Lemma standardize_from_length a : forall i,
  length (standardize_from i a) = length a.
Proof. induction a; intros; simpl; auto. Qed.

Lemma keys_app {A} (key : A -> string) a b :
  keys key (a ++ b) = keys key a ∪ keys key b.
Proof. unfold keys. rewrite map_app. set_solver. Qed.

(** The inner loop appends the first-seen hotels of the page until
    [max_results] is reached. *)
Lemma scan_hotels_spec max_results hotels : forall all_hotels seen,
  enough max_results all_hotels = false ->
  scan_hotels max_results hotels (all_hotels, seen)
  = let kept :=
      take (Z.to_nat max_results - length all_hotels)
           (first_seen hotel_key seen hotels) in
    (all_hotels ++ standardize_from (length all_hotels) kept,
     keys hotel_key kept ∪ seen).
Proof.
  unfold enough, keys.
  induction hotels as [|h rest IH]; intros all_hotels seen Hroom.
  - simpl. rewrite take_nil, app_nil_r. simpl. f_equal. set_solver.
  - apply Z.leb_gt in Hroom. cbn [scan_hotels first_seen].
    destruct (h_name h) as [name|] eqn:Hname.
    2:{ assert (Hk : hotel_key h = EmptyString)
          by (unfold hotel_key; by rewrite Hname).
        rewrite Hk. cbn [String.eqb]. apply IH. by apply Z.leb_gt. }
    destruct (String.eqb name EmptyString) eqn:Hempty.
    { apply String.eqb_eq in Hempty. subst name.
      assert (Hk : hotel_key h = EmptyString)
        by (unfold hotel_key; by rewrite Hname).
      rewrite Hk. cbn [String.eqb]. apply IH. by apply Z.leb_gt. }
    destruct (hotel_key_named _ _ Hname Hempty) as [Hkey Hkne].
    rewrite Hkne, Hkey.
    destruct (decide (lower name ∈ seen)); [apply IH; by apply Z.leb_gt|].
    destruct (Z.to_nat max_results - length all_hotels) as [|k] eqn:Hk;
      [lia|].
    cbn [take standardize_from map]. rewrite Hname. simpl default.
    destruct (enough max_results _) eqn:Hfull; unfold enough in Hfull.
    + apply Z.leb_le in Hfull. rewrite length_app in Hfull. simpl in Hfull.
      replace k with 0 by lia. rewrite take_0. simpl.
      f_equal. rewrite Hkey. set_solver.
    + rewrite IH by done. apply Z.leb_gt in Hfull.
      rewrite length_app in *. simpl length in *.
      replace (Z.to_nat max_results - (length all_hotels + 1)) with k by lia.
      replace (length all_hotels + 1) with (S (length all_hotels)) by lia.
      simpl. rewrite <- app_assoc. simpl. f_equal. rewrite Hkey. set_solver.
Qed.

Lemma scan_pages_spec max_results pages : forall all_hotels seen,
  enough max_results all_hotels = false ->
  scan_pages max_results pages (all_hotels, seen)
  = let kept :=
      take (Z.to_nat max_results - length all_hotels)
           (first_seen hotel_key seen (all_page_hotels pages)) in
    (all_hotels ++ standardize_from (length all_hotels) kept,
     keys hotel_key kept ∪ seen).
Proof.
  induction pages as [|p rest IH]; intros all_hotels seen Hroom.
  - simpl. rewrite take_nil, app_nil_r. unfold keys. simpl.
    f_equal. set_solver.
  - destruct p as [|hotels]; [apply IH; done|].
    cbn [scan_pages]. rewrite scan_hotels_spec by done.
    unfold all_page_hotels in *. cbn [map concat page_hotels].
    rewrite first_seen_app. cbn zeta. cbn [fst].
    set (u1 := first_seen hotel_key seen hotels).
    set (k := Z.to_nat max_results - length all_hotels).
    unfold enough in Hroom. apply Z.leb_gt in Hroom.
    destruct (decide (k <= length u1)) as [Hfull|Hmore].
    + assert (E : enough max_results
                (all_hotels ++ standardize_from (length all_hotels)
                   (take k u1)) = true).
      { unfold enough. apply Z.leb_le.
        rewrite length_app, standardize_from_length, length_take. lia. }
      rewrite E. by rewrite take_app_le.
    + assert (Hk : take k u1 = u1) by (apply take_ge; lia).
      assert (E : enough max_results
                (all_hotels ++ standardize_from (length all_hotels) u1)
              = false).
      { unfold enough. apply Z.leb_gt.
        rewrite length_app, standardize_from_length. lia. }
      rewrite Hk, E, IH by done. cbn zeta.
      rewrite length_app, standardize_from_length.
      replace (Z.to_nat max_results - (length all_hotels + length u1))
        with (k - length u1) by lia.
      rewrite take_app_ge by lia.
      rewrite standardize_from_app, keys_app, <- app_assoc.
      f_equal. set_solver.
Qed.

(** [search_hotels] is the duplicate removal over the hotels of all
    pages, cut at [max_results] and standardized. *)
Lemma search_hotels_dedupe pages max_results :
  (1 <= max_results)%Z ->
  search_hotels pages max_results
  = standardize_from 0
      (take (Z.to_nat max_results) (dedupe_hotels (all_page_hotels pages))).
Proof.
  intros Hmax. unfold search_hotels, dedupe_hotels.
  destruct pages as [|p rest];
    [cbn [all_page_hotels map concat first_seen]; by rewrite take_nil|].
  rewrite scan_pages_spec by (unfold enough; apply Z.leb_gt; simpl; lia).
  simpl. by rewrite Nat.sub_0_r.
Qed.

(** Among non-empty keys, the kept records have the keys of the list. *)
Lemma first_seen_keys {A} (key : A -> string) l k :
  k <> EmptyString ->
  k ∈ keys key (first_seen key ∅ l) <-> k ∈ keys key l.
Proof.
  intros Hk. unfold keys. rewrite !elem_of_list_to_set. split.
  - intros Hin. apply list_elem_of_In, in_map_iff in Hin as (x & <- & Hx).
    apply list_elem_of_In, first_seen_fresh in Hx as (Hx & _).
    apply list_elem_of_In, in_map, list_elem_of_In. exact Hx.
  - intros Hin. apply list_elem_of_In, in_map_iff in Hin as (x & <- & Hx).
    apply list_elem_of_In in Hx.
    pose proof (first_seen_covers key l ∅ x Hx Hk) as H.
    unfold keys in H. set_solver.
Qed.

(** First seen wins: the last hotel of a list survives exactly when it
    has a name and no earlier hotel has the same lowercased name. *)
Lemma dedupe_hotels_snoc l h :
  dedupe_hotels (l ++ [h])
  = dedupe_hotels l
    ++ (if String.eqb (hotel_key h) EmptyString then []
        else if decide (hotel_key h ∈ keys hotel_key l) then [] else [h]).
Proof.
  unfold dedupe_hotels. rewrite first_seen_snoc.
  destruct (String.eqb (hotel_key h) EmptyString) eqn:E; [done|].
  apply String.eqb_neq in E. f_equal.
  pose proof (first_seen_keys hotel_key l _ E) as Hiff.
  destruct (decide (hotel_key h ∈ keys hotel_key l)) as [Hin|Hout];
    destruct (decide _) as [Hin'|Hout']; try done.
  - exfalso. apply Hout'. apply Hiff in Hin. set_solver.
  - exfalso. apply Hout. apply Hiff. set_solver.
Qed.

End DedupeFacts.

(** *** [search_hotels] for any [str.lower] *)

Module HotelSearchFacts.
Import PyStr Dedupe DedupeFacts.

Section Lower.
Context (str_lower : string -> string) (Hlow : HotelSearch.lowers str_lower).

Local Abbreviation hotel_key := (HotelSearch.hotel_key str_lower).

Lemma generic_key_named h name :
  h_name h = Some name -> String.eqb name EmptyString = false ->
  hotel_key h = str_lower name
  /\ String.eqb (hotel_key h) EmptyString = false.
Proof.
  intros Hn Hne. unfold HotelSearch.hotel_key. rewrite Hn. split; [done|].
  apply String.eqb_neq. apply String.eqb_neq in Hne.
  intros E. apply Hne. by apply (HotelSearch.lower_not_empty _ Hlow).
Qed.

Lemma generic_key_unnamed h :
  h_name h = None \/ h_name h = Some EmptyString ->
  String.eqb (hotel_key h) EmptyString = true.
Proof.
  unfold HotelSearch.hotel_key. intros [-> | ->]; [done|].
  by rewrite (HotelSearch.lower_of_ascii _ Hlow).
Qed.

(** The inner loop appends the first-seen hotels of the page until
    [max_results] is reached. *)
Lemma generic_scan_hotels max_results hotels : forall all_hotels seen,
  enough max_results all_hotels = false ->
  HotelSearch.scan_hotels str_lower max_results hotels (all_hotels, seen)
  = let kept :=
      take (Z.to_nat max_results - length all_hotels)
           (first_seen hotel_key seen hotels) in
    (all_hotels ++ standardize_from (length all_hotels) kept,
     keys hotel_key kept ∪ seen).
Proof.
  unfold enough, keys.
  induction hotels as [|h rest IH]; intros all_hotels seen Hroom.
  - simpl. rewrite take_nil, app_nil_r. simpl. f_equal. set_solver.
  - apply Z.leb_gt in Hroom. cbn [HotelSearch.scan_hotels first_seen].
    destruct (h_name h) as [name|] eqn:Hname.
    2:{ rewrite (generic_key_unnamed h) by auto.
        apply IH. by apply Z.leb_gt. }
    destruct (String.eqb name EmptyString) eqn:Hempty.
    { apply String.eqb_eq in Hempty. subst name.
      rewrite (generic_key_unnamed h) by auto.
      apply IH. by apply Z.leb_gt. }
    destruct (generic_key_named _ _ Hname Hempty) as [Hkey Hkne].
    rewrite Hkne, Hkey.
    destruct (decide (str_lower name ∈ seen));
      [apply IH; by apply Z.leb_gt|].
    destruct (Z.to_nat max_results - length all_hotels) as [|k] eqn:Hk;
      [lia|].
    cbn [take standardize_from map]. rewrite Hname. simpl default.
    destruct (enough max_results _) eqn:Hfull; unfold enough in Hfull.
    + apply Z.leb_le in Hfull. rewrite length_app in Hfull. simpl in Hfull.
      replace k with 0 by lia. rewrite take_0. simpl.
      f_equal. rewrite Hkey. set_solver.
    + rewrite IH by done. apply Z.leb_gt in Hfull.
      rewrite length_app in *. simpl length in *.
      replace (Z.to_nat max_results - (length all_hotels + 1)) with k by lia.
      replace (length all_hotels + 1) with (S (length all_hotels)) by lia.
      simpl. rewrite <- app_assoc. simpl. f_equal. rewrite Hkey. set_solver.
Qed.

Lemma generic_scan_pages max_results pages : forall all_hotels seen,
  enough max_results all_hotels = false ->
  HotelSearch.scan_pages str_lower max_results pages (all_hotels, seen)
  = let kept :=
      take (Z.to_nat max_results - length all_hotels)
           (first_seen hotel_key seen (all_page_hotels pages)) in
    (all_hotels ++ standardize_from (length all_hotels) kept,
     keys hotel_key kept ∪ seen).
Proof.
  induction pages as [|p rest IH]; intros all_hotels seen Hroom.
  - simpl. rewrite take_nil, app_nil_r. unfold keys. simpl.
    f_equal. set_solver.
  - destruct p as [|hotels]; [apply IH; done|].
    cbn [HotelSearch.scan_pages]. rewrite generic_scan_hotels by done.
    unfold all_page_hotels in *. cbn [map concat page_hotels].
    rewrite first_seen_app. cbn zeta. cbn [fst].
    set (u1 := first_seen hotel_key seen hotels).
    set (k := Z.to_nat max_results - length all_hotels).
    unfold enough in Hroom. apply Z.leb_gt in Hroom.
    destruct (decide (k <= length u1)) as [Hfull|Hmore].
    + assert (E : enough max_results
                (all_hotels ++ standardize_from (length all_hotels)
                   (take k u1)) = true).
      { unfold enough. apply Z.leb_le.
        rewrite length_app, standardize_from_length, length_take. lia. }
      rewrite E. by rewrite take_app_le.
    + assert (Hk : take k u1 = u1) by (apply take_ge; lia).
      assert (E : enough max_results
                (all_hotels ++ standardize_from (length all_hotels) u1)
              = false).
      { unfold enough. apply Z.leb_gt.
        rewrite length_app, standardize_from_length. lia. }
      rewrite Hk, E, IH by done. cbn zeta.
      rewrite length_app, standardize_from_length.
      replace (Z.to_nat max_results - (length all_hotels + length u1))
        with (k - length u1) by lia.
      rewrite take_app_ge by lia.
      rewrite standardize_from_app, keys_app, <- app_assoc.
      f_equal. set_solver.
Qed.

(** [search_hotels] is the duplicate removal over the hotels of all
    pages, cut at [max_results] and standardized. *)
Lemma generic_search_hotels pages max_results :
  (1 <= max_results)%Z ->
  HotelSearch.search_hotels str_lower pages max_results
  = standardize_from 0
      (take (Z.to_nat max_results)
         (HotelSearch.dedupe_hotels str_lower (all_page_hotels pages))).
Proof.
  intros Hmax. unfold HotelSearch.search_hotels, HotelSearch.dedupe_hotels.
  destruct pages as [|p rest];
    [cbn [all_page_hotels map concat first_seen]; by rewrite take_nil|].
  rewrite generic_scan_pages by (unfold enough; apply Z.leb_gt; simpl; lia).
  simpl. by rewrite Nat.sub_0_r.
Qed.

(** First seen wins: the last hotel of a list survives exactly when it
    has a name and no earlier hotel has the same lowered name. *)
Lemma generic_dedupe_snoc l h :
  HotelSearch.dedupe_hotels str_lower (l ++ [h])
  = HotelSearch.dedupe_hotels str_lower l
    ++ (if String.eqb (hotel_key h) EmptyString then []
        else if decide (hotel_key h ∈ keys hotel_key l) then [] else [h]).
Proof.
  unfold HotelSearch.dedupe_hotels. rewrite first_seen_snoc.
  destruct (String.eqb (hotel_key h) EmptyString) eqn:E; [done|].
  apply String.eqb_neq in E. f_equal.
  pose proof (first_seen_keys hotel_key l _ E) as Hiff.
  destruct (decide (hotel_key h ∈ keys hotel_key l)) as [Hin|Hout];
    destruct (decide _) as [Hin'|Hout']; try done.
  - exfalso. apply Hout'. apply Hiff in Hin. set_solver.
  - exfalso. apply Hout. apply Hiff. set_solver.
Qed.

(** On names in ASCII the loops are those of [Dedupe], whose [lower]
    folds [A] to [Z]. *)
Lemma scan_hotels_ascii max_results hotels : forall st,
  forallb HotelSearch.ascii_name hotels = true ->
  HotelSearch.scan_hotels str_lower max_results hotels st
  = scan_hotels max_results hotels st.
Proof.
  induction hotels as [|h rest IH]; intros [all_hotels processed] Ha;
    [done|].
  cbn [forallb] in Ha. apply andb_prop in Ha as [Hh Hrest].
  cbn [HotelSearch.scan_hotels scan_hotels].
  unfold HotelSearch.ascii_name in Hh.
  destruct (h_name h) as [name|]; [|by apply IH].
  rewrite (HotelSearch.lower_of_ascii _ Hlow name Hh).
  rewrite !IH by done. done.
Qed.

Lemma scan_pages_ascii max_results pages : forall st,
  HotelSearch.ascii_names pages = true ->
  HotelSearch.scan_pages str_lower max_results pages st
  = scan_pages max_results pages st.
Proof.
  unfold HotelSearch.ascii_names.
  induction pages as [|p rest IH]; intros st Ha; [done|].
  cbn [forallb] in Ha. apply andb_prop in Ha as [Hp Hrest].
  destruct p as [|hotels]; cbn [HotelSearch.scan_pages scan_pages];
    [by apply IH|].
  cbn [page_hotels] in Hp. rewrite scan_hotels_ascii by done.
  by rewrite IH.
Qed.

Lemma search_hotels_ascii pages max_results :
  HotelSearch.ascii_names pages = true ->
  HotelSearch.search_hotels str_lower pages max_results
  = search_hotels pages max_results.
Proof.
  intros Ha. unfold HotelSearch.search_hotels, search_hotels.
  destruct pages; [done|]. by rewrite scan_pages_ascii.
Qed.
End Lower.

Lemma lower_bytes_ascii s :
  HotelSearch.is_ascii s = true -> HotelSearch.lower_bytes false s = lower s.
Proof.
  induction s as [|c r IH]; [done|].
  cbn [HotelSearch.is_ascii HotelSearch.lower_bytes lower andb].
  intros H. apply andb_prop in H as [Hc Hr]. apply Nat.ltb_lt in Hc.
  replace (nat_of_ascii c =? 195) with false
    by (symmetry; apply Nat.eqb_neq; lia).
  by rewrite IH.
Qed.

Lemma lower_latin1_lowers : HotelSearch.lowers HotelSearch.lower_latin1.
Proof.
  split.
  - intros [|c r]; [done|]. unfold HotelSearch.lower_latin1.
    cbn [HotelSearch.lower_bytes andb]. discriminate.
  - apply lower_bytes_ascii.
Qed.

End HotelSearchFacts.

(** *** Deduplication: what is and what is not a duplicate *)

Module DedupeClaims.
Import PyStr Dedupe DedupeFacts HotelSearchFacts.

(** Counterexample to C6 as worded: the two spellings have the same
    trimmed, blank-collapsed, case-folded name, and yet both hotels come
    out of [search_hotels].  The names are in ASCII, where [str.lower]
    folds [A] to [Z] and nothing else. *)
Lemma spaced_variant_survives :
  spec_normalized_name "Hotel De Ville"
  = spec_normalized_name "hotel   de ville"
  /\ map s_name
       (search_hotels
          [Extracted [hotel_named "Hotel De Ville" "Paris 4e"];
           Extracted [hotel_named "hotel   de ville" "Paris"]] 5)
     = ["Hotel De Ville"; "hotel   de ville"].
Proof. split; vm_compute; reflexivity. Qed.

(** C6, amended.  For the [str.lower] of the interpreter, of which
    [lowers] says what is used, [search_hotels] keys a hotel by its
    lowered name and by nothing else: for [max_results >= 1] its result
    is the standardized first [max_results] hotels of the first-seen
    filter over the pages in order; in that filter a hotel is kept
    exactly when it has a name and no earlier hotel has the same lowered
    name.  On names in ASCII the function is [Dedupe.search_hotels].  Two
    hotels whose names differ in case only collapse to the earlier one;
    names that differ in blanks stay apart. *)
Theorem search_hotels_first_seen (str_lower : string -> string) :
  HotelSearch.lowers str_lower ->
  (forall pages max_results,
     (1 <= max_results)%Z ->
     HotelSearch.search_hotels str_lower pages max_results
     = standardize_from 0
         (take (Z.to_nat max_results)
            (HotelSearch.dedupe_hotels str_lower (all_page_hotels pages))))
  /\ (forall l h,
        let key := HotelSearch.hotel_key str_lower in
        HotelSearch.dedupe_hotels str_lower (l ++ [h])
        = HotelSearch.dedupe_hotels str_lower l
          ++ (if String.eqb (key h) EmptyString then []
              else if decide (key h ∈ keys key l) then []
              else [h]))
  /\ (forall h,
        HotelSearch.hotel_key str_lower h
        = match h_name h with
          | Some name => str_lower name
          | None => EmptyString
          end)
  /\ (forall pages max_results,
        HotelSearch.ascii_names pages = true ->
        HotelSearch.search_hotels str_lower pages max_results
        = search_hotels pages max_results)
  /\ map s_address
       (HotelSearch.search_hotels str_lower
          [Extracted [hotel_named "Hotel De Ville" "Paris 4e"];
           Extracted [hotel_named "HOTEL DE VILLE" "Paris"]] 5)
     = ["Paris 4e"]
  /\ length
       (HotelSearch.search_hotels str_lower
          [Extracted [hotel_named "Hotel De Ville" "Paris 4e"];
           Extracted [hotel_named "hotel   de ville" "Paris"]] 5)
     = 2.
Proof.
  intros Hlow.
  split; [exact (generic_search_hotels str_lower Hlow)|].
  split; [exact (generic_dedupe_snoc str_lower Hlow)|].
  split; [reflexivity|].
  split; [exact (search_hotels_ascii str_lower Hlow)|].
  split; rewrite (search_hotels_ascii str_lower Hlow) by reflexivity;
    vm_compute; reflexivity.
Qed.

Lemma search_hotels_first_seen_witness :
  map s_name
    (HotelSearch.search_hotels HotelSearch.lower_latin1
       [Extracted [hotel_named "Hôtel Ritz" "Paris";
                   hotel_named "HÔTEL RITZ" "Paris 1er"];
        NoContent;
        Extracted [hotel_named "Lutetia" "Paris 6e";
                   hotel_named "hôtel ritz" "Paris"]] 3)
  = ["Hôtel Ritz"; "Lutetia"].
Proof.
  rewrite (proj1 (search_hotels_first_seen HotelSearch.lower_latin1
                    lower_latin1_lowers)) by lia.
  vm_compute. reflexivity.
Defined.

(** C7.  The duplicate removal is idempotent, for the activities
    ([search_activities]) and for the hotels ([search_hotels]): a second
    pass over its own output drops nothing and reorders nothing. *)
Theorem dedupe_idempotent :
  (forall x : list activity,
     dedupe_activities (dedupe_activities x) = dedupe_activities x)
  /\ (forall x : list raw_hotel,
        dedupe_hotels (dedupe_hotels x) = dedupe_hotels x).
Proof.
  split; intros x.
  - rewrite !dedupe_activities_first_seen. apply first_seen_idempotent.
  - apply first_seen_idempotent.
Qed.

End DedupeClaims.

(** *** The stable sort *)

Module PyOrderFacts.
Import PyOrder.

Section SortedFacts.
Context {A K : Type} (ltb eqb : K -> K -> bool) (key : A -> K).
Context (W : weak_order ltb eqb).

Local Abbreviation insert_by := (insert_by ltb key).
Local Abbreviation py_sorted := (py_sorted ltb key).
Local Abbreviation key_le := (key_le ltb key).
Local Abbreviation same_rank := (same_rank ltb key).

Lemma ltb_irrefl k : ltb k k = false.
Proof.
  destruct (ltb k k) eqn:E; [|done]. by rewrite (wo_asym _ _ W _ _ E) in E.
Qed.

#[local] Instance key_le_trans : Transitive key_le.
Proof. intros x y z Hxy Hyz. exact (wo_le_trans _ _ W _ _ _ Hxy Hyz). Qed.

Lemma insert_by_perm x l : insert_by x l ≡ₚ x :: l.
Proof.
  induction l as [|y l IH]; simpl; [done|].
  destruct (ltb (key y) (key x)); [|done].
  rewrite IH. apply Permutation_swap.
Qed.

Lemma py_sorted_perm l : py_sorted l ≡ₚ l.
Proof.
  induction l as [|x l IH]; simpl; [done|].
  by rewrite insert_by_perm, IH.
Qed.

Lemma insert_by_sorted x l : Sorted key_le l -> Sorted key_le (insert_by x l).
Proof.
  induction l as [|y l IH]; intros Hs; simpl.
  - by repeat constructor.
  - apply Sorted_inv in Hs as [Hl Hy].
    destruct (ltb (key y) (key x)) eqn:E.
    + constructor; [by apply IH|].
      destruct l as [|z l]; simpl.
      * constructor. exact (wo_asym _ _ W _ _ E).
      * apply HdRel_inv in Hy.
        destruct (ltb (key z) (key x)); constructor;
          [done | exact (wo_asym _ _ W _ _ E)].
    + constructor; [by constructor|]. by constructor.
Qed.

Lemma py_sorted_sorted l : StronglySorted key_le (py_sorted l).
Proof.
  apply Sorted_StronglySorted; [apply _|].
  induction l as [|x l IH]; simpl; [constructor|].
  by apply insert_by_sorted.
Qed.

(** Where [insert_by] puts its element: after strictly smaller keys. *)
Lemma insert_by_split x l :
  exists l1 l2, l = l1 ++ l2 /\ insert_by x l = l1 ++ x :: l2
                /\ Forall (fun y => ltb (key y) (key x) = true) l1.
Proof.
  induction l as [|y l IH]; simpl.
  - by exists [], [].
  - destruct (ltb (key y) (key x)) eqn:E.
    + destruct IH as (l1 & l2 & -> & -> & Hl1).
      exists (y :: l1), l2. split; [done|]. split; [done|]. by constructor.
    + by exists [], (y :: l).
Qed.

Lemma same_rank_ltb x y z :
  same_rank z x = true -> same_rank z y = true -> ltb (key y) (key x) = false.
Proof.
  unfold PyOrder.same_rank. rewrite !andb_true_iff, !negb_true_iff.
  intros [Hzx Hxz] [Hzy Hyz].
  exact (wo_le_trans _ _ W _ _ _ Hzx Hyz).
Qed.

(** Stability: the records of one rank come out in their input order. *)
Lemma py_sorted_stable z l :
  filter (same_rank z) (py_sorted l) = filter (same_rank z) l.
Proof.
  unfold PyOrder.py_sorted.
  induction l as [|x l IH]; [done|]. cbn [foldr].
  destruct (insert_by_split x (foldr insert_by [] l))
    as (l1 & l2 & Hl & -> & Hl1).
  rewrite filter_app, !filter_cons, <- IH, Hl, filter_app.
  destruct (decide (same_rank z x)) as [Hx|Hx]; [|done].
  replace (filter (same_rank z) l1) with (@nil A); [done|].
  symmetry. clear Hl IH. induction Hl1 as [|y l1 Hy _ IH]; [done|].
  rewrite filter_cons, <- IH.
  destruct (decide (same_rank z y)) as [Hzy|]; [|done].
  apply Is_true_true in Hx, Hzy.
  by rewrite (same_rank_ltb _ _ _ Hx Hzy) in Hy.
Qed.

Lemma strongly_sorted_lookup (R : relation A) l : forall i j a b,
  StronglySorted R l -> l !! i = Some a -> l !! j = Some b -> i < j ->
  R a b.
Proof.
  induction l as [|x l IH]; intros i j a b Hs Hi Hj Hij; [done|].
  apply StronglySorted_inv in Hs as [Hl Hx].
  destruct j as [|j]; [lia|]. simpl in Hj.
  destruct i as [|i]; simpl in Hi.
  - injection Hi as ->. rewrite Forall_forall in Hx. apply Hx.
    by eapply list_elem_of_lookup_2.
  - eapply IH; eauto. lia.
Qed.

(** A record with a strictly smaller key comes out earlier. *)
Lemma py_sorted_before l i j f g :
  py_sorted l !! i = Some f -> py_sorted l !! j = Some g ->
  ltb (key f) (key g) = true -> i < j.
Proof.
  intros Hi Hj Hlt. destruct (decide (i < j)) as [|Hge]; [done|].
  exfalso. destruct (decide (i = j)) as [->|Hne].
  - rewrite Hi in Hj. injection Hj as ->. by rewrite ltb_irrefl in Hlt.
  - assert (Hji : j < i) by lia.
    pose proof (strongly_sorted_lookup _ _ _ _ _ _
                  (py_sorted_sorted l) Hj Hi Hji) as Hle.
    unfold PyOrder.key_le in Hle. congruence.
Qed.

Lemma same_rank_refl x : same_rank x x = true.
Proof. unfold PyOrder.same_rank. by rewrite ltb_irrefl. Qed.

(** Two ascending lists with the same records of every rank, in the same
    order, are the same list. *)
Lemma sorted_stable_unique l1 : forall l2,
  StronglySorted key_le l1 -> StronglySorted key_le l2 ->
  (forall z, filter (same_rank z) l1 = filter (same_rank z) l2) ->
  l1 = l2.
Proof.
  induction l1 as [|a l1 IH]; intros l2 S1 S2 Hf.
  - destruct l2 as [|x l2]; [done|].
    specialize (Hf x). rewrite filter_nil, filter_cons in Hf.
    destruct (decide (same_rank x x)) as [|Hn]; [done|].
    by rewrite same_rank_refl in Hn.
  - destruct l2 as [|x l2].
    { specialize (Hf a). rewrite filter_nil, filter_cons in Hf.
      destruct (decide (same_rank a a)) as [|Hn]; [done|].
      by rewrite same_rank_refl in Hn. }
    apply StronglySorted_inv in S1 as [S1 Ha], S2 as [S2 Hx].
    rewrite Forall_forall in Ha, Hx.
    assert (Hax : key_le a x).
    { pose proof (Hf x) as Hfx. rewrite !filter_cons in Hfx.
      destruct (decide (same_rank x x)) as [_|Hn];
        [|by rewrite same_rank_refl in Hn].
      destruct (decide (same_rank x a)) as [Hxa|_].
      - apply Is_true_true in Hxa. unfold PyOrder.same_rank in Hxa.
        apply andb_true_iff in Hxa as [H _]. by apply negb_true_iff in H.
      - apply Ha. assert (Hin : x ∈ filter (same_rank x) l1)
          by (rewrite Hfx; left).
        by apply list_elem_of_filter in Hin as [_ ?]. }
    assert (Hxa : key_le x a).
    { pose proof (Hf a) as Hfa. rewrite !filter_cons in Hfa.
      destruct (decide (same_rank a a)) as [_|Hn];
        [|by rewrite same_rank_refl in Hn].
      destruct (decide (same_rank a x)) as [Hax'|_].
      - apply Is_true_true in Hax'. unfold PyOrder.same_rank in Hax'.
        apply andb_true_iff in Hax' as [H _]. by apply negb_true_iff in H.
      - apply Hx. assert (Hin : a ∈ filter (same_rank a) l2)
          by (rewrite <- Hfa; left).
        by apply list_elem_of_filter in Hin as [_ ?]. }
    assert (Hrank : same_rank a x = true).
    { unfold PyOrder.same_rank. unfold PyOrder.key_le in Hax, Hxa.
      by rewrite Hax, Hxa. }
    assert (a = x) as <-.
    { pose proof (Hf a) as Hfa. rewrite !filter_cons in Hfa.
      destruct (decide (same_rank a a)) as [_|Hn];
        [|by rewrite same_rank_refl in Hn].
      destruct (decide (same_rank a x)) as [_|Hn];
        [|by rewrite Hrank in Hn].
      by injection Hfa. }
    f_equal. apply IH; [done|done|].
    intros z. specialize (Hf z). rewrite !filter_cons in Hf.
    destruct (decide (same_rank z a)); [by injection Hf|done].
Qed.

(** [py_sorted] is the stable sort: whatever list ascends in the keys and
    keeps the records of every rank in their order in [l] is
    [py_sorted l]. *)
Lemma py_sorted_unique l l' :
  StronglySorted key_le l' ->
  (forall z, filter (same_rank z) l' = filter (same_rank z) l) ->
  l' = py_sorted l.
Proof.
  intros Hs Hf. apply sorted_stable_unique; [done|apply py_sorted_sorted|].
  intros z. by rewrite Hf, py_sorted_stable.
Qed.
End SortedFacts.

Lemma num_ltb_lt x y : num_ltb x y = true <-> (x < y)%Q.
Proof.
  unfold num_ltb. rewrite negb_true_iff. split.
  - intros H. apply Qnot_le_lt. intros Hle.
    apply Qle_bool_iff in Hle. congruence.
  - intros H. destruct (Qle_bool y x) eqn:E; [|done].
    apply Qle_bool_iff in E. exfalso. by apply (Qlt_not_le _ _ H).
Qed.

Lemma num_ltb_ge x y : num_ltb x y = false <-> (y <= x)%Q.
Proof.
  unfold num_ltb. rewrite negb_false_iff. apply Qle_bool_iff.
Qed.


Lemma num_weak_order : weak_order num_ltb Qeq_bool.
Proof.
  split.
  - intros a b H. apply num_ltb_lt in H. apply num_ltb_ge.
    by apply Qlt_le_weak.
  - intros a b c H1 H2. apply num_ltb_ge in H1, H2. apply num_ltb_ge.
    by eapply Qle_trans.
  - intros a b. rewrite Qeq_bool_iff, !num_ltb_ge. split.
    + intros E. split; rewrite E; apply Qle_refl.
    + intros [H1 H2]. by apply Qle_antisym.
Qed.

Lemma ext_weak_order : weak_order ext_ltb ext_eqb.
Proof.
  pose proof num_weak_order as [Ha Ht He].
  split.
  - intros [a|] [b|]; simpl; auto.
  - intros [a|] [b|] [c|]; simpl; eauto; done.
  - intros [a|] [b|]; simpl; auto; split; try done; intros []; done.
Qed.

Section Lexicographic.
Context {A B : Type} (ltA eqA : A -> A -> bool) (ltB eqB : B -> B -> bool).
Context (WA : weak_order ltA eqA) (WB : weak_order ltB eqB).

Lemma eqA_false_lt a b :
  eqA a b = false -> ltA a b = false -> ltA b a = true.
Proof.
  intros He Hl. destruct (ltA b a) eqn:E; [done|].
  assert (eqA a b = true) by (by apply (wo_eqb _ _ WA)). congruence.
Qed.

Lemma pair_weak_order :
  weak_order (pair_ltb eqA ltA ltB) (pair_eqb eqA eqB).
Proof.
  destruct WA as [Aa At Ae], WB as [Ba Bt Be].
  split; unfold pair_ltb, pair_eqb.
  - intros [a1 b1] [a2 b2]; simpl.
    destruct (eqA a1 a2) eqn:E12.
    + apply Ae in E12 as [H1 H2].
      assert (E21 : eqA a2 a1 = true) by (by apply Ae).
      rewrite E21. apply Ba.
    + intros H. destruct (eqA a2 a1) eqn:E21.
      * apply Ae in E21 as [H1 H2]. congruence.
      * by apply Aa.
  - intros [a1 b1] [a2 b2] [a3 b3]; simpl.
    destruct (eqA a2 a1) eqn:E21, (eqA a3 a2) eqn:E32.
    + apply Ae in E21 as [H21 H12]. apply Ae in E32 as [H32 H23].
      assert (E31 : eqA a3 a1 = true) by (apply Ae; split; eauto).
      rewrite E31. apply Bt.
    + apply Ae in E21 as [H21 H12]. intros _ H32.
      pose proof (eqA_false_lt _ _ E32 H32) as H23.
      destruct (eqA a3 a1) eqn:E31.
      * apply Ae in E31 as [H31 H13].
        by rewrite (At _ _ _ H13 H21) in H23.
      * destruct (ltA a3 a1) eqn:L31; [|done].
        apply Aa in L31. eauto.
    + apply Ae in E32 as [H32 H23]. intros H21 _.
      pose proof (eqA_false_lt _ _ E21 H21) as H12.
      destruct (eqA a3 a1) eqn:E31.
      * apply Ae in E31 as [H31 H13].
        by rewrite (At _ _ _ H32 H13) in H12.
      * eauto.
    + intros H21 H32.
      destruct (eqA a3 a1) eqn:E31; [|eauto].
      apply Ae in E31 as [H31 H13].
      pose proof (eqA_false_lt _ _ E32 H32) as H23.
      by rewrite (At _ _ _ H13 H21) in H23.
  - intros [a1 b1] [a2 b2]; simpl. rewrite andb_true_iff, Ae, Be. split.
    + intros [[H1 H2] [H3 H4]].
      assert (E12 : eqA a1 a2 = true) by (by apply Ae).
      assert (E21 : eqA a2 a1 = true) by (by apply Ae).
      by rewrite E12, E21.
    + destruct (eqA a1 a2) eqn:E12.
      * assert (E21 : eqA a2 a1 = true).
        { apply Ae. apply Ae in E12 as []. done. }
        rewrite E21. intros []. split; [by apply Ae|done].
      * intros [H12 H21]. destruct (eqA a2 a1) eqn:E21.
        { apply Ae in E21 as []. assert (eqA a1 a2 = true) by (by apply Ae).
          congruence. }
        assert (eqA a1 a2 = true) by (by apply Ae). congruence.
Qed.
End Lexicographic.

End PyOrderFacts.

(** *** Ranking of flights *)

Module RankFacts.
Import PyStr PyOrder PyOrderFacts Rank.


Lemma hotel_key_weak_order :
  weak_order hotel_key_ltb (pair_eqb Qeq_bool ext_eqb).
Proof. apply pair_weak_order; [apply num_weak_order|apply ext_weak_order]. Qed.






End RankFacts.

(** *** The retry loops *)

Module AmadeusAPIFacts.
Import PyStr PyOrder Rank AmadeusAPI.

Section SearchFacts.
Context {Offer HotelOffer : Type} (self : handler).
Context (parse_flights : list Offer -> list flight).
Context (flight_api : nat -> api_result (list Offer)).
Context (parse_hotel : HotelOffer -> option hotel).
Context (city_api : nat -> api_result (list (option string))).
Context (offers_api : nat -> string -> api_result HotelOffer).

Local Abbreviation flights_loop :=
  (search_flights_loop self parse_flights flight_api).
Local Abbreviation hotels_loop :=
  (search_hotels_loop self parse_hotel city_api offers_api).

(** Every turn of the loop that does not return adds one to [retries]:
    the loop body is entered at most [max_retries - retries] times. *)
Lemma search_flights_loop_attempts retries made sleeps :
  attempts (flights_loop retries made sleeps)
  <= made + (max_retries self - retries).
Proof.
  funelim (search_flights_loop self parse_flights flight_api retries made sleeps);
    simpl; lia.
Qed.


Lemma search_hotels_loop_attempts max_results retries made sleeps :
  attempts (hotels_loop max_results retries made sleeps)
  <= made + (max_retries self - retries).
Proof.
  funelim (search_hotels_loop self parse_hotel city_api offers_api
             max_results retries made sleeps);
    simpl; lia.
Qed.

(** When every attempt is answered by a rate-limit error, the loop runs
    out of retries and the body of [search_flights] ends without a
    [return]. *)
Lemma search_flights_loop_rate_limited retries made sleeps :
  (forall n, exists text,
     flight_api n = ResponseError text /\ rate_limited text = true) ->
  value (flights_loop retries made sleeps) = PyNone
  /\ attempts (flights_loop retries made sleeps)
     = made + (max_retries self - retries).
Proof.
  intros Hlimited.
  funelim (search_flights_loop self parse_flights flight_api retries made sleeps);
    try (destruct (Hlimited made) as (text' & Hanswer & Hrate); congruence).
  - simpl. split; [done|lia].
  - destruct (H Hlimited) as [Hv Ha]. split; [done|]. rewrite Ha. lia.
Qed.

(** [search_flights] returns a list unless its last attempt was answered
    by a rate-limit error: with no such answer it returns a list. *)
Lemma search_flights_loop_list retries made sleeps :
  retries < max_retries self ->
  (forall n text, flight_api n = ResponseError text ->
                  rate_limited text = false) ->
  exists items, value (flights_loop retries made sleeps) = PyList items.
Proof.
  intros Hroom Hnever.
  funelim (search_flights_loop self parse_flights flight_api retries made sleeps);
    try (simpl; eauto; fail); try lia.
  - rewrite (Hnever _ _ Heq0) in Heq. discriminate.
  - apply H; [lia|done].
Qed.

(** The loop of [search_hotels] always ends in a [return] of a list: its
    only way round the loop is the handler that counts the retries and
    returns the empty list at the last one. *)
Lemma search_hotels_loop_list max_results retries made sleeps :
  retries < max_retries self ->
  exists items, value (hotels_loop max_results retries made sleeps)
                = PyList items.
Proof.
  intros Hroom.
  funelim (search_hotels_loop self parse_hotel city_api offers_api
             max_results retries made sleeps);
    try (simpl; eauto; fail); try lia.
  apply H. lia.
Qed.

End SearchFacts.

(** C8, at the failing input.  With an initialized client and a flight
    search that answers every attempt with a [429] error,
    [search_flights] makes [max_retries] attempts and then returns
    [None], not a list.  (With no [429] answer it returns a list, and
    [search_hotels] returns a list in all cases: the lemmas above.) *)
Theorem search_flights_rate_limited_returns_none
    {Offer : Type} (parse_flights : list Offer -> list flight)
    (flight_api : nat -> api_result (list Offer)) :
  (forall n, exists text,
     flight_api n = ResponseError text /\ rate_limited text = true) ->
  let r := search_flights (init true) parse_flights flight_api in
  value r = PyNone /\ attempts r = 3
  /\ slept r = [2; 4; 8]%Z.
Proof.
  intros Hlimited r. subst r. unfold search_flights. simpl client.
  destruct (search_flights_loop_rate_limited (init true) parse_flights
              flight_api 0 0 [] Hlimited) as [Hv Ha].
  split; [exact Hv|]. split; [exact Ha|].
  destruct (Hlimited 0) as (t0 & H0 & R0).
  destruct (Hlimited 1) as (t1 & H1 & R1).
  destruct (Hlimited 2) as (t2 & H2 & R2).
  simp search_flights_loop. simpl.
  rewrite H0. simpl. rewrite R0. simpl.
  simp search_flights_loop. simpl.
  rewrite H1. simpl. rewrite R1. simpl.
  simp search_flights_loop. simpl.
  rewrite H2. simpl. rewrite R2. simpl.
  simp search_flights_loop. reflexivity.
Qed.

Lemma search_flights_rate_limited_returns_none_witness :
  value (search_flights (init true) (fun _ : list nat => [])
           (fun _ => ResponseError "[429] Too Many Requests"))
  = PyNone.
Proof.
  apply (search_flights_rate_limited_returns_none (fun _ : list nat => [])
           (fun _ => ResponseError "[429] Too Many Requests")).
  intros n. exists "[429] Too Many Requests". split; reflexivity.
Defined.

(** The other half of C8 holds: [search_hotels] returns a list whatever
    the API does, after at most [max_retries] attempts, and so does
    [search_flights] as long as no attempt is rate limited. *)
Lemma search_returns_list
    {Offer HotelOffer : Type} (client_ok : bool)
    (parse_flights : list Offer -> list flight)
    (flight_api : nat -> api_result (list Offer))
    (parse_hotel : HotelOffer -> option hotel)
    (city_api : nat -> api_result (list (option string)))
    (offers_api : nat -> string -> api_result HotelOffer)
    (max_results : Z) :
  let h := search_hotels (init client_ok) parse_hotel city_api offers_api
             max_results in
  let f := search_flights (init client_ok) parse_flights flight_api in
  (exists items, value h = PyList items)
  /\ attempts h <= 3
  /\ attempts f <= 3
  /\ ((forall n text, flight_api n = ResponseError text ->
                      rate_limited text = false) ->
      exists items, value f = PyList items).
Proof.
  intros h f. subst h f. unfold search_hotels, search_flights.
  destruct client_ok; simpl client.
  - split; [apply search_hotels_loop_list; simpl; lia|].
    split; [apply (search_hotels_loop_attempts (init true))|].
    split; [apply (search_flights_loop_attempts (init true))|].
    intros Hnever. apply search_flights_loop_list; [simpl; lia|done].
  - simpl. split; [eauto|]. split; [lia|]. split; [lia|eauto].
Qed.

End AmadeusAPIFacts.

(** *** Ranking of hotels *)

Module HotelRankFacts.
Import PyStr PyOrder PyOrderFacts Rank RankFacts.

Section HotelKey.
(** Both hotel keys are [(-1 * (rating or 0), price_key(price))]. *)
Context (price_key : option Q -> ext).

Local Abbreviation key_of := (key_with price_key).

Lemma hotel_key_better_rating f g :
  (or_zero (rating g) < or_zero (rating f))%Q ->
  hotel_key_ltb (key_of f) (key_of g) = true.
Proof.
  intros H. unfold hotel_key_ltb, pair_ltb, key_of. simpl.
  destruct (Qeq_bool _ _) eqn:E.
  - apply Qeq_bool_iff in E. exfalso. lra.
  - apply num_ltb_lt. lra.
Qed.

Lemma hotel_key_same_rating f g :
  (or_zero (rating f) == or_zero (rating g))%Q ->
  hotel_key_ltb (key_of f) (key_of g)
  = ext_ltb (price_key (price f)) (price_key (price g)).
Proof.
  intros H. unfold hotel_key_ltb, pair_ltb, key_of. simpl.
  destruct (Qeq_bool _ _) eqn:E; [done|].
  apply Qeq_bool_neq in E. exfalso. apply E. lra.
Qed.

(** What the stable sort by such a key guarantees. *)
Lemma ranked_by_key l :
  let ranked := py_sorted hotel_key_ltb key_of l in
  ranked ≡ₚ l
  /\ StronglySorted (key_le hotel_key_ltb key_of) ranked
  /\ (forall h, filter (same_rank hotel_key_ltb key_of h) ranked
                = filter (same_rank hotel_key_ltb key_of h) l)
  /\ (forall i j f g,
        ranked !! i = Some f -> ranked !! j = Some g ->
        (or_zero (rating g) < or_zero (rating f))%Q -> i < j)
  /\ (forall i j f g,
        ranked !! i = Some f -> ranked !! j = Some g ->
        (or_zero (rating f) == or_zero (rating g))%Q ->
        ext_ltb (price_key (price f)) (price_key (price g)) = true ->
        i < j).
Proof.
  intros ranked. pose proof hotel_key_weak_order as W.
  split; [apply py_sorted_perm|].
  split; [apply (py_sorted_sorted _ _ _ W)|].
  split; [intros h; apply (py_sorted_stable _ _ _ W)|].
  split.
  - intros i j f g Hi Hj Hr.
    eapply (py_sorted_before _ _ _ W); eauto.
    by apply hotel_key_better_rating.
  - intros i j f g Hi Hj Hr Hp.
    eapply (py_sorted_before _ _ _ W); eauto.
    by rewrite hotel_key_same_rating.
Qed.
End HotelKey.

Lemma or_inf_zero q : (q == 0)%Q -> or_inf (Some q) = Inf.
Proof.
  intros H. unfold or_inf.
  by destruct (Qeq_bool q 0) eqn:E; [|apply Qeq_bool_neq in E].
Qed.

Lemma or_inf_priced p : ~ (p == 0)%Q -> or_inf (Some p) = Fin p.
Proof.
  intros H. unfold or_inf.
  by destruct (Qeq_bool p 0) eqn:E; [apply Qeq_bool_iff in E|].
Qed.

(** C5, where the code departs from it.  The records are the scraped
    dictionaries whose rating and price are numbers or absent.
    [HotelScraper._filter_and_rank_results] drops the records without a
    name, sorts the others with a stable sort by the key
    [(-1 * (rating or 0), price or float('inf'))] and cuts the result at
    [top_n]: descending by the rating, a missing rating counting as 0,
    records with equal keys in their input order.  The price key
    [price or float('inf')] is infinite for the price 0 as it is for a
    missing price: a record with the price 0 is ranked after every
    record with the same rating and any other price, although the
    comment of the code says price (ascending).  [accommodation_sort_key]
    and the key of the specification keep the price 0 as a price. *)
Theorem zero_price_ranked_as_missing results top_n :
  let named := filter has_name results in
  let ranked := py_sorted hotel_key_ltb scraper_sort_key named in
  _filter_and_rank_results results top_n = slice_to top_n ranked
  /\ ranked ≡ₚ named
  /\ StronglySorted (key_le hotel_key_ltb scraper_sort_key) ranked
  /\ (forall h,
        filter (same_rank hotel_key_ltb scraper_sort_key h) ranked
        = filter (same_rank hotel_key_ltb scraper_sort_key h) named)
  /\ (forall i j f g,
        ranked !! i = Some f -> ranked !! j = Some g ->
        (or_zero (rating g) < or_zero (rating f))%Q -> i < j)
  /\ (forall i j f g p q,
        ranked !! i = Some f -> ranked !! j = Some g ->
        (or_zero (rating f) == or_zero (rating g))%Q ->
        price f = Some p -> ~ (p == 0)%Q ->
        price g = Some q -> (q == 0)%Q ->
        i < j)
  /\ (forall h q,
        price h = Some q -> (q == 0)%Q ->
        snd (scraper_sort_key h) = Inf
        /\ snd (accommodation_sort_key h) = Fin q
        /\ snd (spec_hotel_key h) = Fin q).
Proof.
  intros named ranked.
  destruct (ranked_by_key or_inf named) as (Hperm & Hsorted & Hstable & Hrating & Hprice).
  split.
  { destruct results as [|r results]; [|reflexivity].
    subst ranked named. simpl. unfold slice_to.
    destruct (0 <=? top_n)%Z; by rewrite take_nil. }
  split; [exact Hperm|]. split; [exact Hsorted|].
  split; [exact Hstable|]. split; [exact Hrating|]. split.
  - intros i j f g p q Hi Hj Hr Hp Hp0 Hq Hq0.
    apply (Hprice i j f g Hi Hj Hr).
    by rewrite Hp, Hq, (or_inf_priced _ Hp0), (or_inf_zero _ Hq0).
  - intros h q Hq Hq0.
    unfold scraper_sort_key, accommodation_sort_key, spec_hotel_key.
    simpl. rewrite Hq. by rewrite (or_inf_zero _ Hq0).
Qed.

Lemma zero_price_ranked_as_missing_witness :
  _filter_and_rank_results [sample_free; sample_paid] 3
  = [sample_paid; sample_free]
  /\ rank_accommodations [sample_free; sample_paid]
     = [sample_free; sample_paid]
  /\ hotel_key_ltb (spec_hotel_key sample_free) (spec_hotel_key sample_paid)
     = true
  /\ 0 < 1.
Proof.
  destruct (zero_price_ranked_as_missing [sample_free; sample_paid] 3%Z)
    as (Hrun & _ & _ & _ & _ & Hzero & _).
  split; [rewrite Hrun; reflexivity|].
  split; [reflexivity|]. split; [reflexivity|].
  apply (Hzero 0 1 sample_paid sample_free 80%Q 0%Q);
    try reflexivity; discriminate.
Defined.

End HotelRankFacts.

(** *** The planner of [trip_planner_tool.py] *)

Module TripPlannerFacts.
Import PyStr PyOrder Rank Dedupe Effects Handlers TripPlanner.

(** Unfolds the monad of a planner function down to the answers of the
    handlers. *)
Ltac unfold_monad :=
  unfold mbind, mret, ST_bind, ST_ret, bind, ret, raise, try_except, invoke,
    result_from, calls_from in *.

Lemma dict_set_elem {V} k (v : V) d s x :
  (s, x) ∈ dict_set k v d -> (s, x) = (k, v) \/ (s, x) ∈ d.
Proof.
  induction d as [|[k' v'] d IH]; simpl.
  - intros H. apply list_elem_of_singleton in H. by left.
  - destruct (String.eqb k' k).
    + intros H. apply elem_of_cons in H as [H|H]; [by left|].
      right. by apply elem_of_cons; right.
    + intros H. apply elem_of_cons in H as [H|H].
      * right. by apply elem_of_cons; left.
      * destruct (IH H) as [|]; [by left|]. right. by apply elem_of_cons; right.
Qed.

(** A computation that always returns, with a value satisfying [P]. *)
Lemma try_except_returns {S A} (m : ST S A) (handler : string -> ST S A)
    (P : A -> Prop) s :
  (forall a s', m s = (Ok a, s') -> P a) ->
  (forall e s', exists a s'', handler e s' = (Ok a, s'') /\ P a) ->
  exists a s', try_except m handler s = (Ok a, s') /\ P a.
Proof.
  intros Hm Hh. unfold try_except. destruct (m s) as [[a|e] s'] eqn:E.
  - exists a, s'. split; [done|]. by eapply Hm.
  - apply Hh.
Qed.

Section BudgetFilter.
Context (max_results : Z) (range : Q * ext) (accommodation_type : option string).

Lemma filter_hotels_passed hotels : forall filtered_hotels,
  Forall (passed range) filtered_hotels ->
  Forall (passed range)
    (filter_hotels max_results range accommodation_type hotels filtered_hotels).
Proof.
  induction hotels as [|h rest IH]; intros filtered Hf; simpl; [done|].
  destruct (max_results <=? _)%Z; [done|].
  destruct (price_passes range (price h)) eqn:Hp; [|by apply IH].
  destruct (_ && _); [by apply IH|].
  apply IH. apply Forall_app. split; [done|]. by repeat constructor.
Qed.

Lemma add_hotel_sites_pass all_results : forall results,
  scraped_pass range results ->
  scraped_pass range
    (add_hotel_sites max_results range accommodation_type all_results results).
Proof.
  unfold add_hotel_sites.
  induction all_results as [|[s hotels] rest IH]; intros results Hr;
    simpl; [done|].
  apply IH. destruct (nonempty _); [|done].
  intros s' hs Hin Hne. apply dict_set_elem in Hin as [Heq|Hin].
  - injection Heq as -> ->. by apply filter_hotels_passed.
  - by eapply Hr.
Qed.
End BudgetFilter.

Lemma amadeus_only_pass range (l : list hotel) :
  scraped_pass range (dict_set "amadeus" l []).
Proof.
  intros s hs Hin Hne. simpl in Hin.
  apply list_elem_of_singleton in Hin. by injection Hin as -> ->.
Qed.

Lemma empty_pass range : scraped_pass range [].
Proof. intros s hs Hin. by apply elem_of_nil in Hin. Qed.

Lemma amadeus_hotels_pass b location range t :
  exists results t',
    amadeus_hotels b location t = (Ok results, t')
    /\ scraped_pass range results.
Proof.
  unfold amadeus_hotels. apply try_except_returns.
  - unfold_monad. intros results t'.
    destruct (amadeus_get_city_code b location t) as [code|e]; [|done].
    destruct (truthy_str code).
    + destruct (amadeus_search_hotels b code _) as [found|e]; [|done].
      intros [= <- _]. destruct (nonempty found);
        [apply amadeus_only_pass|apply empty_pass].
    + intros [= <- _]. apply empty_pass.
  - intros e t'. exists [], t'. split; [done|apply empty_pass].
Qed.

Lemma scraped_hotels_pass b location budget_level accommodation_type
    max_results results t :
  scraped_pass (price_range budget_level) results ->
  exists results' t',
    scraped_hotels b location budget_level accommodation_type max_results
      results t = (Ok results', t')
    /\ scraped_pass (price_range budget_level) results'.
Proof.
  intros Hr. unfold scraped_hotels. apply try_except_returns.
  - unfold_monad. intros results' t'.
    destruct (search_hotels_all_sites b location t) as [all_results|e];
      [|done].
    intros [= <- _]. by apply add_hotel_sites_pass.
  - intros e t'. by exists results, t'.
Qed.

(** [get_accommodation_options] always returns, and the lists it stores
    for the scraper sites hold only hotels that passed the price test. *)
Lemma accommodation_options_pass b location budget_level accommodation_type
    max_results t :
  exists options,
    result_from (get_accommodation_options b location budget_level
                   accommodation_type max_results) t = Ok options
    /\ scraped_pass (price_range budget_level) (ao_by_site options).
Proof.
  unfold get_accommodation_options, result_from.
  destruct (amadeus_hotels_pass b location (price_range budget_level) t)
    as (r1 & t1 & E1 & P1).
  destruct (scraped_hotels_pass b location budget_level accommodation_type
              max_results r1 t1 P1) as (r2 & t2 & E2 & P2).
  unfold mbind, ST_bind, bind. rewrite E1, E2. simpl.
  eexists. split; [reflexivity|].
  unfold accommodation_options_of. destruct (nonempty r2); [done|].
  apply empty_pass.
Qed.

Lemma passed_truthy range h :
  passed range h ->
  truthy (price h) = true /\ forall q, price h = Some q -> ~ (q == 0)%Q.
Proof.
  unfold passed, price_passes, truthy. destruct (price h) as [q|]; [|done].
  intros H. apply andb_true_iff in H as [H _]. split; [done|].
  intros q' [= <-] Hq. apply Qeq_bool_iff in Hq. by rewrite Hq in H.
Qed.

(** C10.  In the result of [get_accommodation_options], whatever the
    budget level, every hotel listed under a scraper site (a key of
    [by_site] other than ["amadeus"]) passed
    [price and min_price <= price <= max_price]: its price is truthy, so
    it is neither missing nor 0.  The test fails on a price of 0 and on a
    missing price at every budget level, although 0 lies in the range
    (0, 100) of the ["budget"] level. *)
Theorem budget_filter_excludes_falsy_price
    b location budget_level accommodation_type max_results t :
  (exists options,
     result_from (get_accommodation_options b location budget_level
                    accommodation_type max_results) t = Ok options)
  /\ (forall options s hs h,
        result_from (get_accommodation_options b location budget_level
                       accommodation_type max_results) t = Ok options ->
        (s, hs) ∈ ao_by_site options -> s <> "amadeus" -> h ∈ hs ->
        price_passes (price_range budget_level) (price h) = true
        /\ truthy (price h) = true
        /\ forall q, price h = Some q -> ~ (q == 0)%Q)
  /\ (forall level q,
        (q == 0)%Q -> price_passes (price_range level) (Some q) = false)
  /\ (forall level, price_passes (price_range level) None = false)
  /\ price_range "budget" = (0%Q, Fin 100)
  /\ in_range (price_range "budget") 0 = true.
Proof.
  destruct (accommodation_options_pass b location budget_level
              accommodation_type max_results t) as (options & E & Hp).
  split; [by exists options|].
  split.
  - intros options' s hs h E' Hin Hne Hh.
    rewrite E in E'. injection E' as <-.
    pose proof (Hp s hs Hin Hne) as Hall.
    rewrite Forall_forall in Hall. specialize (Hall h Hh).
    split; [exact Hall|]. by apply (passed_truthy _ _ Hall).
  - split; [|split; [done|split; reflexivity]].
    intros level q Hq. unfold price_passes.
    apply Qeq_bool_iff in Hq. by rewrite Hq.
Qed.

Lemma budget_filter_excludes_falsy_price_witness :
  result_from (get_accommodation_options with_scraped_hotels "Paris"
                 "budget" None 3) []
  = Ok {| ao_best_overall := [hotel_with_site "booking" sample_paid];
          ao_by_site := [("booking", [sample_paid])] |}
  /\ price_passes (price_range "budget") (price sample_paid) = true
  /\ price_passes (price_range "budget") (Some 0%Q) = false.
Proof.
  pose proof (budget_filter_excludes_falsy_price with_scraped_hotels "Paris"
                "budget" None 3 []) as (_ & Hlisted & Hzero & _).
  split; [reflexivity|]. split.
  - apply (Hlisted
             {| ao_best_overall := [hotel_with_site "booking" sample_paid];
                ao_by_site := [("booking", [sample_paid])] |}
             "booking" [sample_paid] sample_paid);
      [reflexivity | apply list_elem_of_here | discriminate
      | apply list_elem_of_here].
  - apply (Hzero "budget" 0%Q). reflexivity.
Defined.

(** The first block of [get_flight_options] always returns. *)
Lemma amadeus_flights_returns b get_airport_code origin destination t :
  exists results t',
    amadeus_flights b get_airport_code origin destination t = (Ok results, t').
Proof.
  unfold amadeus_flights.
  destruct (try_except_returns
    (origin0 ← invoke (AmadeusGetCityCode origin)
                 (amadeus_get_city_code b origin);
     destination0 ← invoke (AmadeusGetCityCode destination)
                      (amadeus_get_city_code b destination);
     found ← invoke AmadeusSearchFlights
               (amadeus_search_flights b
                  (or_str origin0 (get_airport_code origin))
                  (or_str destination0 (get_airport_code destination)));
     mret (if nonempty found then dict_set "amadeus" found [] else []))
    (fun _ => mret []) (fun _ => True) t) as (r & t' & E & _); [done|..].
  - intros e s'. by exists [], s'.
  - by exists r, t'.
Qed.

(** The second block runs the scrapers, whatever [results] holds. *)
Lemma scraped_flights_calls b get_airport_code origin destination
    max_results results t :
  exists results',
    scraped_flights b get_airport_code origin destination max_results
      results t = (Ok results', t ++ [FlightScrapers]).
Proof.
  unfold scraped_flights. unfold_monad.
  destruct (search_flights_all_sites b _ _ t); eauto.
Qed.

(** [get_accommodation_options] has the same shape: its scraper block is
    not guarded either. *)
Lemma hotel_scrapers_always_called b location budget_level accommodation_type
    max_results t :
  last (calls_from (get_accommodation_options b location budget_level
                      accommodation_type max_results) t)
  = Some HotelScrapers.
Proof.
  unfold get_accommodation_options, calls_from.
  destruct (amadeus_hotels_pass b location (price_range budget_level) t)
    as (r1 & t1 & E1 & _).
  unfold mbind, ST_bind, bind. rewrite E1.
  unfold scraped_hotels. unfold_monad.
  destruct (search_hotels_all_sites b location t1); simpl; apply last_snoc.
Qed.

(** The sibling pipeline has the guard: when the first activity source
    returns [max_results] activities or more, no other source is called. *)
Lemma activities_stop_when_enough b location max_results activity_type
    found t :
  duckduckgo_search_activities b location activity_type t = Ok found ->
  (1 <= max_results)%Z -> (max_results <= Z.of_nat (length found))%Z ->
  calls_from (get_activity_options b location max_results activity_type) t
  = t ++ [DuckDuckGoActivities].
Proof.
  intros Hfound Hmax Hlen. unfold get_activity_options. unfold_monad.
  rewrite Hfound. simpl.
  replace (Z.of_nat (length found) <? max_results)%Z with false
    by (symmetry; apply Z.ltb_ge; lia).
  destruct found as [|a found]; [simpl in Hlen; lia|]. reflexivity.
Qed.

(** C1, at the failing input.  [get_flight_options] calls the flight
    scrapers as its last backend call in every run, whatever the Amadeus
    search returned before: the second [try] block is not guarded.  With
    [max_results = 3] and an Amadeus search that returns three offers,
    the scrapers are called all the same and their flights are listed
    next to the Amadeus ones. *)
Theorem flight_scrapers_always_called :
  (forall b get_airport_code origin destination max_results t,
     last (calls_from (get_flight_options b get_airport_code origin
                         destination max_results) t)
     = Some FlightScrapers)
  /\ amadeus_search_flights with_three_offers "PAR" "PAR"
       [AmadeusGetCityCode "New York"; AmadeusGetCityCode "Paris"]
     = Ok [sample_offer; sample_offer; sample_offer]
  /\ calls_from (get_flight_options with_three_offers (fun _ => "XXX")
                   "New York" "Paris" 3) []
     = [AmadeusGetCityCode "New York"; AmadeusGetCityCode "Paris";
        AmadeusSearchFlights; FlightScrapers]
  /\ (exists options,
        result_from (get_flight_options with_three_offers (fun _ => "XXX")
                       "New York" "Paris" 3) [] = Ok options
        /\ fo_by_site options
           = [("amadeus", [sample_offer; sample_offer; sample_offer]);
              ("kayak", [sample_direct; sample_one_stop])]).
Proof.
  split; [|split; [reflexivity|split; [reflexivity|]]].
  2:{ eexists. split; reflexivity. }
  intros b get_airport_code origin destination max_results t.
  unfold get_flight_options, calls_from.
  destruct (amadeus_flights_returns b get_airport_code origin destination t)
    as (r1 & t1 & E1).
  destruct (scraped_flights_calls b get_airport_code origin destination
              max_results r1 t1) as (r2 & E2).
  unfold mbind, ST_bind, bind. rewrite E1, E2. simpl.
  apply last_snoc.
Qed.

(** A guarded fetcher never raises: it turns what the fetcher did into
    an entry and, for a raise, one more error message; the calls are
    those of the fetcher. *)
Lemma guarded_run {A} what (fetch : M A) errors t :
  guarded what fetch errors t
  = (Ok (entry_of (result_from fetch t),
         errors ++ error_of what (result_from fetch t)),
     calls_from fetch t).
Proof.
  unfold guarded. unfold_monad.
  destruct (fetch t) as [[r|e] t']; simpl; [|done].
  by rewrite app_nil_r.
Qed.

Section PlanTripFacts.
Context (b : backends) (openai_api_key : option string).
Context (strptime : string -> option Z).
Context (fetch_flights : string -> string -> Z -> M flight_options).
Context (fetch_accommodations :
           string -> string -> option string -> Z -> M accommodation_options).
Context (fetch_activities : string -> Z -> M activity_options).
Context (fetch_travel_information :
           option string -> string -> M travel_information).

Local Abbreviation plan :=
  (plan_trip_with b openai_api_key strptime fetch_flights
     fetch_accommodations fetch_activities fetch_travel_information).

(** The summary step of [plan_trip] makes no call and does not raise. *)
Lemma summary_step origin destination days t :
  exists s,
    (if truthy_str openai_api_key
     then try_except (generate_trip_summary b openai_api_key None days)
            (fun e =>
               mret {| headline := "Trip to " +:+ destination;
                       overview := None;
                       summary_error :=
                         Some ("Could not generate summary: " +:+ e) |})
     else mret (default_summary origin destination days)) t
    = (Ok s, t).
Proof. destruct (truthy_str openai_api_key); eexists; reflexivity. Qed.

(** C2.  When both dates parse and the end is not before the start,
    [plan_trip] returns a trip plan, with its metadata and status,
    whatever the four fetchers do.  Each fetcher is run, in the order
    flights, accommodations, activities (if requested), travel
    information, from the calls left by the one before it, whether or
    not an earlier one raised.  A fetcher that raised leaves the error
    entry for its category and one message in [errors]; the others leave
    their results. *)
Theorem plan_trip_degrades
    (origin_city destination_city start_date end_date : string)
    (travelers : Z) (budget_level : string)
    (trip_type accommodation_type : option string)
    (include_activities : bool)
    (origin_country destination_country : option string)
    (max_results start end_ : Z) (t : trace) :
  strptime start_date = Some start -> strptime end_date = Some end_ ->
  (start <= end_)%Z ->
  let flights_run :=
    fetch_flights origin_city destination_city max_results in
  let t1 := calls_from flights_run t in
  let accommodations_run :=
    fetch_accommodations destination_city budget_level accommodation_type
      max_results in
  let t2 := calls_from accommodations_run t1 in
  let activities_run := fetch_activities destination_city max_results in
  let t3 := if include_activities then calls_from activities_run t2 else t2 in
  let info_run :=
    fetch_travel_information origin_country
      (or_str destination_country destination_city) in
  let t4 := calls_from info_run t3 in
  exists p,
    plan origin_city destination_city start_date end_date travelers
      budget_level trip_type accommodation_type include_activities
      origin_country destination_country max_results t
    = (Ok (Planned p), t4)
    /\ tp_flights p = entry_of (result_from flights_run t)
    /\ tp_accommodations p = entry_of (result_from accommodations_run t1)
    /\ tp_activities p
       = (if include_activities
          then Some (entry_of (result_from activities_run t2)) else None)
    /\ tp_travel_info p = entry_of (result_from info_run t3)
    /\ md_errors (tp_metadata p)
       = error_of "flight options" (result_from flights_run t)
         ++ error_of "accommodation options"
              (result_from accommodations_run t1)
         ++ (if include_activities
             then error_of "activity options" (result_from activities_run t2)
             else [])
         ++ error_of "travel information" (result_from info_run t3)
    /\ tp_status p = status_of (md_errors (tp_metadata p)).
Proof.
  intros Hstart Hend Horder flights_run t1 accommodations_run t2
    activities_run t3 info_run t4.
  unfold plan_trip_with. rewrite Hstart, Hend.
  replace (end_ <? start)%Z with false by (symmetry; apply Z.ltb_ge; lia).
  unfold mbind at 1, ST_bind at 1, bind at 1.
  rewrite guarded_run. fold flights_run t1. cbn [app].
  unfold mbind at 1, ST_bind at 1, bind at 1.
  rewrite guarded_run. fold accommodations_run t2.
  unfold mbind at 1, ST_bind at 1, bind at 1.
  destruct include_activities.
  - unfold mbind at 1, ST_bind at 1, bind at 1.
    rewrite guarded_run. fold activities_run. cbn [mret ST_ret ret].
    unfold mbind at 1, ST_bind at 1, bind at 1.
    rewrite guarded_run. fold info_run.
    unfold mbind at 1, ST_bind at 1, bind at 1.
    match goal with
    | |- context [(if truthy_str openai_api_key then _ else _) ?tt] =>
        destruct (summary_step origin_city destination_city (end_ - start) tt)
          as (s & ->)
    end.
    eexists. split; [reflexivity|]. simpl.
    repeat split; try reflexivity. by rewrite <- !app_assoc.
  - cbn [mret ST_ret ret].
    unfold mbind at 1, ST_bind at 1, bind at 1.
    rewrite guarded_run. fold info_run.
    unfold mbind at 1, ST_bind at 1, bind at 1.
    match goal with
    | |- context [(if truthy_str openai_api_key then _ else _) ?tt] =>
        destruct (summary_step origin_city destination_city (end_ - start) tt)
          as (s & ->)
    end.
    eexists. split; [reflexivity|]. simpl.
    repeat split; try reflexivity. by rewrite <- !app_assoc.
Qed.
End PlanTripFacts.

Lemma plan_trip_degrades_witness :
  exists p,
    plan_trip with_failing_travel_info (fun _ => "XXX") None sample_strptime
      "New York" "Paris" "2025-06-15" "2025-06-22" 2 "moderate" None None
      true (Some "United States") None 3 []
    = (Ok (Planned p),
       [AmadeusGetCityCode "New York"; AmadeusGetCityCode "Paris";
        AmadeusSearchFlights; FlightScrapers; AmadeusGetCityCode "Paris";
        AmadeusSearchHotels; HotelScrapers; DuckDuckGoActivities;
        FirecrawlActivities; FirecrawlAttractions; FirecrawlRestaurants;
        ActivityScrapers; TravelInfoScraper])
    /\ tp_travel_info p = FetchFailed "connection refused"
    /\ md_errors (tp_metadata p)
       = ["Could not retrieve travel information: connection refused"]
    /\ tp_status p = "partial".
Proof.
  destruct (plan_trip_degrades with_failing_travel_info None sample_strptime
              (get_flight_options with_failing_travel_info (fun _ => "XXX"))
              (get_accommodation_options with_failing_travel_info)
              (fun location max_results =>
                 get_activity_options with_failing_travel_info location
                   max_results None)
              (get_travel_information with_failing_travel_info)
              "New York" "Paris" "2025-06-15" "2025-06-22" 2 "moderate"
              None None true (Some "United States") None 3
              739417 739424 [])
    as (p & Hrun & _ & _ & _ & Hinfo & Herrors & Hstatus);
    [reflexivity | reflexivity | lia |].
  exists p. split; [exact Hrun|]. split; [exact Hinfo|].
  split; [exact Herrors|]. rewrite Hstatus, Herrors. reflexivity.
Defined.

End TripPlannerFacts.

(** *** The planner of [amadeus_trip_planner_tool.py] *)

Module AmadeusPlannerFacts.
Import PyStr Rank Dedupe Effects Handlers TripPlanner AmadeusPlanner.

Section AddsOnly.
Context (P : Effects.call -> Prop).

Lemma adds_only_ret {A} (a : A) : adds_only P (mret a).
Proof. intros s. exists []. by rewrite app_nil_r. Qed.

Lemma adds_only_bind {A B} (m : ST planner_state A)
    (k : A -> ST planner_state B) :
  adds_only P m -> (forall a, adds_only P (k a)) -> adds_only P (m ≫= k).
Proof.
  intros Hm Hk s. unfold mbind, ST_bind, bind.
  destruct (Hm s) as (l1 & E1 & F1).
  destruct (m s) as [[a|e] s1]; simpl in *.
  - destruct (Hk a s1) as (l2 & E2 & F2).
    exists (l1 ++ l2). rewrite E2, E1, app_assoc. split; [done|].
    by apply Forall_app.
  - by exists l1.
Qed.

Lemma adds_only_try {A} (m : ST planner_state A) handler :
  adds_only P m -> (forall e, adds_only P (handler e)) ->
  adds_only P (try_except m handler).
Proof.
  intros Hm Hh s. unfold try_except.
  destruct (Hm s) as (l1 & E1 & F1).
  destruct (m s) as [[a|e] s1]; simpl in *.
  - by exists l1.
  - destruct (Hh e s1) as (l2 & E2 & F2).
    exists (l1 ++ l2). rewrite E2, E1, app_assoc. split; [done|].
    by apply Forall_app.
Qed.

Lemma adds_only_call {A} c (answer : trace -> outcome A) :
  P c -> adds_only P (call c answer).
Proof. intros Hc s. exists [c]. split; [done|]. by repeat constructor. Qed.

Lemma adds_only_update f : adds_only P (update f).
Proof. intros s. exists []. by rewrite app_nil_r. Qed.

Lemma adds_only_get : adds_only P get_result.
Proof. intros s. exists []. by rewrite app_nil_r. Qed.

Lemma adds_only_when c m : adds_only P m -> adds_only P (when c m).
Proof. intros Hm. destruct c; [done|apply adds_only_ret]. Qed.
End AddsOnly.

(** Breaks a computation of the planner down to its calls. *)
Ltac adds_only_steps :=
  repeat first
    [ apply adds_only_ret
    | apply adds_only_update
    | apply adds_only_get
    | apply adds_only_call; done
    | apply adds_only_when
    | apply adds_only_bind; [|intros ?]
    | apply adds_only_try; [|intros ?]
    | match goal with
      | |- adds_only _ (if ?c then _ else _) => destruct c
      | |- adds_only _ (let _ := _ in _) => cbv zeta
      end ].

Section PlannerFacts.
Context (b : backends).
Context (extract_trip_details : string -> trip_details).
Context (default_code : string -> option string).
Context (activity_type_of : string -> option string).
Context (mentions_food : string -> bool).

Local Abbreviation run_plan :=
  (AmadeusPlanner.plan_trip b extract_trip_details default_code
     activity_type_of mentions_food).

Lemma flight_part_no_hotel_search origin destination :
  adds_only (fun c => c <> AmadeusSearchHotels)
    (flight_part b default_code origin destination).
Proof.
  unfold flight_part, airport_code, suggest, set_flights.
  adds_only_steps.
Qed.

Lemma activity_part_no_hotel_search query destination :
  adds_only (fun c => c <> AmadeusSearchHotels)
    (activity_part b activity_type_of mentions_food query destination).
Proof.
  unfold activity_part, suggest, set_activities.
  adds_only_steps.
Qed.

(** With a web search that finds hotels, the hotel part is that one call. *)
Lemma hotel_part_web_only destination web_hotels s :
  duckduckgo_search_hotels b destination (calls s) = Ok web_hotels ->
  nonempty web_hotels = true ->
  exists r,
    hotel_part b default_code destination s
    = (Ok tt, {| calls := calls s ++ [DuckDuckGoHotels]; res := r |})
    /\ hotels r = map WebHotel web_hotels.
Proof.
  intros Hweb Hsome. unfold hotel_part, try_except, mbind, ST_bind, bind, call.
  rewrite Hweb, Hsome. simpl.
  destruct web_hotels as [|h rest]; [done|]. simpl.
  eexists. split; reflexivity.
Qed.

Lemma hotel_part_no_hotel_search destination web_hotels :
  (forall t, duckduckgo_search_hotels b destination t = Ok web_hotels) ->
  nonempty web_hotels = true ->
  adds_only (fun c => c <> AmadeusSearchHotels)
    (hotel_part b default_code destination).
Proof.
  intros Hweb Hsome s.
  destruct (hotel_part_web_only destination web_hotels s (Hweb _) Hsome)
    as (r & -> & _).
  exists [DuckDuckGoHotels]. split; [done|]. by repeat constructor.
Qed.

(** The hotel half of C1 holds in this planner: when the web search, the
    first hotel source, returns hotels (five, say), the Amadeus hotel
    search is not called during the whole plan. *)
Lemma web_hotels_suffice query web_hotels t :
  truthy_str (destination_city (extract_trip_details query)) = true ->
  (forall t',
     duckduckgo_search_hotels b
       (default EmptyString (destination_city (extract_trip_details query)))
       t' = Ok web_hotels) ->
  5 <= length web_hotels ->
  exists added,
    calls_from (run_plan query) t = t ++ added
    /\ Forall (fun c => c <> AmadeusSearchHotels) added.
Proof.
  intros Hdest Hweb Hfive. unfold AmadeusPlanner.plan_trip, calls_from.
  rewrite Hdest. cbn [negb]. cbv zeta.
  match goal with
  | |- context [match ?body ?start with _ => _ end] =>
      assert (Hbody : adds_only (fun c => c <> AmadeusSearchHotels) body);
      [|destruct (Hbody start) as (added & E & F);
        destruct (body start) as [[[]|e] s]; simpl in *; by exists added]
  end.
  apply adds_only_bind; [|intros _; apply adds_only_bind; [|intros _]].
  - apply adds_only_when, flight_part_no_hotel_search.
  - apply (hotel_part_no_hotel_search _ web_hotels); [done|].
    destruct web_hotels; [simpl in Hfive; lia|done].
  - apply activity_part_no_hotel_search.
Qed.
End PlannerFacts.

(** C3.  A query from which no destination could be extracted, and a
    parameter dictionary without a destination, are answered by an error
    result before anything else is done: the trace of backend calls is
    returned unchanged. *)
Theorem missing_destination_rejected :
  (forall b extract_trip_details default_code activity_type_of mentions_food
          query t,
     truthy_str (destination_city (extract_trip_details query)) = false ->
     AmadeusPlanner.plan_trip b extract_trip_details default_code
       activity_type_of mentions_food query t
     = (Ok (ToolError "Could not determine the destination city from your query. Please specify where you want to go."),
        t))
  /\ (forall b get_airport_code openai_api_key strptime p t,
        truthy_str (p_destination_city p) = false ->
        llm_trip_planner_tool b get_airport_code openai_api_key strptime p t
        = (Ok (Rejected "Missing required parameters. Must provide origin_city, destination_city, start_date, and end_date."),
           t)).
Proof.
  split.
  - intros b extract default_code activity_type_of mentions_food query t H.
    unfold AmadeusPlanner.plan_trip. by rewrite H.
  - intros b get_airport_code key strptime p t H.
    unfold llm_trip_planner_tool. rewrite H.
    by rewrite andb_false_r.
Qed.

Lemma missing_destination_rejected_witness :
  calls_from
    (AmadeusPlanner.plan_trip with_web_hotels (fun _ => no_details)
       (fun _ => None) (fun _ => None) (fun _ => false)
       "plan something nice for me") []
  = []
  /\ calls_from
       (llm_trip_planner_tool with_web_hotels (fun _ => "XXX") None
          sample_strptime
          {| p_origin_city := Some "New York"; p_destination_city := None;
             p_start_date := Some "2025-06-15";
             p_end_date := Some "2025-06-22"; p_travelers := None;
             p_budget_level := None; p_trip_type := None;
             p_accommodation_type := None; p_include_activities := None;
             p_origin_country := None; p_destination_country := None |}) []
     = [].
Proof.
  destruct missing_destination_rejected as [Hquery Hparams].
  split; unfold calls_from.
  - rewrite Hquery; reflexivity.
  - rewrite Hparams; reflexivity.
Defined.

Lemma web_hotels_suffice_example :
  calls_from
    (AmadeusPlanner.plan_trip with_web_hotels (fun _ => paris_details)
       (fun _ => None) (fun _ => None) (fun _ => false)
       "Plan a trip from New York to Paris") []
  = [AmadeusGetCityCode "New York"; AmadeusGetCityCode "Paris";
     AmadeusSearchFlights; DuckDuckGoHotels; DuckDuckGoActivities;
     FirecrawlActivities; FirecrawlAttractions].
Proof. reflexivity. Qed.

End AmadeusPlannerFacts.

(** *** More on [plan_trip]: validation, summary and status *)

Module PlanTripMore.
Import PyStr PyOrder Rank Dedupe Effects Handlers TripPlanner TripPlannerFacts.
Import PlanSpecs.

Section Run.
Context (b : backends) (openai_api_key : option string).
Context (strptime : string -> option Z).
Context (fetch_flights : string -> string -> Z -> M flight_options).
Context (fetch_accommodations :
           string -> string -> option string -> Z -> M accommodation_options).
Context (fetch_activities : string -> Z -> M activity_options).
Context (fetch_travel_information :
           option string -> string -> M travel_information).

Local Abbreviation plan :=
  (plan_trip_with b openai_api_key strptime fetch_flights
     fetch_accommodations fetch_activities fetch_travel_information).

(** The summary step, with its value: the error summary when a key is
    configured, the default one otherwise. *)
Lemma summary_value origin destination days (t : trace) :
  (if truthy_str openai_api_key
   then try_except (generate_trip_summary b openai_api_key None days)
          (fun e =>
             mret {| headline := "Trip to " +:+ destination;
                     overview := None;
                     summary_error :=
                       Some ("Could not generate summary: " +:+ e) |})
   else mret (default_summary origin destination days)) t
  = (Ok (if truthy_str openai_api_key
         then {| headline := "Trip to " +:+ destination;
                 overview := None;
                 summary_error :=
                   Some "Could not generate summary: 'metadata'" |}
         else default_summary origin destination days), t).
Proof. destruct (truthy_str openai_api_key); reflexivity. Qed.

(** The whole run of [plan_trip] on valid dates, field by field. *)
Lemma plan_trip_run
    (origin_city destination_city start_date end_date : string)
    (travelers : Z) (budget_level : string)
    (trip_type accommodation_type : option string)
    (include_activities : bool)
    (origin_country destination_country : option string)
    (max_results start end_ : Z) (t : trace) :
  strptime start_date = Some start -> strptime end_date = Some end_ ->
  (start <= end_)%Z ->
  let r1 := fetch_flights origin_city destination_city max_results t in
  let r2 := fetch_accommodations destination_city budget_level
              accommodation_type max_results (snd r1) in
  let r3 := fetch_activities destination_city max_results (snd r2) in
  let t3 := if include_activities then snd r3 else snd r2 in
  let r4 := fetch_travel_information origin_country
              (or_str destination_country destination_city) t3 in
  let errors :=
    error_of "flight options" (fst r1)
    ++ error_of "accommodation options" (fst r2)
    ++ (if include_activities then error_of "activity options" (fst r3)
        else [])
    ++ error_of "travel information" (fst r4) in
  plan origin_city destination_city start_date end_date travelers
    budget_level trip_type accommodation_type include_activities
    origin_country destination_country max_results t
  = (Ok (Planned
      {| tp_flights := entry_of (fst r1);
         tp_accommodations := entry_of (fst r2);
         tp_activities :=
           if include_activities then Some (entry_of (fst r3)) else None;
         tp_travel_info := entry_of (fst r4);
         tp_summary :=
           if truthy_str openai_api_key
           then {| headline := "Trip to " +:+ destination_city;
                   overview := None;
                   summary_error :=
                     Some "Could not generate summary: 'metadata'" |}
           else default_summary origin_city destination_city (end_ - start);
         tp_metadata :=
           {| md_origin_city := origin_city;
              md_destination_city := destination_city;
              md_start_date := start_date;
              md_end_date := end_date;
              md_travelers := travelers;
              md_budget_level := budget_level;
              md_trip_type := trip_type;
              md_errors := errors |};
         tp_status := status_of errors |}),
     snd r4).
Proof.
  intros Hstart Hend Horder r1 r2 r3 t3 r4 errors.
  unfold plan_trip_with. rewrite Hstart, Hend.
  replace (end_ <? start)%Z with false by (symmetry; apply Z.ltb_ge; lia).
  unfold mbind at 1, ST_bind at 1, bind at 1.
  rewrite guarded_run. unfold result_from, calls_from. fold r1. cbn [app].
  unfold mbind at 1, ST_bind at 1, bind at 1.
  rewrite guarded_run. unfold result_from, calls_from. fold r2.
  unfold mbind at 1, ST_bind at 1, bind at 1.
  subst errors t3. destruct include_activities.
  - unfold mbind at 1, ST_bind at 1, bind at 1.
    rewrite guarded_run. unfold result_from, calls_from. fold r3.
    cbn [mret ST_ret ret].
    unfold mbind at 1, ST_bind at 1, bind at 1.
    rewrite guarded_run. unfold result_from, calls_from. fold r4.
    unfold mbind at 1, ST_bind at 1, bind at 1.
    rewrite summary_value. cbn [mret ST_ret ret].
    by rewrite <- !app_assoc.
  - cbn [mret ST_ret ret].
    unfold mbind at 1, ST_bind at 1, bind at 1.
    rewrite guarded_run. unfold result_from, calls_from. fold r4.
    unfold mbind at 1, ST_bind at 1, bind at 1.
    rewrite summary_value. cbn [mret ST_ret ret].
    by rewrite <- !app_assoc.
Qed.

(** X9.  [plan_trip] rejects a request exactly when a date does not
    parse or the end is before the start, and a rejected request runs no
    fetcher and calls no handler. *)
Theorem plan_trip_rejects_invalid_dates
    (origin_city destination_city start_date end_date : string)
    (travelers : Z) (budget_level : string)
    (trip_type accommodation_type : option string)
    (include_activities : bool)
    (origin_country destination_country : option string)
    (max_results : Z) (t : trace) :
  let run :=
    plan origin_city destination_city start_date end_date travelers
      budget_level trip_type accommodation_type include_activities
      origin_country destination_country max_results in
  ((exists error, result_from run t = Ok (Rejected error))
   <-> ~ valid_dates strptime start_date end_date)
  /\ (forall error,
        result_from run t = Ok (Rejected error) -> calls_from run t = t).
Proof.
  intros run. subst run. unfold result_from, calls_from, valid_dates.
  destruct (strptime start_date) as [start|] eqn:Hstart.
  2: { unfold plan_trip_with. rewrite Hstart. cbn. split; [|done].
       split; [|by eauto]. by intros _ (? & ? & ? & _). }
  destruct (strptime end_date) as [end_|] eqn:Hend.
  2: { unfold plan_trip_with. rewrite Hstart, Hend. cbn. split; [|done].
       split; [|by eauto]. by intros _ (? & ? & _ & ? & _). }
  destruct (Z.le_gt_cases start end_) as [Hle|Hgt].
  - rewrite (plan_trip_run _ _ _ _ _ _ _ _ _ _ _ _ start end_ t Hstart Hend Hle).
    cbn [fst snd]. split; [|done]. split; [by intros (? & ?)|].
    intros H. exfalso. apply H. by exists start, end_.
  - unfold plan_trip_with. rewrite Hstart, Hend.
    replace (end_ <? start)%Z with true by (symmetry; apply Z.ltb_lt; lia).
    cbn. split; [|done]. split; [|by eauto].
    intros _ (s & e & [= <-] & [= <-] & H). lia.
Qed.

(** X10.  On valid dates the summary of the plan never comes from the
    language model.  With an API key configured, [generate_trip_summary]
    is called before the plan holds its metadata: the [KeyError] it
    raises leaves the summary [{"error": "Could not generate summary:
    'metadata'", "headline": ...}].  Without a key the summary is the
    default one.  Either way the calls of the run are those of the four
    fetchers. *)
Theorem summary_never_generated
    (origin_city destination_city start_date end_date : string)
    (travelers : Z) (budget_level : string)
    (trip_type accommodation_type : option string)
    (include_activities : bool)
    (origin_country destination_country : option string)
    (max_results start end_ : Z) (t : trace) :
  strptime start_date = Some start -> strptime end_date = Some end_ ->
  (start <= end_)%Z ->
  exists p,
    result_from
      (plan origin_city destination_city start_date end_date travelers
         budget_level trip_type accommodation_type include_activities
         origin_country destination_country max_results) t
    = Ok (Planned p)
    /\ headline (tp_summary p) = "Trip to " +:+ destination_city
    /\ (truthy_str openai_api_key = true ->
        overview (tp_summary p) = None
        /\ summary_error (tp_summary p)
           = Some "Could not generate summary: 'metadata'")
    /\ (truthy_str openai_api_key = false ->
        tp_summary p
        = default_summary origin_city destination_city (end_ - start)).
Proof.
  intros Hstart Hend Hle. unfold result_from.
  rewrite (plan_trip_run _ _ _ _ _ _ _ _ _ _ _ _ start end_ t Hstart Hend Hle).
  cbn [fst]. eexists. split; [reflexivity|]. cbn [tp_summary].
  destruct (truthy_str openai_api_key); cbn; by repeat split.
Qed.

(** X11.  On valid dates the status of the plan counts its error
    entries: ["success"] without one, ["failed"] with four,
    ["partial"] in between, and [errors] holds one message per error
    entry.  A plan without activities has three categories, so it is
    never ["failed"]. *)
Theorem status_counts_failures
    (origin_city destination_city start_date end_date : string)
    (travelers : Z) (budget_level : string)
    (trip_type accommodation_type : option string)
    (include_activities : bool)
    (origin_country destination_country : option string)
    (max_results start end_ : Z) (t : trace) :
  strptime start_date = Some start -> strptime end_date = Some end_ ->
  (start <= end_)%Z ->
  exists p,
    result_from
      (plan origin_city destination_city start_date end_date travelers
         budget_level trip_type accommodation_type include_activities
         origin_country destination_country max_results) t
    = Ok (Planned p)
    /\ length (md_errors (tp_metadata p)) = failures p
    /\ tp_status p
       = (if (failures p =? 0)%nat then "success"
          else if (failures p <? 4)%nat then "partial" else "failed")
    /\ (include_activities = false -> tp_status p <> "failed").
Proof.
  intros Hstart Hend Hle. unfold result_from.
  rewrite (plan_trip_run _ _ _ _ _ _ _ _ _ _ _ _ start end_ t Hstart Hend Hle).
  cbn [fst]. eexists. split; [reflexivity|].
  cbn [tp_metadata md_errors tp_status]. unfold failures.
  cbn [tp_flights tp_accommodations tp_activities tp_travel_info].
  destruct (fst (fetch_flights _ _ _ _)),
    (fst (fetch_accommodations _ _ _ _ _)),
    (fst (fetch_travel_information _ _ _)), include_activities;
    try destruct (fst (fetch_activities _ _ _));
    cbn; repeat split; done.
Qed.
End Run.

Lemma summary_never_generated_witness :
  exists p,
    result_from
      (plan_trip_with with_failing_travel_info (Some "sk-test") sample_strptime
         (fun _ _ _ => mret {| fo_best_overall := []; fo_by_site := [] |})
         (fun _ _ _ _ => raise "timeout")
         (fun _ _ => mret {| act_best_overall := []; act_by_source := [] |})
         (fun _ _ => raise "connection refused")
         "New York" "Paris" "2025-06-15" "2025-06-22" 2 "moderate"
         None None true None None 3) []
    = Ok (Planned p)
    /\ headline (tp_summary p) = "Trip to Paris"
    /\ (truthy_str (Some "sk-test") = true ->
        overview (tp_summary p) = None
        /\ summary_error (tp_summary p)
           = Some "Could not generate summary: 'metadata'")
    /\ (truthy_str (Some "sk-test") = false ->
        tp_summary p = default_summary "New York" "Paris" (739424 - 739417)).
Proof.
  apply (summary_never_generated with_failing_travel_info (Some "sk-test")
           sample_strptime
           (fun _ _ _ => mret {| fo_best_overall := []; fo_by_site := [] |})
           (fun _ _ _ _ => raise "timeout")
           (fun _ _ => mret {| act_best_overall := []; act_by_source := [] |})
           (fun _ _ => raise "connection refused")
           "New York" "Paris" "2025-06-15" "2025-06-22" 2 "moderate"
           None None true None None 3 739417 739424 []);
    [reflexivity|reflexivity|lia].
Defined.

Lemma status_counts_failures_witness :
  exists p,
    result_from
      (plan_trip_with with_failing_travel_info None sample_strptime
         (fun _ _ _ => mret {| fo_best_overall := []; fo_by_site := [] |})
         (fun _ _ _ _ => raise "timeout")
         (fun _ _ => mret {| act_best_overall := []; act_by_source := [] |})
         (fun _ _ => raise "connection refused")
         "New York" "Paris" "2025-06-15" "2025-06-22" 2 "moderate"
         None None true None None 3) []
    = Ok (Planned p)
    /\ length (md_errors (tp_metadata p)) = failures p
    /\ tp_status p
       = (if (failures p =? 0)%nat then "success"
          else if (failures p <? 4)%nat then "partial" else "failed")
    /\ (true = false -> tp_status p <> "failed").
Proof.
  apply (status_counts_failures with_failing_travel_info None
           sample_strptime
           (fun _ _ _ => mret {| fo_best_overall := []; fo_by_site := [] |})
           (fun _ _ _ _ => raise "timeout")
           (fun _ _ => mret {| act_best_overall := []; act_by_source := [] |})
           (fun _ _ => raise "connection refused")
           "New York" "Paris" "2025-06-15" "2025-06-22" 2 "moderate"
           None None true None None 3 739417 739424 []);
    [reflexivity|reflexivity|lia].
Defined.

End PlanTripMore.

(** *** Slices and dictionaries *)

Module SliceFacts.
Import PyOrder Effects.

Lemma slice_to_prefix {A} n (l : list A) : slice_to n l `prefix_of` l.
Proof. unfold slice_to. destruct (0 <=? n)%Z; apply prefix_take. Qed.

Lemma slice_to_elem {A} n (l : list A) x : x ∈ slice_to n l -> x ∈ l.
Proof. intros H. eapply elem_of_prefix; [done|apply slice_to_prefix]. Qed.

Lemma slice_to_length {A} n (l : list A) :
  (0 <= n)%Z -> (Z.of_nat (length (slice_to n l)) <= n)%Z.
Proof.
  intros Hn. unfold slice_to.
  replace (0 <=? n)%Z with true by (symmetry; apply Z.leb_le; lia).
  rewrite length_take. lia.
Qed.

Lemma slice_to_sorted {A} (R : relation A) n l :
  StronglySorted R l -> StronglySorted R (slice_to n l).
Proof.
  intros H. destruct (slice_to_prefix n l) as [k Hk].
  rewrite Hk in H. by apply StronglySorted_app_1_l in H.
Qed.


End SliceFacts.

(** *** [get_flight_options]: what every run returns *)

Module FlightOptionsFacts.
Import PyStr PyOrder PyOrderFacts Rank RankFacts Dedupe Effects Handlers.
Import TripPlanner TripPlannerFacts SliceFacts.

(** The lists a run stores per site: none is empty, and one of a
    scraper site holds [max_results] flights at most. *)
Local Abbreviation sites_ok max_results results :=
  (forall s (fs : list flight), (s, fs) ∈ results ->
     fs <> [] /\ (s <> "amadeus" -> (Z.of_nat (length fs) <= max_results)%Z)).





(** X2.  With [max_results] not negative, [best_overall] lists
    [max_results] flights at most. *)
Theorem flight_options_bounded b get_airport_code origin destination
    max_results t options :
  (0 <= max_results)%Z ->
  result_from (get_flight_options b get_airport_code origin destination
                 max_results) t = Ok options ->
  (Z.of_nat (length (fo_best_overall options)) <= max_results)%Z.
Proof.
  intros Hmax. unfold get_flight_options, result_from.
  destruct (amadeus_flights_returns b get_airport_code origin destination t)
    as (r1 & t1 & E1).
  destruct (scraped_flights_calls b get_airport_code origin destination
              max_results r1 t1) as (r2 & E2).
  unfold mbind, ST_bind, bind. rewrite E1, E2. cbn.
  intros [= <-]. unfold flight_options_of. destruct (nonempty r2); cbn.
  - by apply slice_to_length.
  - lia.
Qed.

Lemma flight_options_bounded_witness :
  exists options,
    result_from (get_flight_options with_three_offers (fun _ => "XXX")
                   "Paris" "Rome" 3) [] = Ok options
    /\ (Z.of_nat (length (fo_best_overall options)) <= 3)%Z.
Proof.
  eexists. split; [reflexivity|].
  apply (flight_options_bounded with_three_offers (fun _ => "XXX")
           "Paris" "Rome" 3 []); [lia|reflexivity].
Defined.

End FlightOptionsFacts.

(** *** [get_accommodation_options]: the budget filter as a list function *)

Module AccommodationOptionsFacts.
Import PyStr PyOrder Rank Dedupe Effects Handlers TripPlanner OptionSpecs.



(** X4.  The calls of [get_accommodation_options], in every run: the
    city code of the location is asked for first; the Amadeus hotel
    search follows only when that call returned a non-empty code; the
    hotel scrapers are called last, whatever came before. *)
Theorem accommodation_calls b location budget_level accommodation_type
    max_results t :
  calls_from (get_accommodation_options b location budget_level
                accommodation_type max_results) t
  = t ++ [AmadeusGetCityCode location]
      ++ match amadeus_get_city_code b location t with
         | Ok code => if truthy_str code then [AmadeusSearchHotels] else []
         | Raise _ => []
         end
      ++ [HotelScrapers].
Proof.
  unfold get_accommodation_options, amadeus_hotels, scraped_hotels.
  unfold mbind, mret, ST_bind, ST_ret, bind, ret, try_except, invoke,
    calls_from.
  destruct (amadeus_get_city_code b location t) as [code|e]; cbn.
  - destruct (truthy_str code); cbn.
    + destruct (amadeus_search_hotels b code _); cbn;
        destruct (search_hotels_all_sites b location _); cbn;
        by rewrite <- !app_assoc.
    + destruct (search_hotels_all_sites b location _); cbn;
        by rewrite <- !app_assoc.
  - destruct (search_hotels_all_sites b location _); cbn;
      by rewrite <- !app_assoc.
Qed.

End AccommodationOptionsFacts.

(** *** [get_activity_options]: sources, order and size *)

Module ActivityOptionsFacts.
Import PyStr PyOrder PyOrderFacts Rank Dedupe Effects Handlers.
Import TripPlanner TripPlannerFacts SliceFacts OptionSpecs.

(** Opens the equations between pairs that a case analysis leaves. *)
Ltac split_pairs :=
  repeat match goal with
         | H : (_, _) = (_, _) |- _ => injection H as ? ?
         end.

Lemma activity_key_le x y :
  key_le num_ltb activity_sort_key x y ->
  (rating_or_zero y <= rating_or_zero x)%Q.
Proof.
  unfold key_le. intros H%num_ltb_ge. revert H.
  unfold activity_sort_key, rating_or_zero.
  destruct (a_rating x), (a_rating y); lra.
Qed.

Lemma best_activities_descending max_results all_activities i j x y :
  let best :=
    slice_to max_results
      (py_sorted num_ltb activity_sort_key all_activities) in
  (i < j)%nat -> best !! i = Some x -> best !! j = Some y ->
  (rating_or_zero y <= rating_or_zero x)%Q.
Proof.
  intros best Hij Hi Hj. apply activity_key_le.
  eapply (strongly_sorted_lookup _ best i j x y); [|done..].
  apply slice_to_sorted. eapply py_sorted_sorted, num_weak_order.
Qed.

(** X5.  [get_activity_options] returns a dictionary in every run,
    whatever its handlers return or raise, and [best_overall] is in
    descending order of rating, an activity without a numeric rating
    counting as rated 0. *)
Theorem activity_options_descending b location max_results activity_type t :
  exists options,
    result_from (get_activity_options b location max_results activity_type) t
    = Ok options
    /\ forall i j x y,
         (i < j)%nat ->
         act_best_overall options !! i = Some x ->
         act_best_overall options !! j = Some y ->
         (rating_or_zero y <= rating_or_zero x)%Q.
Proof.
  unfold get_activity_options. unfold_monad.
  repeat case_match; split_pairs; try congruence; subst; cbn [fst].
  all: (eexists; split; [reflexivity|]); cbn [act_best_overall].
  all: intros i j x y Hij Hi Hj; try done.
  all: by eapply best_activities_descending.
Qed.

Lemma truncated_entry_key {A} source max_results (items : list A) s l :
  (s, l) ∈ truncated_entry source max_results items -> s = source.
Proof.
  unfold truncated_entry. destruct (nonempty items).
  - intros H%list_elem_of_singleton. by injection H.
  - by intros H%elem_of_nil.
Qed.

(** The calls of a run that are not in the list make a membership
    absurd. *)
Ltac absent_call :=
  let H := fresh in
  intros H; exfalso; revert H; rewrite ?elem_of_app, ?elem_of_cons,
    ?elem_of_nil; intuition discriminate.

Lemma nothing_found {A} (l : list A) : negb (nonempty l) = true -> l = [].
Proof. by destruct l. Qed.

(** Uses the tests that found a source empty. *)
Ltac none_found :=
  repeat match goal with
         | H : _ && _ = true |- _ => apply andb_true_iff in H as [? ?]
         | H : negb (nonempty ?x) = true |- _ =>
             apply nothing_found in H; rewrite ?H in *; clear H
         end.

Ltac scraper_entry :=
  let Hin := fresh in
  intros Hin;
  first [ by apply elem_of_nil in Hin
        | by apply truncated_entry_key in Hin ].

(** X6.  The sources of [get_activity_options] are asked in turn.  The
    search of DuckDuckGo is the first call of every run; Firecrawl is
    called only when that search gave fewer than [max_results]
    activities; the scrapers are called only when neither gave any, so
    that in a run that calls them every list of [by_source] is the one
    of the scrapers. *)
Theorem activity_sources_in_turn b location max_results activity_type t :
  exists options added,
    get_activity_options b location max_results activity_type t
    = (Ok options, t ++ DuckDuckGoActivities :: added)
    /\ (FirecrawlActivities ∈ added ->
        forall found,
          duckduckgo_search_activities b location activity_type t = Ok found ->
          (Z.of_nat (length found) < max_results)%Z)
    /\ (ActivityScrapers ∈ added ->
        forall s l, (s, l) ∈ act_by_source options -> s = "scraper").
Proof.
  unfold get_activity_options. unfold_monad.
  destruct (duckduckgo_search_activities b location activity_type t)
    as [duckduckgo|e]; cbn [length nonempty negb andb].
  - destruct (Z.of_nat (length duckduckgo) <? max_results)%Z eqn:Hfew.
    + apply Z.ltb_lt in Hfew.
      assert (Hfound : forall found : list activity,
                 Ok duckduckgo = Ok found ->
                 (Z.of_nat (length found) < max_results)%Z)
        by (by intros found [= <-]).
      repeat case_match; split_pairs; try congruence; subst;
        rewrite <- ?app_assoc; cbn [app];
        (eexists _, _; split; [reflexivity|]);
        (split; [exact (fun _ => Hfound)|]); try absent_call.
      all: intros _ s l; cbn [act_by_source].
      all: none_found.
      all: cbn [truncated_entry nonempty app]; scraper_entry.
    + repeat case_match; split_pairs; try congruence; subst;
        rewrite <- ?app_assoc; cbn [app];
        (eexists _, _; split; [reflexivity|]);
        (split; [absent_call|]); try absent_call.
      all: intros _ s l; cbn [act_by_source].
      all: none_found.
      all: cbn [truncated_entry nonempty app]; scraper_entry.
  - assert (Hfound : forall found : list activity,
               @Raise (list activity) e = Ok found ->
               (Z.of_nat (length found) < max_results)%Z) by done.
    repeat case_match; split_pairs; try congruence; subst;
      rewrite <- ?app_assoc; cbn [app];
      (eexists _, _; split; [reflexivity|]);
      (split; [exact (fun _ => Hfound)|]); try absent_call.
    all: intros _ s l; cbn [act_by_source].
    all: none_found.
    all: cbn [truncated_entry nonempty app]; scraper_entry.
Qed.

Lemma truncated_entry_length {A} source max_results (items : list A) s l :
  (0 <= max_results)%Z ->
  (s, l) ∈ truncated_entry source max_results items ->
  (Z.of_nat (length l) <= max_results)%Z.
Proof.
  intros Hmax. unfold truncated_entry. destruct (nonempty items).
  - intros H%list_elem_of_singleton. injection H as -> ->.
    by apply slice_to_length.
  - by intros H%elem_of_nil.
Qed.

(** X7.  With [max_results] not negative, [best_overall] and every list
    of [by_source] hold [max_results] activities at most. *)
Theorem activity_options_bounded b location max_results activity_type t
    options :
  (0 <= max_results)%Z ->
  result_from (get_activity_options b location max_results activity_type) t
  = Ok options ->
  (Z.of_nat (length (act_best_overall options)) <= max_results)%Z
  /\ forall s l, (s, l) ∈ act_by_source options ->
       (Z.of_nat (length l) <= max_results)%Z.
Proof.
  intros Hmax. unfold get_activity_options. unfold_monad.
  repeat case_match; split_pairs; try congruence; subst; cbn [fst];
    intros [= <-]; cbn [act_best_overall act_by_source length].
  all: split; [first [lia | by apply slice_to_length]|].
  all: intros s l Hin; rewrite ?elem_of_app in Hin.
  all: repeat match goal with
              | H : _ \/ _ |- _ => destruct H
              | H : _ ∈ truncated_entry _ _ _ |- _ =>
                  by eapply truncated_entry_length in H
              | H : _ ∈ [] |- _ => by apply elem_of_nil in H
              end.
Qed.

(** X8.  When the web search alone finds [max_results] activities or
    more, it is the only source asked and the only one listed:
    [best_overall] is its activities sorted by rating and cut to
    [max_results]. *)
Theorem activities_enough_from_web b location max_results activity_type
    found t :
  duckduckgo_search_activities b location activity_type t = Ok found ->
  (1 <= max_results)%Z -> (max_results <= Z.of_nat (length found))%Z ->
  get_activity_options b location max_results activity_type t
  = (Ok {| act_best_overall :=
             slice_to max_results
               (py_sorted num_ltb activity_sort_key found);
           act_by_source :=
             [("duckduckgo", slice_to max_results found)] |},
     t ++ [DuckDuckGoActivities]).
Proof.
  intros Hfound Hmax Hlen. unfold get_activity_options. unfold_monad.
  rewrite Hfound. cbn [fst snd].
  replace (Z.of_nat (length found) <? max_results)%Z with false
    by (symmetry; apply Z.ltb_ge; lia).
  destruct found as [|a found]; [simpl in Hlen; lia|]. reflexivity.
Qed.

Lemma activities_enough_from_web_witness :
  get_activity_options ActivitySamples.with_activities "Paris" 2 None []
  = (Ok {| act_best_overall :=
             slice_to 2
               (py_sorted num_ltb activity_sort_key
                  [ActivitySamples.seine_cruise; ActivitySamples.louvre]);
           act_by_source :=
             [("duckduckgo",
               slice_to 2
                 [ActivitySamples.seine_cruise; ActivitySamples.louvre])] |},
     [] ++ [DuckDuckGoActivities]).
Proof.
  apply (activities_enough_from_web ActivitySamples.with_activities
           "Paris" 2 None
           [ActivitySamples.seine_cruise; ActivitySamples.louvre] []);
    [reflexivity|lia|simpl; lia].
Defined.

Lemma activity_options_bounded_witness :
  exists options,
    result_from (get_activity_options ActivitySamples.with_activities
                   "Paris" 2 None) [] = Ok options
    /\ (Z.of_nat (length (act_best_overall options)) <= 2)%Z
    /\ forall s l, (s, l) ∈ act_by_source options ->
         (Z.of_nat (length l) <= 2)%Z.
Proof.
  eexists. split; [reflexivity|].
  apply (activity_options_bounded ActivitySamples.with_activities
           "Paris" 2 None []); [lia|reflexivity].
Defined.

End ActivityOptionsFacts.

(** *** The calls of a run *)

Module CallFacts.
Import PyStr PyOrder Rank Dedupe Effects Handlers TripPlanner PlanSpecs.

Section OnlyCalls.
Context (P : call -> Prop).

Lemma only_calls_ret {A} (a : A) : only_calls P (mret a).
Proof. intros t. exists []. by rewrite app_nil_r. Qed.

Lemma only_calls_raise {A} e : only_calls P (@raise trace A e).
Proof. intros t. exists []. by rewrite app_nil_r. Qed.

Lemma only_calls_invoke {A} c (answer : trace -> outcome A) :
  P c -> only_calls P (invoke c answer).
Proof. intros Hc t. exists [c]. split; [done|]. by repeat constructor. Qed.

Lemma only_calls_bind {A B} (m : M A) (k : A -> M B) :
  only_calls P m -> (forall a, only_calls P (k a)) -> only_calls P (m ≫= k).
Proof.
  intros Hm Hk t. unfold calls_from, mbind, ST_bind, bind.
  destruct (Hm t) as (l1 & E1 & F1). unfold calls_from in E1.
  destruct (m t) as [[a|e] t1]; simpl in *.
  - destruct (Hk a t1) as (l2 & E2 & F2). unfold calls_from in E2.
    exists (l1 ++ l2). rewrite E2, E1, app_assoc. split; [done|].
    by apply Forall_app.
  - by exists l1.
Qed.

Lemma only_calls_try {A} (m : M A) handler :
  only_calls P m -> (forall e, only_calls P (handler e)) ->
  only_calls P (try_except m handler).
Proof.
  intros Hm Hh t. unfold calls_from, try_except.
  destruct (Hm t) as (l1 & E1 & F1). unfold calls_from in E1.
  destruct (m t) as [[a|e] t1]; simpl in *.
  - by exists l1.
  - destruct (Hh e t1) as (l2 & E2 & F2). unfold calls_from in E2.
    exists (l1 ++ l2). rewrite E2, E1, app_assoc. split; [done|].
    by apply Forall_app.
Qed.
End OnlyCalls.

(** Breaks a computation down to its calls. *)
Ltac only_calls_steps :=
  repeat first
    [ apply only_calls_ret
    | apply only_calls_raise
    | apply only_calls_invoke; done
    | apply only_calls_bind; [|intros ?]
    | apply only_calls_try; [|intros ?]
    | match goal with
      | |- only_calls _ (if ?c then _ else _) => destruct c
      | |- only_calls _ (let _ := _ in _) => cbv zeta
      | |- only_calls _ (match ?x with (_, _) => _ end) => destruct x
      | |- only_calls _ (match ?x with Some _ => _ | None => _ end) =>
          destruct x
      end ].

Section Fetchers.
Context (b : backends) (get_airport_code : string -> string).

Lemma flight_options_calls origin destination max_results :
  only_calls (fun c => c <> OpenAIChat)
    (get_flight_options b get_airport_code origin destination max_results).
Proof.
  unfold get_flight_options, amadeus_flights, scraped_flights.
  only_calls_steps.
Qed.

Lemma accommodation_options_calls location budget_level accommodation_type
    max_results :
  only_calls (fun c => c <> OpenAIChat)
    (get_accommodation_options b location budget_level accommodation_type
       max_results).
Proof.
  unfold get_accommodation_options, amadeus_hotels, scraped_hotels.
  only_calls_steps.
Qed.

Lemma activity_options_calls location max_results activity_type :
  only_calls (fun c => c <> OpenAIChat)
    (get_activity_options b location max_results activity_type).
Proof. unfold get_activity_options. only_calls_steps. Qed.

Lemma travel_information_calls origin_country destination_country :
  only_calls (fun c => c <> OpenAIChat)
    (get_travel_information b origin_country destination_country).
Proof. unfold get_travel_information. only_calls_steps. Qed.
End Fetchers.

Section Plan.
Context (b : backends) (openai_api_key : option string).
Context (strptime : string -> option Z).
Context (fetch_flights : string -> string -> Z -> M flight_options).
Context (fetch_accommodations :
           string -> string -> option string -> Z -> M accommodation_options).
Context (fetch_activities : string -> Z -> M activity_options).
Context (fetch_travel_information :
           option string -> string -> M travel_information).
Context (P : call -> Prop).
Context (Hflights : forall o d n, only_calls P (fetch_flights o d n)).
Context (Haccommodations :
           forall l bl a n, only_calls P (fetch_accommodations l bl a n)).
Context (Hactivities : forall l n, only_calls P (fetch_activities l n)).
Context (Hinformation :
           forall o d, only_calls P (fetch_travel_information o d)).

(** [plan_trip] makes the calls of its fetchers and no other: the
    summary step never gets as far as the request to the model. *)
Lemma plan_trip_with_calls
    origin_city destination_city start_date end_date travelers budget_level
    trip_type accommodation_type (include_activities : bool)
    origin_country destination_country max_results :
  only_calls P
    (plan_trip_with b openai_api_key strptime fetch_flights
       fetch_accommodations fetch_activities fetch_travel_information
       origin_city destination_city start_date end_date travelers
       budget_level trip_type accommodation_type include_activities
       origin_country destination_country max_results).
Proof.
  unfold plan_trip_with, guarded, generate_trip_summary.
  destruct (strptime start_date); [|apply only_calls_ret].
  destruct (strptime end_date); [|apply only_calls_ret].
  only_calls_steps; auto.
Qed.
End Plan.

End CallFacts.

(** *** [plan_trip] and [llm_trip_planner_tool] with the fetchers of the
    module *)

Module ToolFacts.
Import PyStr PyOrder Rank Dedupe Effects Handlers TripPlanner PlanSpecs.
Import CallFacts PlanTripMore.

Section Tool.
Context (b : backends) (get_airport_code : string -> string).
Context (openai_api_key : option string) (strptime : string -> option Z).

(** X12.  No run of [plan_trip] gets to the chat completion request of
    [generate_trip_summary], with or without an API key: every call of
    a run is a call of one of the four fetchers. *)
Theorem plan_trip_never_requests_summary
    origin_city destination_city start_date end_date travelers budget_level
    trip_type accommodation_type (include_activities : bool)
    origin_country destination_country max_results t :
  exists added,
    calls_from
      (plan_trip b get_airport_code openai_api_key strptime
         origin_city destination_city start_date end_date travelers
         budget_level trip_type accommodation_type include_activities
         origin_country destination_country max_results) t
    = t ++ added
    /\ Forall (fun c => c <> OpenAIChat) added.
Proof.
  apply plan_trip_with_calls; intros.
  - apply flight_options_calls.
  - apply accommodation_options_calls.
  - apply activity_options_calls.
  - apply travel_information_calls.
Qed.

(** X13.  [llm_trip_planner_tool] answers with its missing-parameters
    error exactly when one of the origin city, the destination city, the
    start date and the end date is absent, [None] or empty, and then it
    calls no handler. *)
Theorem tool_missing_parameters (p : params) t :
  let run := llm_trip_planner_tool b get_airport_code openai_api_key
               strptime p in
  let missing :=
    "Missing required parameters. Must provide origin_city, destination_city, start_date, and end_date." in
  (result_from run t = Ok (Rejected missing)
   <-> truthy_str (p_origin_city p) && truthy_str (p_destination_city p)
       && truthy_str (p_start_date p) && truthy_str (p_end_date p) = false)
  /\ (result_from run t = Ok (Rejected missing) -> calls_from run t = t).
Proof.
  intros run missing. subst run missing.
  unfold llm_trip_planner_tool.
  destruct (truthy_str (p_origin_city p) && truthy_str (p_destination_city p)
            && truthy_str (p_start_date p) && truthy_str (p_end_date p)).
  2: { by split. }
  unfold plan_trip, result_from.
  set (start_date := default EmptyString (p_start_date p)).
  set (end_date := default EmptyString (p_end_date p)).
  assert (forall r,
    fst (plan_trip_with b openai_api_key strptime
           (get_flight_options b get_airport_code)
           (get_accommodation_options b)
           (fun location max_results =>
              get_activity_options b location max_results None)
           (get_travel_information b)
           (default EmptyString (p_origin_city p))
           (default EmptyString (p_destination_city p))
           start_date end_date (default 2%Z (p_travelers p))
           (default "moderate" (p_budget_level p)) (p_trip_type p)
           (p_accommodation_type p) (default true (p_include_activities p))
           (Some (default "United States" (p_origin_country p)))
           (p_destination_country p) 3 t)
    = Ok (Rejected r) ->
    r = "End date must be after start date"
    \/ r = "Invalid date format. Please use YYYY-MM-DD") as Hother.
  { intros r. unfold plan_trip_with at 1.
    destruct (strptime start_date) as [start|] eqn:Hstart;
      [|cbn; intros [= <-]; by right].
    destruct (strptime end_date) as [end_|] eqn:Hend;
      [|cbn; intros [= <-]; by right].
    destruct (end_ <? start)%Z eqn:Hlt; [cbn; intros [= <-]; by left|].
    apply Z.ltb_ge in Hlt. fold (plan_trip_with b openai_api_key strptime).
    intros Hr. exfalso. revert Hr.
    pose proof (plan_trip_run b openai_api_key strptime
      (get_flight_options b get_airport_code)
      (get_accommodation_options b)
      (fun location max_results =>
         get_activity_options b location max_results None)
      (get_travel_information b)
      (default EmptyString (p_origin_city p))
      (default EmptyString (p_destination_city p))
      start_date end_date (default 2%Z (p_travelers p))
      (default "moderate" (p_budget_level p)) (p_trip_type p)
      (p_accommodation_type p) (default true (p_include_activities p))
      (Some (default "United States" (p_origin_country p)))
      (p_destination_country p) 3 start end_ t Hstart Hend Hlt) as Hrun.
    cbv zeta in Hrun. unfold plan_trip_with in Hrun.
    rewrite Hstart, Hend in Hrun.
    replace (end_ <? start)%Z with false in Hrun
      by (symmetry; apply Z.ltb_ge; lia).
    rewrite Hrun. cbn [fst]. done. }
  split.
  - split; [|done]. intros H. by destruct (Hother _ H).
  - intros H. by destruct (Hother _ H).
Qed.
End Tool.

End ToolFacts.

(** *** The result of [AmadeusTripPlannerTool.plan_trip] *)

Module PlannerResultFacts.
Import PyStr Rank Dedupe Effects Handlers TripPlanner AmadeusPlanner.
Import AmadeusPlannerFacts PlannerSpecs.

Section Keeps.
Context (R : relation planner_state) `{!PreOrder R}.
Context (Hcall : forall s c,
           R s {| calls := calls s ++ [c]; res := res s |}).

Lemma keeps_ret {A} (a : A) : keeps R (mret a).
Proof. intros s. reflexivity. Qed.

Lemma keeps_get : keeps R get_result.
Proof. intros s. reflexivity. Qed.

Lemma keeps_call {A} c (answer : trace -> outcome A) :
  keeps R (call c answer).
Proof. intros s. apply Hcall. Qed.

Lemma keeps_bind {A B} (m : ST planner_state A)
    (k : A -> ST planner_state B) :
  keeps R m -> (forall a, keeps R (k a)) -> keeps R (m ≫= k).
Proof.
  intros Hm Hk s. unfold mbind, ST_bind, bind.
  pose proof (Hm s) as H1. destruct (m s) as [[a|e] s1]; simpl in *; [|done].
  by etransitivity; [|apply Hk].
Qed.

Lemma keeps_try {A} (m : ST planner_state A) handler :
  keeps R m -> (forall e, keeps R (handler e)) ->
  keeps R (try_except m handler).
Proof.
  intros Hm Hh s. unfold try_except.
  pose proof (Hm s) as H1. destruct (m s) as [[a|e] s1]; simpl in *; [done|].
  by etransitivity; [|apply Hh].
Qed.

Lemma keeps_when c m : keeps R m -> keeps R (when c m).
Proof. intros Hm. destruct c; [done|apply keeps_ret]. Qed.
End Keeps.

#[local] Instance request_kept_preorder : PreOrder request_kept.
Proof.
  split.
  - by intros s.
  - intros s1 s2 s3 (E1 & E2 & E3 & P1) (F1 & F2 & F3 & P2).
    unfold request_kept. rewrite F1, F2, F3. repeat split; try done.
    by etransitivity.
Qed.

#[local] Instance flights_kept_preorder : PreOrder flights_kept.
Proof.
  split; [by intros s|].
  intros s1 s2 s3 E1 E2. unfold flights_kept in *. congruence.
Qed.

#[local] Instance hotels_kept_preorder : PreOrder hotels_kept.
Proof.
  split; [by intros s|].
  intros s1 s2 s3 E1 E2. unfold hotels_kept in *. congruence.
Qed.

Lemma keeps_update (R : relation planner_state) f :
  (forall s, R s {| calls := calls s; res := f (res s) |}) ->
  keeps R (update f).
Proof. intros Hf s. apply Hf. Qed.

(** The side conditions: a call or an update leaves the fields alone. *)
Ltac kept_fields :=
  solve [ intros; hnf; cbn; repeat split;
          first [done | by apply prefix_app_r] ].

(** Breaks a computation of the planner down to its steps. *)
Ltac keeps_steps :=
  unfold suggest, set_flights, set_hotels, set_activities;
  repeat first
    [ apply keeps_ret; apply _
    | apply keeps_get; apply _
    | apply keeps_call; kept_fields
    | apply keeps_update; kept_fields
    | apply keeps_when; [apply _|]
    | apply keeps_bind; [apply _| |intros ?]
    | apply keeps_try; [apply _| |intros ?]
    | match goal with
      | |- keeps _ (if ?c then _ else _) => destruct c
      | |- keeps _ (let _ := _ in _) => cbv zeta
      end ].

(** Opens the equations between pairs that a case analysis leaves. *)
Ltac split_pairs :=
  repeat match goal with
         | H : (_, _) = (_, _) |- _ => injection H as ? ?
         end.

(** A list found non-empty is not the empty list. *)
Ltac destruct_nonempty :=
  match goal with
  | H : nonempty ?l = true |- ?l <> [] => by destruct l
  | H : nonempty ?l = true |- map _ ?l <> [] => by destruct l
  end.

Section Parts.
Context (b : backends).
Context (extract_trip_details : string -> trip_details).
Context (default_code : string -> option string).
Context (activity_type_of : string -> option string).
Context (mentions_food : string -> bool).

Local Abbreviation run_plan :=
  (AmadeusPlanner.plan_trip b extract_trip_details default_code
     activity_type_of mentions_food).

Lemma flight_part_request origin destination :
  keeps request_kept (flight_part b default_code origin destination).
Proof. unfold flight_part, airport_code. keeps_steps. Qed.

Lemma hotel_part_request destination :
  keeps request_kept (hotel_part b default_code destination).
Proof. unfold hotel_part. keeps_steps. Qed.

Lemma activity_part_request query destination :
  keeps request_kept
    (activity_part b activity_type_of mentions_food query destination).
Proof. unfold activity_part. keeps_steps. Qed.

Lemma hotel_part_flights destination :
  keeps flights_kept (hotel_part b default_code destination).
Proof. unfold hotel_part. keeps_steps. Qed.

Lemma activity_part_flights query destination :
  keeps flights_kept
    (activity_part b activity_type_of mentions_food query destination).
Proof. unfold activity_part. keeps_steps. Qed.

Lemma activity_part_hotels query destination :
  keeps hotels_kept
    (activity_part b activity_type_of mentions_food query destination).
Proof. unfold activity_part. keeps_steps. Qed.

(** Unfolds a part of the planner down to the answers of the handlers. *)
Ltac unfold_part :=
  unfold flight_part, hotel_part, activity_part, airport_code, suggest,
    set_flights, set_hotels, set_activities, update, call, when, get_result,
    try_except, mbind, mret, ST_bind, ST_ret, bind, ret.

(** A text appended to the suggestions is among them. *)
Ltac text_suggested :=
  eexists; split;
  [ | cbn [res suggestions]; rewrite ?elem_of_app;
      first [ right; apply list_elem_of_singleton; reflexivity
            | left; right; apply list_elem_of_singleton; reflexivity ] ];
  unfold flight_texts, hotel_texts, activity_texts, no_hotels_text;
  rewrite ?elem_of_cons; auto.

Lemma flight_part_leaves origin destination s :
  let r := res (snd (flight_part b default_code origin destination s)) in
  flights r <> [] \/ suggested (flight_texts origin destination) r.
Proof.
  unfold_part. cbn [calls res].
  repeat case_match; split_pairs; try congruence; subst; cbn [snd res flights];
    solve [ left; by destruct_nonempty | right; text_suggested ].
Qed.

Lemma hotel_part_leaves destination s :
  let r := res (snd (hotel_part b default_code destination s)) in
  hotels r <> [] \/ suggested (hotel_texts destination) r.
Proof.
  unfold_part. cbn [calls res].
  repeat (case_match; cbn [snd fst res hotels calls] in *);
    split_pairs; try congruence; subst; cbn [snd res hotels] in *;
    solve [ left; by destruct_nonempty
          | left; by destruct (hotels (res s))
          | right; text_suggested ].
Qed.

Lemma activity_part_leaves query destination s :
  let r := res (snd (activity_part b activity_type_of mentions_food query
                       destination s)) in
  activities r <> [] \/ suggested (activity_texts destination) r.
Proof.
  unfold_part. cbn [calls res].
  repeat (case_match; cbn [snd fst res activities calls] in *);
    split_pairs; try congruence; subst; cbn [snd res activities] in *;
    solve [ left; by destruct_nonempty | right; text_suggested ].
Qed.

(** A part of the planner returns, its handler being a suggestion. *)
Lemma part_returns (m : ST planner_state unit) text s :
  fst (try_except m (fun _ => suggest text) s) = Ok tt.
Proof. unfold try_except. by destruct (m s) as [[[]|e] s1]. Qed.

(** The run of [plan_trip] on a query with a destination, part by part. *)
Lemma plan_trip_parts query t :
  truthy_str (destination_city (extract_trip_details query)) = true ->
  let trip_details := extract_trip_details query in
  let origin := origin_city trip_details in
  let destination := default EmptyString (destination_city trip_details) in
  let s0 :=
    {| calls := t;
       res := {| status := "success"; query := query;
                 details := trip_details; flights := []; hotels := [];
                 activities := []; suggestions := [] |} |} in
  let s1 :=
    if truthy_str origin
    then snd (flight_part b default_code (default EmptyString origin)
                destination s0)
    else s0 in
  let s2 := snd (hotel_part b default_code destination s1) in
  let s3 := snd (activity_part b activity_type_of mentions_food query
                   destination s2) in
  run_plan query t = (Ok (ToolResult (res s3)), calls s3).
Proof.
  intros Hdest trip_details origin destination s0 s1 s2 s3.
  unfold AmadeusPlanner.plan_trip. rewrite Hdest.
  cbn [negb]. cbv zeta. fold trip_details origin destination s0.
  unfold mbind at 1, ST_bind at 1, bind at 1.
  assert (when (truthy_str origin)
            (flight_part b default_code (default EmptyString origin)
               destination) s0 = (Ok tt, s1)) as ->.
  { subst s1. unfold when. destruct (truthy_str origin); [|done].
    assert (fst (flight_part b default_code (default EmptyString origin)
                   destination s0) = Ok tt) as Hok
      by (unfold flight_part; apply part_returns).
    by destruct (flight_part _ _ _ _ s0) as [o s']; simpl in *; subst. }
  unfold mbind at 1, ST_bind at 1, bind at 1.
  assert (fst (hotel_part b default_code destination s1) = Ok tt) as Hh
    by (unfold hotel_part; apply part_returns).
  assert (fst (activity_part b activity_type_of mentions_food query
                 destination s2) = Ok tt) as Ha
    by (unfold activity_part; apply part_returns).
  subst s3 s2.
  destruct (hotel_part b default_code destination s1) as [o2 s2];
    simpl in *; subst o2.
  by destruct (activity_part _ _ _ _ _ s2) as [o3 s3]; simpl in *; subst o3.
Qed.

Lemma when_flight_part_request (c : bool) origin destination s :
  request_kept s
    (if c then snd (flight_part b default_code origin destination s) else s).
Proof. destruct c; [apply flight_part_request|reflexivity]. Qed.

(** X14.  For a query with a destination, [plan_trip] absorbs whatever
    the handlers raise: the result it assembles has the status
    ["success"], and echoes the query and the details extracted from
    it. *)
Theorem planner_result_answers_request query t :
  truthy_str (destination_city (extract_trip_details query)) = true ->
  exists r,
    result_from (run_plan query) t = Ok (ToolResult r)
    /\ status r = "success"
    /\ AmadeusPlanner.query r = query
    /\ details r = extract_trip_details query.
Proof.
  intros Hdest. unfold result_from.
  rewrite (plan_trip_parts query t Hdest). cbn [fst].
  eexists. split; [reflexivity|].
  match goal with
  | |- context [res (snd (activity_part _ _ _ _ _ ?s2))] =>
      pose proof (activity_part_request query
        (default EmptyString (destination_city (extract_trip_details query)))
        s2) as (E1 & E2 & E3 & _);
      match s2 with
      | snd (hotel_part _ _ _ ?s1) =>
          pose proof (hotel_part_request
            (default EmptyString
               (destination_city (extract_trip_details query))) s1)
            as (F1 & F2 & F3 & _);
          match s1 with
          | if _ then snd (flight_part _ _ ?o ?d ?s0) else _ =>
              pose proof (when_flight_part_request
                (truthy_str (origin_city (extract_trip_details query)))
                o d s0) as (G1 & G2 & G3 & _)
          end
      end
  end.
  rewrite E1, F1, G1, E2, F2, G2, E3, F3, G3. done.
Qed.

(** X15.  A category left empty is explained.  In the result of a query
    with a destination, an empty list of hotels comes with one of the
    two hotel texts among the suggestions, an empty list of activities
    with one of the two activity texts, and, when the query names an
    origin, an empty list of flights with one of the three flight
    texts. *)
Theorem empty_results_are_explained query t :
  truthy_str (destination_city (extract_trip_details query)) = true ->
  let origin := origin_city (extract_trip_details query) in
  let destination :=
    default EmptyString (destination_city (extract_trip_details query)) in
  exists r,
    result_from (run_plan query) t = Ok (ToolResult r)
    /\ (truthy_str origin = true -> flights r = [] ->
        suggested (flight_texts (default EmptyString origin) destination) r)
    /\ (hotels r = [] -> suggested (hotel_texts destination) r)
    /\ (activities r = [] -> suggested (activity_texts destination) r).
Proof.
  intros Hdest origin destination. unfold result_from.
  rewrite (plan_trip_parts query t Hdest). cbn [fst]. fold origin destination.
  set (s0 := {| calls := t; res := _ |}).
  set (s1 := if truthy_str origin then _ else s0).
  set (s2 := snd (hotel_part b default_code destination s1)).
  set (s3 := snd (activity_part b activity_type_of mentions_food query
                    destination s2)).
  eexists. split; [reflexivity|].
  pose proof (hotel_part_request destination s1) as (_ & _ & _ & P12).
  pose proof (activity_part_request query destination s2) as (_ & _ & _ & P23).
  pose proof (hotel_part_flights destination s1) as Hf12.
  pose proof (activity_part_flights query destination s2) as Hf23.
  pose proof (activity_part_hotels query destination s2) as Hh23.
  fold s2 in P12, Hf12. fold s3 in P23, Hf23, Hh23.
  unfold flights_kept in *. unfold hotels_kept in *.
  split; [|split].
  - intros Horigin Hnone. subst s1. rewrite Horigin in *.
    destruct (flight_part_leaves (default EmptyString origin) destination s0)
      as [Hsome|(text & Hin & Hs)].
    + rewrite Hf23, Hf12 in Hnone. by destruct Hsome.
    + exists text. split; [done|].
      eapply elem_of_prefix; [|exact P23].
      eapply elem_of_prefix; [|exact P12]. done.
  - intros Hnone.
    destruct (hotel_part_leaves destination s1) as [Hsome|(text & Hin & Hs)].
    + rewrite Hh23 in Hnone. by destruct Hsome.
    + exists text. split; [done|].
      eapply elem_of_prefix; [|exact P23]. done.
  - intros Hnone.
    destruct (activity_part_leaves query destination s2)
      as [Hsome|(text & Hin & Hs)]; [by destruct Hsome|].
    by exists text.
Qed.

(** The calls of the parts, from the run part by part. *)
Lemma plan_trip_adds (P : Effects.call -> Prop) query t :
  truthy_str (destination_city (extract_trip_details query)) = true ->
  let origin := origin_city (extract_trip_details query) in
  let destination :=
    default EmptyString (destination_city (extract_trip_details query)) in
  (truthy_str origin = true ->
   adds_only P (flight_part b default_code (default EmptyString origin)
                  destination)) ->
  (forall s, exists added,
      calls (snd (hotel_part b default_code destination s))
      = calls s ++ added /\ Forall P added) ->
  adds_only P (activity_part b activity_type_of mentions_food query
                 destination) ->
  exists added,
    calls_from (run_plan query) t = t ++ added /\ Forall P added.
Proof.
  intros Hdest origin destination Hf Hh Ha. unfold calls_from.
  rewrite (plan_trip_parts query t Hdest). cbn [snd]. fold origin destination.
  set (s0 := {| calls := t; res := _ |}).
  set (s1 := if truthy_str origin then _ else s0).
  assert (exists l1, calls s1 = t ++ l1 /\ Forall P l1) as (l1 & E1 & F1).
  { subst s1. destruct (truthy_str origin).
    - by destruct (Hf eq_refl s0) as (l & E & F); exists l.
    - exists []. by rewrite app_nil_r. }
  destruct (Hh s1) as (l2 & E2 & F2).
  destruct (Ha (snd (hotel_part b default_code destination s1)))
    as (l3 & E3 & F3).
  exists (l1 ++ l2 ++ l3). rewrite E3, E2, E1, <- !app_assoc.
  split; [done|]. by repeat apply Forall_app_2.
Qed.

Lemma hotel_part_without_fallback destination s :
  duckduckgo_search_hotels b destination (calls s) <> Ok [] ->
  exists added,
    calls (snd (hotel_part b default_code destination s))
    = calls s ++ added
    /\ Forall (fun c => c <> AmadeusSearchHotels) added.
Proof.
  intros Hweb. unfold_part. cbn [calls res].
  destruct (duckduckgo_search_hotels b destination (calls s))
    as [[|h web]|e]; [done|..]; cbn;
    (exists [DuckDuckGoHotels]; split; [done|by repeat constructor]).
Qed.

(** X16.  The Amadeus hotel search is a fallback only: when the web
    search for hotels returns hotels or raises, no run of [plan_trip]
    calls it. *)
Theorem amadeus_hotels_only_as_fallback query t :
  truthy_str (destination_city (extract_trip_details query)) = true ->
  (forall t',
     duckduckgo_search_hotels b
       (default EmptyString (destination_city (extract_trip_details query)))
       t' <> Ok []) ->
  exists added,
    calls_from (run_plan query) t = t ++ added
    /\ Forall (fun c => c <> AmadeusSearchHotels) added.
Proof.
  intros Hdest Hweb. apply plan_trip_adds; [done|..].
  - intros _. apply flight_part_no_hotel_search.
  - intros s. apply hotel_part_without_fallback, Hweb.
  - apply activity_part_no_hotel_search.
Qed.

(** X17.  A query without an origin gets no flight search: the result
    lists no flight and no run calls the Amadeus flight search. *)
Theorem no_origin_no_flight_search query t :
  truthy_str (destination_city (extract_trip_details query)) = true ->
  truthy_str (origin_city (extract_trip_details query)) = false ->
  exists r added,
    run_plan query t = (Ok (ToolResult r), t ++ added)
    /\ flights r = []
    /\ Forall (fun c => c <> AmadeusSearchFlights) added.
Proof.
  intros Hdest Horigin.
  destruct (plan_trip_adds (fun c => c <> AmadeusSearchFlights) query t Hdest)
    as (added & E & F).
  - rewrite Horigin. done.
  - intros s. unfold hotel_part, suggest, set_hotels. adds_only_steps.
  - unfold activity_part, suggest, set_activities. adds_only_steps.
  - unfold calls_from in E. rewrite (plan_trip_parts query t Hdest) in E |- *.
    cbn [snd] in E. rewrite Horigin in E |- *.
    eexists _, added. rewrite E. split; [reflexivity|]. split; [|done].
    match goal with
    | |- flights (res (snd (activity_part _ _ _ _ ?d ?s2))) = [] =>
        rewrite (activity_part_flights query d s2);
        match s2 with
        | snd (hotel_part _ _ _ ?s1) =>
            rewrite (hotel_part_flights d s1)
        end
    end.
    reflexivity.
Qed.

(** X18.  When the web search finds hotels, they are the hotels of the
    result, in the order found. *)
Theorem web_hotels_are_the_result query web_hotels t :
  truthy_str (destination_city (extract_trip_details query)) = true ->
  (forall t',
     duckduckgo_search_hotels b
       (default EmptyString (destination_city (extract_trip_details query)))
       t' = Ok web_hotels) ->
  web_hotels <> [] ->
  exists r,
    result_from (run_plan query) t = Ok (ToolResult r)
    /\ hotels r = map WebHotel web_hotels.
Proof.
  intros Hdest Hweb Hsome. unfold result_from.
  rewrite (plan_trip_parts query t Hdest). cbn [fst].
  eexists. split; [reflexivity|].
  match goal with
  | |- hotels (res (snd (activity_part _ _ _ _ ?d ?s2))) = _ =>
      rewrite (activity_part_hotels query d s2);
      match s2 with
      | snd (hotel_part _ _ _ ?s1) =>
          destruct (hotel_part_web_only b default_code d web_hotels s1)
            as (r & -> & Hr); [apply Hweb|by destruct web_hotels|]
      end
  end.
  done.
Qed.
End Parts.

Lemma planner_result_answers_request_witness :
  exists r,
    result_from
      (AmadeusPlanner.plan_trip with_web_hotels (fun _ => paris_details)
         (fun _ => None) (fun _ => None) (fun _ => false)
         "Plan a trip from New York to Paris") []
    = Ok (ToolResult r)
    /\ status r = "success"
    /\ AmadeusPlanner.query r = "Plan a trip from New York to Paris"
    /\ details r = paris_details.
Proof.
  apply (planner_result_answers_request with_web_hotels
           (fun _ => paris_details) (fun _ => None) (fun _ => None)
           (fun _ => false) "Plan a trip from New York to Paris" []).
  reflexivity.
Defined.

Lemma empty_results_are_explained_witness :
  exists r,
    result_from
      (AmadeusPlanner.plan_trip silent (fun _ => paris_details)
         (fun _ => None) (fun _ => None) (fun _ => false)
         "Plan a trip from New York to Paris") []
    = Ok (ToolResult r)
    /\ (truthy_str (Some "New York") = true -> flights r = [] ->
        suggested (flight_texts "New York" "Paris") r)
    /\ (hotels r = [] -> suggested (hotel_texts "Paris") r)
    /\ (activities r = [] -> suggested (activity_texts "Paris") r).
Proof.
  apply (empty_results_are_explained silent (fun _ => paris_details)
           (fun _ => None) (fun _ => None) (fun _ => false)
           "Plan a trip from New York to Paris" []).
  reflexivity.
Defined.

Lemma amadeus_hotels_only_as_fallback_witness :
  exists added,
    calls_from
      (AmadeusPlanner.plan_trip with_web_hotels (fun _ => paris_details)
         (fun _ => None) (fun _ => None) (fun _ => false)
         "Plan a trip from New York to Paris") []
    = [] ++ added
    /\ Forall (fun c => c <> AmadeusSearchHotels) added.
Proof.
  apply (amadeus_hotels_only_as_fallback with_web_hotels
           (fun _ => paris_details) (fun _ => None) (fun _ => None)
           (fun _ => false) "Plan a trip from New York to Paris" []);
    [reflexivity|discriminate].
Defined.

Lemma no_origin_no_flight_search_witness :
  exists r added,
    AmadeusPlanner.plan_trip with_web_hotels
      (fun _ => {| origin_city := None; destination_city := Some "Paris";
                   departure_date := None; return_date := None;
                   travelers := 1; budget_level := "moderate";
                   accommodation_type := None; flight_class := "economy" |})
      (fun _ => None) (fun _ => None) (fun _ => false)
      "Hotels in Paris" []
    = (Ok (ToolResult r), [] ++ added)
    /\ flights r = []
    /\ Forall (fun c => c <> AmadeusSearchFlights) added.
Proof.
  apply (no_origin_no_flight_search with_web_hotels
           (fun _ => {| origin_city := None; destination_city := Some "Paris";
                        departure_date := None; return_date := None;
                        travelers := 1; budget_level := "moderate";
                        accommodation_type := None;
                        flight_class := "economy" |})
           (fun _ => None) (fun _ => None) (fun _ => false)
           "Hotels in Paris" []); reflexivity.
Defined.

Lemma web_hotels_are_the_result_witness :
  exists r,
    result_from
      (AmadeusPlanner.plan_trip with_web_hotels (fun _ => paris_details)
         (fun _ => None) (fun _ => None) (fun _ => false)
         "Plan a trip from New York to Paris") []
    = Ok (ToolResult r)
    /\ hotels r = map WebHotel five_web_hotels.
Proof.
  apply (web_hotels_are_the_result with_web_hotels (fun _ => paris_details)
           (fun _ => None) (fun _ => None) (fun _ => false)
           "Plan a trip from New York to Paris" five_web_hotels []);
    [reflexivity|reflexivity|discriminate].
Defined.

End PlannerResultFacts.

(** *** [amadeus_api_handler.py]: sizes, attempts and waits *)

Module AmadeusWaitFacts.
Import PyStr PyOrder Rank AmadeusAPI SliceFacts.

Section Loops.
Context {Offer HotelOffer : Type} (self : handler).
Context (parse_flights : list Offer -> list flight).
Context (flight_api : nat -> api_result (list Offer)).
Context (parse_hotel : HotelOffer -> option hotel).
Context (city_api : nat -> api_result (list (option string))).
Context (offers_api : nat -> string -> api_result HotelOffer).

Local Abbreviation flights_loop :=
  (search_flights_loop self parse_flights flight_api).
Local Abbreviation hotels_loop :=
  (search_hotels_loop self parse_hotel city_api offers_api).

(** The availability loop stops at [max_results] hotels. *)
Lemma check_availability_length attempt max_results ids : forall hotels,
  (Z.of_nat (length (check_availability parse_hotel offers_api attempt
                       max_results ids hotels))
   <= Z.max (Z.of_nat (length hotels)) max_results)%Z.
Proof.
  induction ids as [|hotel_id rest IH]; intros hotels;
    cbn [check_availability]; [lia|].
  destruct (max_results <=? Z.of_nat (length hotels))%Z eqn:Hfull; [lia|].
  apply Z.leb_gt in Hfull.
  destruct (offers_api attempt hotel_id) as [data| | |];
    try (etransitivity; [apply IH|lia]).
  destruct (parse_hotel data);
    (etransitivity; [apply IH|]); rewrite ?length_app; cbn [length]; lia.
Qed.

Lemma search_hotels_loop_length max_results retries made sleeps items :
  (0 <= max_results)%Z ->
  value (hotels_loop max_results retries made sleeps) = PyList items ->
  (Z.of_nat (length items) <= max_results)%Z.
Proof.
  intros Hmax.
  funelim (search_hotels_loop self parse_hotel city_api offers_api
             max_results retries made sleeps);
    cbn [value]; try (intros [= <-]; cbn [length]; lia); try done.
  - intros [= <-].
    match goal with
    | Hids : hotel_ids _ _ = ?ids |- _ =>
        pose proof (check_availability_length made max_results ids [])
          as Hlen
    end.
    eapply Z.le_trans; [exact Hlen|cbn [length]; lia].
  - by apply H.
Qed.

(** The waits of the flight loop: one per turn that goes round, the
    fixed delay or the doubled one of that turn. *)
Lemma search_flights_loop_waits retries made sleeps :
  exists extra,
    slept (flights_loop retries made sleeps) = sleeps ++ extra
    /\ length extra <= max_retries self - retries
    /\ forall i d, extra !! i = Some d ->
         d = retry_delay self
         \/ d = (rate_limit_delay self * 2 ^ Z.of_nat (retries + i + 1))%Z.
Proof.
  funelim (search_flights_loop self parse_flights flight_api retries made
             sleeps);
    try (exists []; rewrite app_nil_r; cbn [slept length];
         split; [done|]; split; [lia|done]).
  - destruct H as (extra & E & L & D).
    eexists (_ :: extra). rewrite E, <- app_assoc. cbn [app].
    split; [reflexivity|]. cbn [length]. split; [lia|].
    intros [|i] d; cbn.
    + intros [= <-]. right. do 2 f_equal. lia.
    + intros Hd. destruct (D i d Hd) as [-> | ->]; [by left|right].
      do 2 f_equal. lia.
  - destruct H as (extra & E & L & D).
    eexists (_ :: extra). rewrite E, <- app_assoc. cbn [app].
    split; [reflexivity|]. cbn [length]. split; [lia|].
    intros [|i] d; cbn.
    + intros [= <-]. by left.
    + intros Hd. destruct (D i d Hd) as [-> | ->]; [by left|right].
      do 2 f_equal. lia.
Qed.

(** The hotel loop waits the fixed delay, once per attempt but the
    last. *)
Lemma search_hotels_loop_waits max_results retries made sleeps :
  retries < max_retries self ->
  let r := hotels_loop max_results retries made sleeps in
  S made <= attempts r
  /\ slept r = sleeps ++ replicate (attempts r - S made) (retry_delay self).
Proof.
  intros Hroom.
  funelim (search_hotels_loop self parse_hotel city_api offers_api
             max_results retries made sleeps);
    cbn zeta; cbn [attempts slept]; try lia;
    try (rewrite Nat.sub_diag; cbn [replicate]; rewrite app_nil_r;
         split; [lia|done]).
  destruct H as [Hatt Hslept]; [lia|]. split; [lia|].
  rewrite Hslept, <- app_assoc. f_equal.
  replace (attempts _ - S made) with (S (attempts
    (search_hotels_loop self parse_hotel city_api offers_api max_results
       (S retries) (S made) (sleeps ++ [retry_delay self])) - S (S made)))
    by lia.
  reflexivity.
Qed.

(** When every attempt raises an exception that is not a
    [ResponseError], the loops go round until the retries are used up
    and return the empty list. *)
Lemma search_flights_loop_gives_up retries made sleeps :
  retries < max_retries self ->
  (forall n, exists text, flight_api n = OtherError text) ->
  flights_loop retries made sleeps
  = {| value := PyList [];
       attempts := made + (max_retries self - retries);
       slept := sleeps
                ++ replicate (max_retries self - retries - 1)
                     (retry_delay self) |}.
Proof.
  intros Hroom Hfail.
  funelim (search_flights_loop self parse_flights flight_api retries made
             sleeps);
    try (destruct (Hfail made) as (text' & Hanswer); congruence); try lia.
  - replace (max_retries self - retries) with 1 by lia.
    cbn [replicate Nat.sub]. rewrite app_nil_r. f_equal. lia.
  - rewrite H; [|lia|done]. rewrite <- app_assoc. f_equal; [lia|].
    f_equal.
    replace (max_retries self - retries - 1)
      with (S (max_retries self - S retries - 1)) by lia.
    reflexivity.
Qed.

Lemma search_hotels_loop_gives_up max_results retries made sleeps :
  retries < max_retries self ->
  (forall n, exists text, city_api n = OtherError text) ->
  hotels_loop max_results retries made sleeps
  = {| value := PyList [];
       attempts := made + (max_retries self - retries);
       slept := sleeps
                ++ replicate (max_retries self - retries - 1)
                     (retry_delay self) |}.
Proof.
  intros Hroom Hfail.
  funelim (search_hotels_loop self parse_hotel city_api offers_api
             max_results retries made sleeps);
    try (destruct (Hfail made) as (text' & Hanswer); congruence); try lia.
  - replace (max_retries self - retries) with 1 by lia.
    cbn [replicate Nat.sub]. rewrite app_nil_r. f_equal. lia.
  - rewrite H; [|lia|done]. rewrite <- app_assoc. f_equal; [lia|].
    f_equal.
    replace (max_retries self - retries - 1)
      with (S (max_retries self - S retries - 1)) by lia.
    reflexivity.
Qed.
End Loops.

(** X19.  [search_hotels] returns [max_results] hotels at most, for
    [max_results] not negative: the availability loop stops once it has
    that many. *)
Theorem search_hotels_at_most_max
    {HotelOffer : Type} (self : handler)
    (parse_hotel : HotelOffer -> option hotel)
    (city_api : nat -> api_result (list (option string)))
    (offers_api : nat -> string -> api_result HotelOffer)
    (max_results : Z) (items : list hotel) :
  (0 <= max_results)%Z ->
  value (search_hotels self parse_hotel city_api offers_api max_results)
  = PyList items ->
  (Z.of_nat (length items) <= max_results)%Z.
Proof.
  intros Hmax. unfold search_hotels. destruct (client self).
  - by apply search_hotels_loop_length.
  - intros [= <-]. cbn [length]. lia.
Qed.

Lemma search_hotels_at_most_max_witness :
  exists items,
    value (search_hotels (init true) (fun _ : unit => Some sample_paid)
             (fun _ => Data [Some "H1"; None; Some "H2"; Some "H3"])
             (fun _ _ => Data tt) 2)
    = PyList items
    /\ (Z.of_nat (length items) <= 2)%Z.
Proof.
  eexists. split; [reflexivity|].
  apply (search_hotels_at_most_max (init true)
           (fun _ : unit => Some sample_paid)
           (fun _ => Data [Some "H1"; None; Some "H2"; Some "H3"])
           (fun _ _ => Data tt) 2); [lia|reflexivity].
Defined.

(** X20.  When every attempt raises an exception other than a
    [ResponseError], [search_flights] and [search_hotels] make three
    attempts, wait two seconds after the first and after the second, and
    return the empty list. *)
Theorem search_gives_up_after_errors
    {Offer HotelOffer : Type}
    (parse_flights : list Offer -> list flight)
    (flight_api : nat -> api_result (list Offer))
    (parse_hotel : HotelOffer -> option hotel)
    (city_api : nat -> api_result (list (option string)))
    (offers_api : nat -> string -> api_result HotelOffer)
    (max_results : Z) :
  (forall n, exists text, flight_api n = OtherError text) ->
  (forall n, exists text, city_api n = OtherError text) ->
  search_flights (init true) parse_flights flight_api
  = {| value := PyList []; attempts := 3; slept := [2; 2]%Z |}
  /\ search_hotels (init true) parse_hotel city_api offers_api max_results
     = {| value := PyList []; attempts := 3; slept := [2; 2]%Z |}.
Proof.
  intros Hflights Hcities. unfold search_flights, search_hotels.
  cbn [client init]. split.
  - by rewrite search_flights_loop_gives_up; [|cbn; lia|].
  - by rewrite search_hotels_loop_gives_up; [|cbn; lia|].
Qed.

Lemma search_gives_up_after_errors_witness :
  search_flights (init true) (fun _ : list unit => [])
    (fun _ => OtherError "connection reset")
  = {| value := PyList []; attempts := 3; slept := [2; 2]%Z |}
  /\ search_hotels (init true) (fun _ : unit => None)
       (fun _ => OtherError "connection reset") (fun _ _ => NoData) 5
     = {| value := PyList []; attempts := 3; slept := [2; 2]%Z |}.
Proof.
  apply (search_gives_up_after_errors (fun _ : list unit => [])
           (fun _ => OtherError "connection reset") (fun _ : unit => None)
           (fun _ => OtherError "connection reset") (fun _ _ => NoData) 5);
    intros n; by eexists.
Defined.

(** X21.  The waits of [search_flights] are bounded.  With the delays
    of [__init__], a run waits three times at most; its wait number
    [i], counted from 0, is the fixed two seconds or the doubled
    [2 ^ (i + 1)] seconds of a rate-limit answer; all in all it waits
    14 seconds at most. *)
Theorem search_flights_waits_bounded
    {Offer : Type} (client_ok : bool)
    (parse_flights : list Offer -> list flight)
    (flight_api : nat -> api_result (list Offer)) :
  let r := search_flights (init client_ok) parse_flights flight_api in
  length (slept r) <= 3
  /\ (forall i d, slept r !! i = Some d ->
        d = 2%Z \/ d = (2 ^ Z.of_nat (i + 1))%Z)
  /\ (foldr Z.add 0 (slept r) <= 14)%Z.
Proof.
  intros r. subst r. unfold search_flights. destruct client_ok; cbn [client init].
  2: { cbn. split; [lia|]. split; [done|lia]. }
  destruct (search_flights_loop_waits (init true) parse_flights flight_api
              0 0 []) as (extra & -> & L & D).
  cbn [app]. cbn in L.
  assert (Hd : forall i d, extra !! i = Some d ->
             d = 2%Z \/ d = (2 ^ Z.of_nat (i + 1))%Z).
  { intros i d Hi. destruct (D i d Hi) as [-> | ->]; [by left|right].
    cbn [rate_limit_delay init]. rewrite Z.mul_1_l. done. }
  split; [done|]. split; [done|].
  destruct extra as [|d0 [|d1 [|d2 [|d3 extra]]]]; cbn in *; try lia.
  - destruct (Hd 0 d0 eq_refl) as [-> | ->]; cbn; lia.
  - destruct (Hd 0 d0 eq_refl) as [-> | ->],
      (Hd 1 d1 eq_refl) as [-> | ->]; cbn; lia.
  - destruct (Hd 0 d0 eq_refl) as [-> | ->],
      (Hd 1 d1 eq_refl) as [-> | ->],
      (Hd 2 d2 eq_refl) as [-> | ->]; cbn; lia.
Qed.

(** X22.  [search_hotels] never backs off: with the delays of
    [__init__] it makes three attempts at most and waits two seconds
    after each attempt but the last. *)
Theorem search_hotels_waits
    {HotelOffer : Type} (client_ok : bool)
    (parse_hotel : HotelOffer -> option hotel)
    (city_api : nat -> api_result (list (option string)))
    (offers_api : nat -> string -> api_result HotelOffer)
    (max_results : Z) :
  let r := search_hotels (init client_ok) parse_hotel city_api offers_api
             max_results in
  attempts r <= 3 /\ slept r = replicate (attempts r - 1) 2%Z.
Proof.
  intros r. subst r. unfold search_hotels.
  destruct client_ok; cbn [client init]; [|cbn; split; [lia|done]].
  split.
  - apply (AmadeusAPIFacts.search_hotels_loop_attempts (init true)).
  - destruct (search_hotels_loop_waits (init true) parse_hotel city_api
                offers_api max_results 0 0 []) as [_ ->]; [cbn; lia|].
    reflexivity.
Qed.

End AmadeusWaitFacts.

(** *** [DuckDuckGoActivitySearch.search_activities] *)

Module WebSearchFacts.
Import PyStr PyOrder PyOrderFacts Rank Dedupe DedupeFacts WebSearch SliceFacts.

Lemma num_gtb_weak_order : weak_order num_gtb Qeq_bool.
Proof.
  destruct num_weak_order as [Ha Ht He]. unfold num_gtb. split.
  - intros a b. apply Ha.
  - intros a b c H1 H2. by apply (Ht c b a).
  - intros a b. rewrite He. tauto.
Qed.

(** X23.  What [search_activities] returns.  No two activities of the
    result have the same name up to case, none has an empty name, each
    was extracted from one of the pages, the ratings descend (an
    activity without a rating counting as rated 0), and for a limit
    that is not negative there are [limit] activities at most. *)
Theorem search_activities_result pages limit :
  let r := search_activities pages limit in
  NoDup (map activity_key r)
  /\ (forall a, a ∈ r ->
        activity_key a <> EmptyString
        /\ a ∈ concat (map page_activities pages))
  /\ (forall i j x y,
        (i < j)%nat -> r !! i = Some x -> r !! j = Some y ->
        (rating_key y <= rating_key x)%Q)
  /\ ((0 <= limit)%Z -> (Z.of_nat (length r) <= limit)%Z).
Proof.
  intros r. subst r. unfold search_activities.
  destruct pages as [|p pages].
  { split; [constructor|]. split; [by intros a H%elem_of_nil|].
    split; [done|]. cbn. lia. }
  set (all_activities := concat (map page_activities (p :: pages))).
  set (sorted := py_sorted num_gtb rating_key (dedupe_activities all_activities)).
  assert (Hperm : sorted ≡ₚ first_seen activity_key ∅ all_activities).
  { subst sorted. rewrite py_sorted_perm.
    by rewrite dedupe_activities_first_seen. }
  destruct (slice_to_prefix limit sorted) as [rest Hrest].
  split; [|split; [|split]].
  - assert (NoDup (map activity_key sorted)) as Hnd.
    { rewrite Hperm. apply first_seen_nodup. }
    rewrite Hrest, map_app in Hnd. by apply NoDup_app in Hnd as [? _].
  - intros a Ha. apply slice_to_elem in Ha. rewrite Hperm in Ha.
    apply first_seen_fresh in Ha as (? & ? & _). done.
  - intros i j x y Hij Hi Hj.
    assert (key_le num_gtb rating_key x y) as Hle.
    { eapply (strongly_sorted_lookup _ (slice_to limit sorted) i j x y);
        [|done..].
      apply slice_to_sorted. eapply py_sorted_sorted, num_gtb_weak_order. }
    unfold key_le, num_gtb in Hle. by apply num_ltb_ge in Hle.
  - apply slice_to_length.
Qed.

End WebSearchFacts.

(** *** [DuckDuckGoHotelSearch.search_hotels]: numbering and names *)

Module WebHotelFacts.
Import PyStr Dedupe DedupeFacts.

(** What the loops keep true of [all_hotels] and
    [processed_hotel_names]. *)
Local Abbreviation numbered all_hotels :=
  (forall i h, all_hotels !! i = Some h ->
               s_id h = "ddg-" +:+ str_of_nat i).
Local Abbreviation names_processed all_hotels processed :=
  (forall h, h ∈ all_hotels ->
     lower (s_name h) ∈ processed /\ s_name h <> EmptyString
     /\ s_source h = "DuckDuckGo Web Search").
Local Abbreviation distinct all_hotels :=
  (NoDup (map (fun h => lower (s_name h)) all_hotels)).

Section Loops.
Context (max_results : Z).

Local Abbreviation bound := (Z.to_nat (Z.max 1 max_results)).

Lemma scan_hotels_keeps hotels : forall all_hotels (processed : gset string),
  numbered all_hotels -> names_processed all_hotels processed ->
  distinct all_hotels -> length all_hotels < bound ->
  let st := scan_hotels max_results hotels (all_hotels, processed) in
  numbered (fst st) /\ names_processed (fst st) (snd st)
  /\ distinct (fst st) /\ length (fst st) <= bound.
Proof.
  induction hotels as [|h rest IH]; intros all_hotels processed Hn Hp Hd Hl;
    cbn [scan_hotels].
  { cbn [fst snd]. split; [done|]. split; [done|]. split; [done|lia]. }
  destruct (h_name h) as [name|] eqn:Hname; [|by apply IH].
  destruct (String.eqb name EmptyString) eqn:Hempty; [by apply IH|].
  destruct (decide (lower name ∈ processed)) as [Hin|Hout]; [by apply IH|].
  apply String.eqb_neq in Hempty.
  set (new := standardize (length all_hotels) name h).
  assert (numbered (all_hotels ++ [new])) as Hn'.
  { intros i x Hx. apply lookup_app_Some in Hx as [Hx|[Hge Hx]]; [by apply Hn|].
    apply list_lookup_singleton_Some in Hx as [Hi <-].
    replace i with (length all_hotels) by lia. reflexivity. }
  assert (names_processed (all_hotels ++ [new]) ({[lower name]} ∪ processed))
    as Hp'.
  { intros x Hx. apply elem_of_app in Hx as [Hx|Hx].
    - destruct (Hp x Hx) as (? & ? & ?). split; [set_solver|done].
    - apply list_elem_of_singleton in Hx as ->. cbn.
      split; [set_solver|done]. }
  assert (distinct (all_hotels ++ [new])) as Hd'.
  { rewrite map_app. apply NoDup_app. split; [done|].
    split; [|cbn; apply NoDup_singleton].
    intros k Hk Hk'. cbn in Hk'. apply list_elem_of_singleton in Hk' as ->.
    apply list_elem_of_fmap in Hk as (x & Hx & Hxin).
    destruct (Hp x Hxin) as (Hproc & _). rewrite <- Hx in Hproc. done. }
  destruct (enough max_results (all_hotels ++ [new])) eqn:Hfull.
  - cbn [fst snd]. split; [done|]. split; [done|]. split; [done|].
    rewrite length_app. cbn [length]. lia.
  - apply IH; try done. unfold enough in Hfull. apply Z.leb_gt in Hfull. lia.
Qed.

Lemma scan_pages_keeps pages : forall all_hotels (processed : gset string),
  numbered all_hotels -> names_processed all_hotels processed ->
  distinct all_hotels -> length all_hotels < bound ->
  let st := scan_pages max_results pages (all_hotels, processed) in
  numbered (fst st) /\ names_processed (fst st) (snd st)
  /\ distinct (fst st) /\ length (fst st) <= bound.
Proof.
  induction pages as [|[|hotels] rest IH];
    intros all_hotels processed Hn Hp Hd Hl; cbn [scan_pages].
  - cbn [fst snd]. split; [done|]. split; [done|]. split; [done|lia].
  - by apply IH.
  - pose proof (scan_hotels_keeps hotels all_hotels processed Hn Hp Hd Hl)
      as (Hn' & Hp' & Hd' & Hl').
    destruct (scan_hotels max_results hotels (all_hotels, processed))
      as [all' processed'] eqn:E. cbn [fst snd] in *.
    destruct (enough max_results all') eqn:Hfull; [done|].
    apply IH; try done. unfold enough in Hfull. apply Z.leb_gt in Hfull. lia.
Qed.
End Loops.

(** X24.  What [search_hotels] returns, for every [max_results].  The
    hotel at index [i] has the id [ddg-i]; no two hotels have the same
    name up to case; every hotel has a name and the source
    ["DuckDuckGo Web Search"]; and there are [max_results] hotels at
    most, but for one: the loop tests the size after it has appended, so
    a [max_results] of 0 or less still lets one hotel through. *)
Theorem search_hotels_numbered_distinct pages max_results :
  let r := search_hotels pages max_results in
  (forall i h, r !! i = Some h -> s_id h = "ddg-" +:+ str_of_nat i)
  /\ NoDup (map (fun h => lower (s_name h)) r)
  /\ (forall h, h ∈ r ->
        s_name h <> EmptyString /\ s_source h = "DuckDuckGo Web Search")
  /\ length r <= Z.to_nat (Z.max 1 max_results)
  /\ length (search_hotels [Extracted [hotel_named "Ritz" "Paris"]] 0) = 1.
Proof.
  intros r. subst r. unfold search_hotels.
  destruct pages as [|p pages].
  { cbn. split; [done|]. split; [constructor|].
    split; [by intros h H%elem_of_nil|]. split; [lia|done]. }
  pose proof (scan_pages_keeps max_results (p :: pages) [] ∅)
    as (Hn & Hp & Hd & Hl); try done.
  { by intros h H%elem_of_nil. }
  { constructor. }
  { cbn [length]. lia. }
  split; [exact Hn|]. split; [exact Hd|]. split; [|split; [exact Hl|done]].
  intros h Hh. by destruct (Hp h Hh) as (_ & ? & ?).
Qed.

End WebHotelFacts.

(** *** The scrapers: [make_request] and [clean_text] *)

Module ScraperFacts.
Import PyStr PyOrder Rank Effects Scraper Unicode.

Section RequestFacts.
Context {R : Type} (self : scraper) (get : nat -> attempt R).

(** The sleeps before the request number [k]: 2, 4, ... seconds. *)
Local Abbreviation sleeps_between from count :=
  (map (fun i => (Z.of_nat (S i) * 2)%Z) (seq from count)).

Lemma make_request_loop_answer retries sleeps k :
  retries <= k -> (Z.of_nat k < max_retries self)%Z ->
  (forall j, retries <= j < k -> exists e, get j = RequestException e) ->
  (forall e, get k <> RequestException e) ->
  make_request_loop self get retries sleeps
  = {| returned := match get k with
                   | Response r => Ok (Some r)
                   | OtherException e => Raise e
                   | RequestException _ => Ok None
                   end;
       requests := S k;
       waits := sleeps ++ sleeps_between retries (k - retries) |}.
Proof.
  intros Hk Hmax Hfail Hanswer.
  funelim (make_request_loop self get retries sleeps); try lia;
    (destruct (decide (retries = k)) as [<-|Hne];
     [ match goal with
       | Hg : get retries = RequestException _ |- _ =>
           by destruct (Hanswer _ Hg)
       | Hg : get retries = _ |- _ =>
           rewrite Hg, Nat.sub_diag; cbn; by rewrite app_nil_r
       end
     | destruct (Hfail retries) as (e & He); [lia|];
       try congruence; try lia ]).
  rewrite (H k); [|lia|done| |done].
  - f_equal. rewrite <- app_assoc. f_equal.
    replace (k - retries) with (S (k - S retries)) by lia. reflexivity.
  - intros j Hj. apply Hfail. lia.
Qed.

Lemma make_request_loop_gives_up retries sleeps :
  (Z.of_nat retries < max_retries self)%Z ->
  (forall j, retries <= j -> (Z.of_nat j < max_retries self)%Z ->
             exists e, get j = RequestException e) ->
  make_request_loop self get retries sleeps
  = {| returned := Ok None;
       requests := Z.to_nat (max_retries self);
       waits := sleeps
                ++ sleeps_between retries
                     (Z.to_nat (max_retries self) - 1 - retries) |}.
Proof.
  intros Hroom Hfail.
  funelim (make_request_loop self get retries sleeps); try lia;
    try (destruct (Hfail retries) as (e & He); [lia|lia|congruence]).
  - replace (Z.to_nat (max_retries self) - 1 - retries) with 0 by lia.
    cbn. rewrite app_nil_r. f_equal. lia.
  - rewrite H; [|lia|].
    + f_equal. rewrite <- app_assoc. f_equal.
      replace (Z.to_nat (max_retries self) - 1 - retries)
        with (S (Z.to_nat (max_retries self) - 1 - S retries)) by lia.
      reflexivity.
    + intros j Hj. apply Hfail. lia.
Qed.

(** The loop makes [max_retries] requests at most. *)
Lemma make_request_loop_requests retries sleeps :
  requests (make_request_loop self get retries sleeps)
  <= Nat.max retries (Z.to_nat (max_retries self)).
Proof.
  funelim (make_request_loop self get retries sleeps); cbn [requests]; lia.
Qed.
End RequestFacts.

(** X25.  The retry loop of [make_request].  The answer to the first
    request that is not a [RequestException], if it comes within
    [max_retries] requests, ends the run: a response is returned,
    another exception leaves the function; before it the run has slept
    2, 4, ... seconds, after the first, second, ... failure.  When
    [max_retries] requests in a row fail, [None] is returned, with no
    sleep after the last failure.  No run makes more than [max_retries]
    requests. *)
Theorem make_request_run {R : Type} (self : scraper) (get : nat -> attempt R) :
  (forall k,
     (Z.of_nat k < max_retries self)%Z ->
     (forall j, j < k -> exists e, get j = RequestException e) ->
     (forall e, get k <> RequestException e) ->
     make_request self get
     = {| returned := match get k with
                      | Response r => Ok (Some r)
                      | OtherException e => Raise e
                      | RequestException _ => Ok None
                      end;
          requests := S k;
          waits := map (fun i => (Z.of_nat (S i) * 2)%Z) (seq 0 k) |})
  /\ ((0 < max_retries self)%Z ->
      (forall j, (Z.of_nat j < max_retries self)%Z ->
                 exists e, get j = RequestException e) ->
      make_request self get
      = {| returned := Ok None;
           requests := Z.to_nat (max_retries self);
           waits := map (fun i => (Z.of_nat (S i) * 2)%Z)
                      (seq 0 (Z.to_nat (max_retries self) - 1)) |})
  /\ requests (make_request self get) <= Z.to_nat (max_retries self).
Proof.
  unfold make_request. split; [|split].
  - intros k Hk Hfail Hanswer.
    rewrite (make_request_loop_answer self get 0 [] k); try done; try lia.
    + by rewrite Nat.sub_0_r.
    + intros j Hj. apply Hfail. lia.
  - intros Hmax Hfail.
    rewrite make_request_loop_gives_up; [|lia|by intros j _; apply Hfail].
    by rewrite Nat.sub_0_r.
  - pose proof (make_request_loop_requests self get 0 []). lia.
Qed.

Lemma make_request_run_witness :
  make_request init
    (fun n => if (n <? 2)%nat then RequestException "503 Server Error"
              else Response "page")
  = {| returned := Ok (Some "page"); requests := 3; waits := [2; 4]%Z |}
  /\ make_request init
       (fun _ => @RequestException string "503 Server Error")
     = {| returned := Ok None; requests := 3; waits := [2; 4]%Z |}.
Proof.
  split.
  - apply (proj1 (make_request_run init
             (fun n => if (n <? 2)%nat then RequestException "503 Server Error"
                       else Response "page")) 2).
    + cbn. lia.
    + intros j Hj. exists "503 Server Error".
      destruct j as [|[|j]]; [done|done|lia].
    + done.
  - apply (proj1 (proj2 (make_request_run init
             (fun _ => @RequestException string "503 Server Error")))).
    + cbn. lia.
    + intros j _. by eexists.
Defined.

Section CleanText.
Context (u : classes) (Hspace : isspace u 32 = true).

Lemma lstrip_sub_blanks t : forall in_run,
  lstrip u (sub_blanks u in_run t) = sub_blanks u false (lstrip u t).
Proof.
  induction t as [|c r IH]; intros in_run; cbn [sub_blanks lstrip]; [done|].
  destruct (isspace u c) eqn:Hc.
  - destruct in_run; [apply IH|]. cbn [lstrip]. rewrite Hspace.
    apply IH.
  - cbn [lstrip sub_blanks]. by rewrite Hc.
Qed.

Lemma rstrip_cons c r :
  isspace u c = false -> rstrip u (c :: r) = c :: rstrip u r.
Proof. intros Hc. cbn [rstrip]. rewrite Hc. by destruct (rstrip u r). Qed.

Lemma rstrip_sub_blanks r :
  rstrip u (sub_blanks u false r) = squeeze u false r
  /\ squeeze u true r
     = match rstrip u (sub_blanks u true r) with
       | [] => []
       | x => 32%N :: x
       end.
Proof.
  induction r as [|c r [IH1 IH2]]; [done|].
  cbn [sub_blanks squeeze]. destruct (isspace u c) eqn:Hc.
  - split; [|exact IH2].
    cbn [rstrip]. rewrite Hspace, IH2.
    by destruct (rstrip u (sub_blanks u true r)).
  - rewrite (rstrip_cons c _ Hc), IH1. done.
Qed.

Lemma clean_text_squeeze t :
  clean_text u (Some t) = squeeze u false (lstrip u t).
Proof.
  unfold clean_text, strip. rewrite lstrip_sub_blanks.
  apply rstrip_sub_blanks.
Qed.

Lemma squeeze_tidy_after s : forall pending,
  tidy_after u false (squeeze u pending s) = true.
Proof.
  induction s as [|c r IH]; intros pending; cbn [squeeze]; [done|].
  destruct (isspace u c) eqn:Hc; [apply IH|].
  destruct pending; cbn [tidy_after]; rewrite ?Hspace, ?Hc; cbn;
    rewrite ?Hc; apply IH.
Qed.

Lemma lstrip_head t :
  match lstrip u t with
  | [] => True
  | c :: _ => isspace u c = false
  end.
Proof.
  induction t as [|c r IH]; cbn [lstrip]; [done|].
  by destruct (isspace u c) eqn:Hc.
Qed.

Lemma squeeze_tidy t : tidy u (squeeze u false (lstrip u t)) = true.
Proof.
  pose proof (lstrip_head t) as Hh. destruct (lstrip u t) as [|c r]; [done|].
  pose proof (squeeze_tidy_after (c :: r) false) as Ht.
  cbn [squeeze] in *. rewrite Hh in *. cbn [tidy]. by rewrite Hh, Ht.
Qed.

Lemma tidy_after_squeeze s :
  (tidy_after u false s = true -> squeeze u false s = s)
  /\ (tidy_after u true s = true -> squeeze u true s = 32%N :: s).
Proof.
  induction s as [|c r [IH1 IH2]]; [split; [done|discriminate]|].
  cbn [tidy_after squeeze]. destruct (isspace u c) eqn:Hc.
  - split.
    + intros H. apply andb_prop in H as [H Hr]. apply andb_prop in H as [Hs _].
      apply N.eqb_eq in Hs as ->. by rewrite (IH2 Hr).
    + intros H. apply andb_prop in H as [H _]. apply andb_prop in H as [_ H].
      discriminate.
  - split; intros H; by rewrite (IH1 H).
Qed.

Lemma tidy_fixed v : tidy u v = true -> squeeze u false (lstrip u v) = v.
Proof.
  destruct v as [|c r]; [done|]. cbn [tidy]. intros H.
  apply andb_prop in H as [Hc Ht]. apply negb_true_iff in Hc.
  cbn [lstrip]. rewrite Hc. by apply tidy_after_squeeze.
Qed.

Lemma letters_squeeze s : forall pending,
  letters u (squeeze u pending s) = letters u s.
Proof.
  induction s as [|c r IH]; intros pending; cbn [squeeze letters]; [done|].
  destruct (isspace u c) eqn:Hc; [apply IH|].
  destruct pending; cbn [letters]; rewrite ?Hspace, ?Hc;
    cbn [letters]; rewrite ?Hc; by rewrite IH.
Qed.

Lemma letters_lstrip s : letters u (lstrip u s) = letters u s.
Proof.
  induction s as [|c r IH]; cbn [lstrip letters]; [done|].
  destruct (isspace u c) eqn:Hc; [done|]. cbn [letters]. by rewrite Hc.
Qed.
End CleanText.

(** X26.  A text is the sequence of its code points and the whitespace
    is that of the interpreter's Unicode database, of which only that
    the space U+0020 belongs to it is used ([\s] and [strip] test the
    same class).  [clean_text] puts a text in a normal form and changes
    no text that is in it.  In the result the only whitespace is single
    spaces, each between two other characters; the characters that are
    not whitespace are those of the argument, in their order; a text in
    this form is returned as it is, so that cleaning twice is cleaning
    once; and [None] gives the empty text.  The substitution followed by
    [strip] comes to one pass that writes a space for each inner run of
    whitespace. *)
Theorem clean_text_normal_form (u : classes) (t : str) :
  isspace u 32 = true ->
  let s := clean_text u (Some t) in
  tidy u s = true
  /\ letters u s = letters u t
  /\ clean_text u (Some s) = s
  /\ s = squeeze u false (lstrip u t)
  /\ (forall v, tidy u v = true -> clean_text u (Some v) = v)
  /\ clean_text u None = [].
Proof.
  intros Hspace s. subst s. rewrite !clean_text_squeeze by done.
  split; [by apply squeeze_tidy|].
  split; [by rewrite letters_squeeze, letters_lstrip|].
  split; [by apply tidy_fixed, squeeze_tidy|].
  split; [done|].
  split; [|done]. intros v Hv. rewrite clean_text_squeeze by done.
  by apply tidy_fixed.
Qed.

Lemma clean_text_normal_form_witness :
  clean_text unicode_14 (Some [160; 97; 160; 160; 98; 9; 10; 99; 8195]%N)
  = [97; 32; 98; 32; 99]%N
  /\ tidy unicode_14 [97; 32; 98; 32; 99]%N = true
  /\ letters unicode_14 [160; 97; 160; 160; 98; 9; 10; 99; 8195]%N
     = [97; 98; 99]%N.
Proof.
  destruct (clean_text_normal_form unicode_14
              [160; 97; 160; 160; 98; 9; 10; 99; 8195]%N eq_refl)
    as (Htidy & Hletters & _ & Hs & _).
  split; [exact Hs|]. split; [exact Htidy|]. exact Hletters.
Defined.

End ScraperFacts.

(** *** [FlightScraper]: ranking and the search over all sites *)

Module FlightScraperFacts.
Import PyStr PyOrder PyOrderFacts Rank RankFacts Effects Scraper.
Import FlightScraper SliceFacts.



Lemma ranked_flights_from results top_n f :
  f ∈ _filter_and_rank_results results top_n ->
  f ∈ results /\ priced f = true.
Proof.
  unfold _filter_and_rank_results. destruct results as [|r results];
    [by intros H%elem_of_nil|].
  intros H%slice_to_elem. rewrite py_sorted_perm in H.
  apply list_elem_of_In, filter_In in H as [H ?]. by apply list_elem_of_In in H.
Qed.

Lemma ranked_flights_length results top_n :
  (0 <= top_n)%Z ->
  (Z.of_nat (length (_filter_and_rank_results results top_n)) <= top_n)%Z.
Proof.
  intros Htop. unfold _filter_and_rank_results.
  destruct results; [cbn; lia|]. by apply slice_to_length.
Qed.


End FlightScraperFacts.

(** *** The flight scraper behind [get_flight_options] *)

Module ScrapedFlightsFacts.
Import PyStr PyOrder PyOrderFacts Rank Effects Handlers TripPlanner.
Import TripPlannerFacts Scraper ScrapedFlights SliceFacts FlightScraperFacts.

(** Every [scrape_*] method ends in the ranking or in the empty list. *)
Lemma scrape_ranked {R} self (get : nat -> attempt R) cards :
  ranked_run (FlightScraper.scrape self get cards).
Proof.
  intros found. unfold FlightScraper.scrape.
  destruct (returned (make_request self get)) as [[response|]|e];
    intros [= <-]; [by eexists|by exists []].
Qed.

(** The dictionary of [search_flights_all_sites] always has its five
    keys, in order, each with the list of its own site. *)
Lemma all_sites_entries runs :
  let found run := match run with Ok l => l | Raise _ => [] end in
  all_sites runs
  = [("skyscanner", found (skyscanner runs));
     ("kayak", found (kayak runs));
     ("expedia", found (expedia runs));
     ("google_flights", found (google_flights runs));
     ("priceline", found (priceline runs))].
Proof.
  intros found. unfold all_sites, FlightScraper.search_flights_all_sites.
  cbv zeta. unfold FlightScraper.site_entry.
  destruct (skyscanner runs), (kayak runs), (expedia runs),
    (google_flights runs), (priceline runs); reflexivity.
Qed.

Lemma ranked_run_found run :
  ranked_run run ->
  let found := match run with Ok l => l | Raise _ => [] end in
  Forall (fun f => FlightScraper.priced f = true) found
  /\ length found <= 3.
Proof.
  intros Hrun found. subst found. destruct run as [l|e].
  - destruct (Hrun l eq_refl) as (results & ->).
    pose proof (ranked_flights_length results 3) as Hlen.
    split; [|lia]. apply Forall_forall. intros f Hf.
    by apply ranked_flights_from in Hf as [_ ?].
  - split; [constructor|cbn; lia].
Qed.

Lemma add_flight_sites_elem max_results all_results : forall results s fs,
  (s, fs) ∈ add_flight_sites max_results all_results results ->
  (s, fs) ∈ results
  \/ exists fs0, (s, fs0) ∈ all_results
                 /\ fs = take (Z.to_nat max_results) fs0.
Proof.
  unfold add_flight_sites.
  induction all_results as [|[site flights] rest IH]; intros results s fs;
    cbn [foldl]; [by left|].
  intros H. apply IH in H as [H|(fs0 & Hin & ->)].
  - destruct (nonempty _).
    + apply dict_set_elem in H as [[= -> ->]|H]; [|by left].
      right. eexists. split; [by left|done].
    + by left.
  - right. exists fs0. split; [by right|done].
Qed.

Lemma amadeus_flights_key b get_airport_code origin destination t :
  forall s (fs : list flight),
    (s, fs) ∈ default [] (match fst (amadeus_flights b get_airport_code
                                       origin destination t) with
                          | Ok r => Some r
                          | Raise _ => None
                          end) ->
    s = "amadeus".
Proof.
  unfold amadeus_flights. unfold_monad.
  repeat case_match; simplify_eq/=; intros s fs;
    try (by intros H%elem_of_nil).
  all: try (intros H%list_elem_of_singleton; by injection H).
Qed.

(** X28.  With [FlightScraper] as the flight scraper of
    [get_flight_options]: the dictionary of
    [search_flights_all_sites] has its five keys whatever the sites do,
    a site that raised having the empty list; and in the options every
    list of [by_site] other than the one of Amadeus is the list of one
    of the five sites, holds priced flights only, and at most three of
    them and at most [max_results]. *)
Theorem scraped_sites_in_flight_options b get_airport_code runs
    origin destination max_results t options :
  (forall o d, ranked_runs (runs o d)) ->
  result_from (get_flight_options (with_flight_scraper b runs)
                 get_airport_code origin destination max_results) t
  = Ok options ->
  (forall o d, map fst (all_sites (runs o d)) = site_names)
  /\ forall s fs, (s, fs) ∈ fo_by_site options -> s <> "amadeus" ->
       s ∈ site_names
       /\ Forall (fun f => FlightScraper.priced f = true) fs
       /\ length fs <= 3
       /\ (Z.of_nat (length fs) <= Z.max 0 max_results)%Z.
Proof.
  intros Hruns Hrun.
  split; [intros o d; by rewrite all_sites_entries|].
  revert Hrun. unfold get_flight_options, result_from.
  pose proof (amadeus_flights_key (with_flight_scraper b runs)
                get_airport_code origin destination t) as Hkey.
  destruct (amadeus_flights_returns (with_flight_scraper b runs)
              get_airport_code origin destination t) as (r1 & t1 & E1).
  rewrite E1 in Hkey. cbn [fst default] in Hkey.
  unfold mbind, ST_bind, bind. rewrite E1.
  unfold scraped_flights. unfold_monad. cbn.
  intros [= <-] s fs Hin Hs.
  set (run := runs (get_airport_code origin) (get_airport_code destination))
    in *.
  unfold flight_options_of in Hin.
  destruct (nonempty _); [|by apply elem_of_nil in Hin].
  cbn [fo_by_site] in Hin.
  apply add_flight_sites_elem in Hin as [Hin|(fs0 & Hin & ->)].
  { by destruct (Hs (Hkey _ _ Hin)). }
  rewrite all_sites_entries in Hin. cbv zeta in Hin.
  destruct (Hruns (get_airport_code origin) (get_airport_code destination))
    as (H1 & H2 & H3 & H4 & H5). fold run in H1, H2, H3, H4, H5.
  assert (s ∈ site_names
          /\ Forall (fun f => FlightScraper.priced f = true) fs0
          /\ length fs0 <= 3) as (Hname & Hpriced & Hlen).
  { unfold site_names.
    rewrite !elem_of_cons, elem_of_nil in Hin.
    destruct Hin as [[= -> ->]|[[= -> ->]|[[= -> ->]|[[= -> ->]|[[= -> ->]|[]]]]]];
      (split; [rewrite !elem_of_cons; tauto|]);
      by apply ranked_run_found. }
  split; [done|]. split; [by apply Forall_take|].
  rewrite length_take. split; lia.
Qed.

Lemma scraped_sites_in_flight_options_witness :
  exists options,
    result_from (get_flight_options
                   (with_flight_scraper silent (fun _ _ => sample_runs))
                   (fun _ => "XXX") "Paris" "Rome" 2) [] = Ok options
    /\ fo_by_site options = [("skyscanner", [sample_direct; sample_one_stop])]
    /\ forall s fs, (s, fs) ∈ fo_by_site options -> s <> "amadeus" ->
         s ∈ site_names
         /\ Forall (fun f => FlightScraper.priced f = true) fs
         /\ length fs <= 3
         /\ (Z.of_nat (length fs) <= Z.max 0 2)%Z.
Proof.
  eexists. split; [reflexivity|]. split; [reflexivity|].
  apply (scraped_sites_in_flight_options silent (fun _ => "XXX")
           (fun _ _ => sample_runs) "Paris" "Rome" 2 []); [|reflexivity].
  intros _ _. unfold ranked_runs, sample_runs. cbn [skyscanner kayak expedia
    google_flights priceline].
  split; [apply scrape_ranked|]. split; [apply scrape_ranked|].
  split; [by intros found|].
  split; intros found [= <-]; by exists [].
Defined.

End ScrapedFlightsFacts.

(** *** [get_airport_code] *)

Module AirportCodesFacts.
Import PyStr AirportCodes.

Lemma table_codes_length key code :
  (key, code) ∈ airport_codes -> String.length code = 3.
Proof.
  unfold airport_codes. rewrite !elem_of_cons, elem_of_nil.
  intros H. repeat destruct H as [H|H]; try done; by injection H as _ ->.
Qed.

Lemma lookup_elem k d v : lookup k d = Some v -> (k, v) ∈ d.
Proof.
  induction d as [|[k' v'] d IH]; [done|]. cbn [lookup].
  destruct (String.eqb k' k) eqn:E.
  - apply String.eqb_eq in E as ->. intros [= ->]. by left.
  - intros H. right. by apply IH.
Qed.

Lemma upper_length s : String.length (upper s) = String.length s.
Proof. induction s; cbn; congruence. Qed.

Lemma substring_length s :
  String.length (String.substring 0 3 s) = Nat.min 3 (String.length s).
Proof.
  destruct s as [|a [|b [|c s]]]; cbn; try done.
  by destruct s.
Qed.

(** X29.  What [get_airport_code] returns, for names in ASCII ([lower]
    and [upper] change the letters of ASCII only).  A city whose name, in
    lower case, is a key of the table gets the code of that key; a city
    whose name holds a key, or is part of one, gets a code of the table;
    the others get the first three characters of the name in upper case.
    The code has one to three characters for every city: the empty name
    is part of every key, so it gets the first code of the table, JFK. *)
Theorem get_airport_code_result :
  (forall city key code,
     (key, code) ∈ airport_codes -> lower city = key ->
     get_airport_code city = code)
  /\ (forall city,
        (exists entry, entry ∈ airport_codes
                       /\ partial_match (lower city) entry = true) ->
        exists key code,
          (key, code) ∈ airport_codes /\ get_airport_code city = code)
  /\ (forall city,
        (forall entry, entry ∈ airport_codes ->
                       partial_match (lower city) entry = false) ->
        get_airport_code city = String.substring 0 3 (upper city))
  /\ (forall city,
        1 <= String.length (get_airport_code city) <= 3)
  /\ get_airport_code EmptyString = "JFK".
Proof.
  split; [|split; [|split; [|split]]].
  - intros city key code Hin <-. unfold get_airport_code.
    revert Hin. unfold airport_codes. rewrite !elem_of_cons, elem_of_nil.
    intros H. repeat destruct H as [H|H]; try done;
      injection H as Hk ->; by rewrite Hk.
  - intros city (entry & Hin & Hm). unfold get_airport_code.
    destruct (lookup (lower city) airport_codes) as [code|] eqn:E.
    + exists (lower city), code. split; [by apply lookup_elem|done].
    + destruct (List.find _ airport_codes) as [[key code]|] eqn:F.
      * apply find_some in F as [F _]. apply list_elem_of_In in F.
        by exists key, code.
      * apply list_elem_of_In in Hin.
        pose proof (find_none _ _ F entry Hin). congruence.
  - intros city Hnone. unfold get_airport_code.
    destruct (lookup (lower city) airport_codes) as [code|] eqn:E.
    + apply lookup_elem in E.
      specialize (Hnone _ E). unfold partial_match in Hnone.
      cbn [fst] in Hnone. apply orb_false_elim in Hnone as [Hnone _].
      assert (contains (lower city) (lower city) = true) as Hself.
      { destruct (lower city) as [|c r]; cbn; [done|].
        assert (forall s, strip_prefix s s = Some EmptyString) as Hs.
        { induction s as [|a s IH]; cbn; [done|].
          by rewrite Ascii.eqb_refl. }
        by rewrite Ascii.eqb_refl, Hs. }
      congruence.
    + destruct (List.find _ airport_codes) as [[key code]|] eqn:F; [|done].
      apply find_some in F as [F Hm]. apply list_elem_of_In in F.
      specialize (Hnone _ F). congruence.
  - intros city. unfold get_airport_code.
    destruct (lookup (lower city) airport_codes) as [code|] eqn:E.
    { apply lookup_elem, table_codes_length in E. lia. }
    destruct (List.find _ airport_codes) as [[key code]|] eqn:F.
    { apply find_some in F as [F _].
      apply list_elem_of_In, table_codes_length in F. lia. }
    rewrite substring_length, upper_length.
    destruct city as [|c r]; [discriminate F|]. cbn [String.length]. lia.
  - reflexivity.
Qed.

End AirportCodesFacts.

(** *** [AmadeusAPIHandler.get_city_code] *)

Module CityCodeFacts.
Import PyStr PyOrder Rank AmadeusAPI CityCode.

Lemma code_of_locations_elem data c :
  code_of_locations data = Some c -> Some c ∈ map iataCode data.
Proof.
  unfold code_of_locations.
  destruct (List.find is_city data) as [l|] eqn:F.
  - apply find_some in F as [F _]. intros <-.
    apply list_elem_of_fmap. exists l. split; [done|].
    by apply list_elem_of_In.
  - destruct data as [|first rest]; [done|]. intros <-. by left.
Qed.

Section Loop.
Context (self : handler).
Context (cities locations : nat -> api_result (list location)).

Lemma attempt_body_codes n c :
  attempt_body cities locations n = Return (Some c) ->
  Some c ∈ answer_codes (cities n) ++ answer_codes (locations n).
Proof.
  unfold attempt_body, answer_codes. intros H. apply elem_of_app.
  assert (match locations n with
          | Data [] | NoData => Return None
          | Data data => Return (code_of_locations data)
          | ResponseError text => RaisedResponseError text
          | OtherError text => RaisedOther text
          end = Return (Some c) ->
          Some c ∈ match locations n with
                   | Data data => map iataCode data
                   | _ => []
                   end) as Hsecond.
  { destruct (locations n) as [[|l data]| | |]; try done.
    intros [= E]. by apply code_of_locations_elem. }
  destruct (cities n) as [[|first rest]| | |]; try done;
    try (right; by apply Hsecond).
  destruct (truthy_code (iataCode first)); [|right; by apply Hsecond].
  injection H as H. left. cbn. rewrite H. by left.
Qed.

Lemma get_city_code_loop_from retries made sleeps c :
  code (get_city_code_loop self cities locations retries made sleeps)
  = Some c ->
  exists n,
    made <= n
    < tries (get_city_code_loop self cities locations retries made sleeps)
    /\ Some c ∈ answer_codes (cities n) ++ answer_codes (locations n).
Proof.
  funelim (get_city_code_loop self cities locations retries made sleeps);
    cbn [code tries]; try done.
  - intros [= ->]. exists made. split; [lia|]. by apply attempt_body_codes.
  - intros Hc. destruct (H c Hc) as (k & Hk & Hin). exists k. split; [lia|done].
  - intros Hc. destruct (H c Hc) as (k & Hk & Hin). exists k. split; [lia|done].
Qed.

Lemma get_city_code_loop_tries retries made sleeps :
  tries (get_city_code_loop self cities locations retries made sleeps)
  <= made + (max_retries self - retries).
Proof.
  funelim (get_city_code_loop self cities locations retries made sleeps);
    cbn [tries]; lia.
Qed.

Lemma get_city_code_loop_limited retries made sleeps :
  (forall n, exists text,
     cities n = ResponseError text /\ rate_limited text = true) ->
  code (get_city_code_loop self cities locations retries made sleeps) = None
  /\ tries (get_city_code_loop self cities locations retries made sleeps)
     = made + (max_retries self - retries).
Proof.
  intros Hlimited.
  assert (Hbody : forall n, exists text,
             attempt_body cities locations n = RaisedResponseError text
             /\ rate_limited text = true).
  { intros n. destruct (Hlimited n) as (text & E & Hr). exists text.
    unfold attempt_body. by rewrite E. }
  funelim (get_city_code_loop self cities locations retries made sleeps);
    cbn [code tries];
    try (destruct (Hbody made) as (text' & Hanswer & Hrate); congruence).
  - split; [done|lia].
  - destruct (H Hlimited Hbody) as [Hv Ha]. split; [done|]. rewrite Ha. lia.
Qed.
End Loop.

(** X30.  What [get_city_code] returns, with the settings of
    [__init__].  A run makes three attempts at most; a code it returns
    is the [iataCode] of a location in one of the two responses of an
    attempt it made; the first hit of the cities endpoint, when its
    code is not empty, is returned without a request to the general
    endpoint mattering; and [None] comes back without a client, and
    after three attempts when each was answered by a rate-limit
    error. *)
Theorem get_city_code_result (client_ok : bool)
    (cities locations : nat -> api_result (list location)) :
  let r := get_city_code (init client_ok) cities locations in
  tries r <= 3
  /\ (forall c, code r = Some c ->
        exists n, n < tries r
                  /\ Some c ∈ answer_codes (cities n)
                              ++ answer_codes (locations n))
  /\ (forall first rest,
        client_ok = true -> cities 0 = Data (first :: rest) ->
        truthy_code (iataCode first) = true ->
        r = {| code := iataCode first; tries := 1; pauses := [] |})
  /\ (client_ok = false -> r = {| code := None; tries := 0; pauses := [] |})
  /\ ((forall n, exists text,
         cities n = ResponseError text /\ rate_limited text = true) ->
      code r = None /\ (client_ok = true -> tries r = 3)).
Proof.
  intros r. subst r. unfold get_city_code.
  destruct client_ok; cbn [client init].
  - split; [apply (get_city_code_loop_tries (init true))|].
    split.
    { intros c Hc.
      destruct (get_city_code_loop_from (init true) cities locations
                  0 0 [] c Hc) as (n & Hn & Hin).
      exists n. split; [lia|done]. }
    split.
    { intros first rest _ Hfirst Htruthy. simp get_city_code_loop. cbn.
      unfold attempt_body. rewrite Hfirst, Htruthy. by cbn. }
    split; [done|].
    intros Hlimited.
    destruct (get_city_code_loop_limited (init true) cities locations
                0 0 [] Hlimited) as [Hc Ht].
    split; [done|]. intros _. by rewrite Ht.
  - cbn. split; [lia|]. split; [done|]. split; [done|]. split; [done|].
    by intros _.
Qed.

End CityCodeFacts.
